(** * promptflow.contracts.flow: reference codec, node model, variant
      resolution, node overrides and connection discovery

    A shallow embedding of [src/promptflow/promptflow/contracts/flow.py].

    Python values whose type the code does not fix at run time (whatever
    [data.get] returns from a parsed YAML tree, the [value] of an input
    assignment) are elements of the universal type [pyval].  Python [str]
    is [string], one [ascii] per character.  Exceptions are values of [exn]
    carried by [result].  [Node] objects are mutated in place by the code,
    so they live in a store indexed by object identity [loc]; everything
    that never changes after construction is a plain value.  The [inputs]
    dict of a node belongs to that node alone, as [Node.deserialize] builds
    it, and is part of the node's value. *)

From Stdlib Require Import Ascii String.
From stdpp Require Import base decidable option list functions strings.

Set Warnings "-register-all,-clear-no-such-hyp".
Local Open Scope string_scope.

(** ** Enumerations *)

Inductive InputValueType := LITERAL | FLOW_INPUT | NODE_REFERENCE.

(** Modelled from the spec: the tool categories of [ToolType], declared in
    [contracts/tool.py].  This module distinguishes the Prompt and the LLM
    category from all others; which strings name a category is left to
    [ToolType_of_value] below. *)
Inductive ToolType := LLM | PROMPT | OTHER_TOOL (tag : string).

(** ** Python values *)

Inductive pyval :=
| PNone
| PBool (b : bool)
| PInt (n : Z)
| PStr (s : string)
| PList (l : list pyval)
| PDict (d : list (string * pyval))
| PInputValueType (t : InputValueType)
| PToolType (t : ToolType).

(** A [dict] with [str] keys, in insertion order. *)
Definition dict (V : Type) := list (string * V).

Fixpoint dict_get {V} (d : dict V) (k : string) : option V :=
  match d with
  | [] => None
  | (k', v) :: d' => if String.eqb k' k then Some v else dict_get d' k
  end.

(** [d[k] = v]: the value is replaced where the key stands, a new key goes
    to the end. *)
Fixpoint dict_set {V} (d : dict V) (k : string) (v : V) : dict V :=
  match d with
  | [] => [(k, v)]
  | (k', v') :: d' =>
      if String.eqb k' k then (k', v) :: d' else (k', v') :: dict_set d' k v
  end.

Definition dict_values {V} (d : dict V) : list V := map snd d.

(** [k in d] *)
Definition dict_has {V} (d : dict V) (k : string) : bool :=
  match dict_get d k with Some _ => true | None => false end.

(** [d.get(k, default)] *)
Definition dict_get_default (d : dict pyval) (k : string) (default : pyval) : pyval :=
  match dict_get d k with Some v => v | None => default end.

(** Truth value of an object in a condition.  Enum members are true. *)
Definition truthy (v : pyval) : bool :=
  match v with
  | PNone => false
  | PBool b => b
  | PInt n => negb (Z.eqb n 0)
  | PStr s => negb (String.eqb s "")
  | PList l => match l with [] => false | _ => true end
  | PDict d => match d with [] => false | _ => true end
  | PInputValueType _ | PToolType _ => true
  end.

(** [a or b] *)
Definition py_or (a b : pyval) : pyval := if truthy a then a else b.

(** Lists and dicts have no hash. *)
Definition hashable (v : pyval) : bool :=
  match v with
  | PList _ | PDict _ => false
  | _ => true
  end.

(** [v == s] for a [str] s. *)
Definition eq_str (v : pyval) (s : string) : bool :=
  match v with
  | PStr s' => String.eqb s' s
  | _ => false
  end.

(** ** Exceptions *)

Inductive exn :=
| ValueError_unexpected_flow_input (value : string)
| ValueError_cannot_find_node (node_name : string) (flow_name : pyval)
| ValueError_unpack (expected got : nat)
| ValueError_not_a_member (v : pyval)
| KeyError (key : string)
| IndexError
| TypeError
| AttributeError
| NodeConditionConflict (node_name : pyval).

Inductive result (A : Type) :=
| Ok (a : A)
| Raise (e : exn).
Arguments Ok {A} a.
Arguments Raise {A} e.

Definition result_bind {A B} (m : result A) (k : A -> result B) : result B :=
  match m with
  | Ok a => k a
  | Raise e => Raise e
  end.

Notation "'let*' x := m 'in' k" := (result_bind m (fun x => k))
  (at level 10, x name, m at level 100, k at level 200).
Notation "'let*' ' pat := m 'in' k" :=
  (result_bind m (fun x => match x with pat => k end))
  (at level 10, pat pattern, m at level 100, k at level 200).

Fixpoint result_map {A B} (f : A -> result B) (l : list A) : result (list B) :=
  match l with
  | [] => Ok []
  | x :: l' =>
      let* y := f x in
      let* ys := result_map f l' in
      Ok (y :: ys)
  end.

(** [v[k]] for a [str] k: only a dict can be subscripted by a string. *)
Definition subscript (v : pyval) (k : string) : result pyval :=
  match v with
  | PDict d => match dict_get d k with Some x => Ok x | None => Raise (KeyError k) end
  | _ => Raise TypeError
  end.

(** [d.get(k)] on a dict with [str] keys, for a key of any type: an
    unhashable key raises, a key that is not a [str] is not found. *)
Definition dict_get_py {V} (d : dict V) (k : pyval) : result (option V) :=
  match k with
  | PStr s => Ok (dict_get d s)
  | PList _ | PDict _ => Raise TypeError
  | _ => Ok None
  end.

(** ** Strings *)

(** [s.startswith(p)] *)
Definition startswith (s p : string) : bool := String.prefix p s.

(** [s[n:]] *)
Fixpoint str_drop (n : nat) (s : string) : string :=
  match n, s with
  | O, _ => s
  | S n', String _ s' => str_drop n' s'
  | S _, EmptyString => EmptyString
  end.

(** [s[:-1]] *)
Fixpoint str_drop_last (s : string) : string :=
  match s with
  | EmptyString => EmptyString
  | String c EmptyString => EmptyString
  | String c s' => String c (str_drop_last s')
  end.

(** [s[0]] and [s[-1]], [None] standing for the [IndexError] of an empty
    string. *)
Definition str_first (s : string) : option ascii :=
  match s with
  | EmptyString => None
  | String c _ => Some c
  end.

Fixpoint str_last (s : string) : option ascii :=
  match s with
  | EmptyString => None
  | String c EmptyString => Some c
  | String _ s' => str_last s'
  end.

Definition index (s : string) (at_ : string -> option ascii) : result ascii :=
  match at_ s with
  | Some c => Ok c
  | None => Raise IndexError
  end.

(** [c in s] for a one-character string c. *)
Fixpoint str_contains (c : ascii) (s : string) : bool :=
  match s with
  | EmptyString => false
  | String c' s' => if Ascii.eqb c' c then true else str_contains c s'
  end.

(** [s.split(sep, maxsplit)] for a one-character separator: the first piece
    and the list of the pieces after it. *)
Fixpoint split_pieces (sep : ascii) (maxsplit : nat) (s : string) : string * list string :=
  match s with
  | EmptyString => (EmptyString, [])
  | String c s' =>
      if Ascii.eqb c sep then
        match maxsplit with
        | O => (s, [])
        | S n => let '(p, ps) := split_pieces sep n s' in (EmptyString, p :: ps)
        end
      else let '(p, ps) := split_pieces sep maxsplit s' in (String c p, ps)
  end.

Definition str_split (sep : ascii) (maxsplit : option nat) (s : string) : list string :=
  let n := match maxsplit with Some n => n | None => String.length s end in
  let '(p, ps) := split_pieces sep n s in p :: ps.

(** [a, b = l] *)
Definition unpack2 {A} (l : list A) : result (A * A) :=
  match l with
  | [a; b] => Ok (a, b)
  | _ => Raise (ValueError_unpack 2 (length l))
  end.

(** [s.lower()] on the letters A to Z. *)
Definition lower_ascii (c : ascii) : ascii :=
  let n := nat_of_ascii c in
  if (65 <=? n)%nat && (n <=? 90)%nat then ascii_of_nat (n + 32) else c.

Fixpoint lower (s : string) : string :=
  match s with
  | EmptyString => EmptyString
  | String c s' => String (lower_ascii c) (lower s')
  end.

(** ** What the module imports *)

(** The names this module takes from [contracts/tool.py] and from the
    interpreter. *)
Class Imports := {
  (** [str(v)] for a value that is not a [str], as an f-string formats it. *)
  str_of : pyval -> string;
  (** Modelled from the spec: [ConnectionType.is_connection_value] and
      [ConnectionType.serialize_conn] of [contracts/tool.py], the test for
      an opaque connection marker and the marker's own textual form. *)
  is_connection_value : pyval -> bool;
  serialize_conn : pyval -> pyval;
  (** Modelled from the spec: [ToolType(v)], the member of the [ToolType]
      enum of [contracts/tool.py] with value v, [None] where the enum
      raises [ValueError]. *)
  ToolType_of_value : pyval -> option ToolType;
  (** Modelled from the spec: the values of the members of the [ValueType]
      enum of [contracts/tool.py], the plain value types. *)
  ValueType_values : list string;
}.

(** [f"{v}"] *)
Definition format_value `{Imports} (v : pyval) : string :=
  match v with
  | PStr s => s
  | _ => str_of v
  end.

(** ** InputAssignment and FlowInputAssignment *)

Definition FLOW_INPUT_PREFIX : string := "flow.".
Definition FLOW_INPUT_PREFIXES : list string := [FLOW_INPUT_PREFIX; "inputs."].

(** One record for both classes: [prefix] is [Some p] on a
    [FlowInputAssignment] and [None] on a plain [InputAssignment]. *)
Module InputAssignment.
Record t := mk {
  value : pyval;
  value_type : InputValueType;
  section : string;
  property : string;
  prefix : option string;
}.
End InputAssignment.

(** [InputAssignment(value, value_type, section, property)] with the
    defaults of the dataclass. *)
Definition InputAssignment_new (value : pyval) (value_type : InputValueType)
    (section property : string) : InputAssignment.t :=
  InputAssignment.mk value value_type section property None.

(** [FlowInputAssignment(value=..., value_type=..., prefix=...)] *)
Definition FlowInputAssignment_new (value : pyval) (value_type : InputValueType)
    (prefix : string) : InputAssignment.t :=
  InputAssignment.mk value value_type "" "" (Some prefix).

Definition InputValueType_eqb (a b : InputValueType) : bool :=
  match a, b with
  | LITERAL, LITERAL | FLOW_INPUT, FLOW_INPUT | NODE_REFERENCE, NODE_REFERENCE => true
  | _, _ => false
  end.

Section Codec.
Context `{Imports}.

Definition InputAssignment_serialize (self : InputAssignment.t) : pyval :=
  if InputValueType_eqb (InputAssignment.value_type self) FLOW_INPUT then
    PStr ("${" +:+ FLOW_INPUT_PREFIX +:+ format_value (InputAssignment.value self) +:+ "}")
  else if InputValueType_eqb (InputAssignment.value_type self) NODE_REFERENCE then
    if negb (String.eqb (InputAssignment.property self) "") then
      PStr ("${" +:+ format_value (InputAssignment.value self) +:+ "."
              +:+ InputAssignment.section self +:+ "."
              +:+ InputAssignment.property self +:+ "}")
    else
      PStr ("${" +:+ format_value (InputAssignment.value self) +:+ "."
              +:+ InputAssignment.section self +:+ "}")
  else if is_connection_value (InputAssignment.value self) then
    serialize_conn (InputAssignment.value self)
  else InputAssignment.value self.
End Codec.

(** [FlowInputAssignment.is_flow_input]: the loop over the prefixes. *)
Fixpoint is_flow_input_loop (prefixes : list string) (input_value : string) : bool :=
  match prefixes with
  | [] => false
  | prefix :: rest =>
      if startswith input_value prefix then true else is_flow_input_loop rest input_value
  end.

Definition FlowInputAssignment_is_flow_input (input_value : string) : bool :=
  is_flow_input_loop FLOW_INPUT_PREFIXES input_value.

(** [FlowInputAssignment.deserialize]: the loop over the prefixes, and the
    [raise] after it. *)
Fixpoint FlowInputAssignment_deserialize_loop (prefixes : list string) (value : string)
    : result InputAssignment.t :=
  match prefixes with
  | [] => Raise (ValueError_unexpected_flow_input value)
  | prefix :: rest =>
      if startswith value prefix then
        Ok (FlowInputAssignment_new (PStr (str_drop (String.length prefix) value))
              FLOW_INPUT prefix)
      else FlowInputAssignment_deserialize_loop rest value
  end.

Definition FlowInputAssignment_deserialize (value : string) : result InputAssignment.t :=
  FlowInputAssignment_deserialize_loop FLOW_INPUT_PREFIXES value.

Definition InputAssignment_deserialize_node_reference (data : string)
    : result InputAssignment.t :=
  let value_type := NODE_REFERENCE in
  if negb (str_contains "." data) then
    Ok (InputAssignment_new (PStr data) value_type "output" "")
  else
    let* '(node_name, port_name) := unpack2 (str_split "." (Some 1%nat) data) in
    if negb (str_contains "." port_name) then
      Ok (InputAssignment_new (PStr node_name) value_type port_name "")
    else
      let* '(section, property) := unpack2 (str_split "." (Some 1%nat) port_name) in
      Ok (InputAssignment_new (PStr node_name) value_type section property).

Definition InputAssignment_deserialize_reference (value : string) : result InputAssignment.t :=
  if FlowInputAssignment_is_flow_input value then FlowInputAssignment_deserialize value
  else InputAssignment_deserialize_node_reference value.

Definition InputAssignment_deserialize (value : pyval) : result InputAssignment.t :=
  let literal_value := InputAssignment_new value LITERAL "" "" in
  match value with
  | PStr s =>
      if startswith s "$" && (2 <? String.length s)%nat then
        let value := str_drop 1 s in
        let* c0 := index value str_first in
        if negb (Ascii.eqb c0 "{") then Ok literal_value
        else
          let* c1 := index value str_last in
          if negb (Ascii.eqb c1 "}") then Ok literal_value
          else
            let value := str_drop_last (str_drop 1 value) in
            InputAssignment_deserialize_reference value
      else Ok literal_value
  | _ => Ok literal_value
  end.

(** ** ToolSource and the node conditions *)

Module ToolSource.
Record t := mk {
  type : pyval;
  tool : pyval;
  path : pyval;
}.
End ToolSource.

(** [data.get] exists on a dict only. *)
Definition ToolSource_deserialize (data : pyval) : result ToolSource.t :=
  match data with
  | PDict d =>
      let result := ToolSource.mk (dict_get_default d "type" (PStr "code")) PNone PNone in
      let* result :=
        if dict_has d "tool" then
          let* v := subscript data "tool" in
          Ok (ToolSource.mk (ToolSource.type result) v (ToolSource.path result))
        else Ok result in
      let* result :=
        if dict_has d "path" then
          let* v := subscript data "path" in
          Ok (ToolSource.mk (ToolSource.type result) (ToolSource.tool result) v)
        else Ok result in
      Ok result
  | _ => Raise AttributeError
  end.

Module ActivateCondition.
Record t := mk {
  condition : InputAssignment.t;
  condition_value : pyval;
}.
End ActivateCondition.

Definition ActivateCondition_deserialize (data : pyval) : result ActivateCondition.t :=
  let* when := subscript data "when" in
  let* condition := InputAssignment_deserialize when in
  let* condition_value := subscript data "is" in
  Ok (ActivateCondition.mk condition condition_value).

Module SkipCondition.
Record t := mk {
  condition : InputAssignment.t;
  condition_value : pyval;
  return_value : InputAssignment.t;
}.
End SkipCondition.

Definition SkipCondition_deserialize (data : pyval) : result SkipCondition.t :=
  let* when := subscript data "when" in
  let* condition := InputAssignment_deserialize when in
  let* condition_value := subscript data "is" in
  let* ret := subscript data "return" in
  let* return_value := InputAssignment_deserialize ret in
  Ok (SkipCondition.mk condition condition_value return_value).

(** ** Node *)

Module Node.
Record t := mk {
  name : pyval;
  tool : pyval;
  inputs : dict InputAssignment.t;
  comment : pyval;
  api : pyval;
  provider : pyval;
  module : pyval;
  connection : pyval;
  aggregation : pyval;
  enable_cache : pyval;
  use_variants : pyval;
  source : option ToolSource.t;
  type : option ToolType;
  skip : option SkipCondition.t;
  activate : option ActivateCondition.t;
}.

(** [node.name = v], [node.connection = v], [node.inputs = d] and the
    assignments of the optional fields. *)
Definition set_name (v : pyval) (n : t) : t :=
  mk v (tool n) (inputs n) (comment n) (api n) (provider n) (module n) (connection n)
     (aggregation n) (enable_cache n) (use_variants n) (source n) (type n) (skip n)
     (activate n).
Definition set_connection (v : pyval) (n : t) : t :=
  mk (name n) (tool n) (inputs n) (comment n) (api n) (provider n) (module n) v
     (aggregation n) (enable_cache n) (use_variants n) (source n) (type n) (skip n)
     (activate n).
Definition set_inputs (d : dict InputAssignment.t) (n : t) : t :=
  mk (name n) (tool n) d (comment n) (api n) (provider n) (module n) (connection n)
     (aggregation n) (enable_cache n) (use_variants n) (source n) (type n) (skip n)
     (activate n).
Definition set_source (v : ToolSource.t) (n : t) : t :=
  mk (name n) (tool n) (inputs n) (comment n) (api n) (provider n) (module n) (connection n)
     (aggregation n) (enable_cache n) (use_variants n) (Some v) (type n) (skip n)
     (activate n).
Definition set_type (v : ToolType) (n : t) : t :=
  mk (name n) (tool n) (inputs n) (comment n) (api n) (provider n) (module n) (connection n)
     (aggregation n) (enable_cache n) (use_variants n) (source n) (Some v) (skip n)
     (activate n).
Definition set_skip (v : SkipCondition.t) (n : t) : t :=
  mk (name n) (tool n) (inputs n) (comment n) (api n) (provider n) (module n) (connection n)
     (aggregation n) (enable_cache n) (use_variants n) (source n) (type n) (Some v)
     (activate n).
Definition set_activate (v : ActivateCondition.t) (n : t) : t :=
  mk (name n) (tool n) (inputs n) (comment n) (api n) (provider n) (module n) (connection n)
     (aggregation n) (enable_cache n) (use_variants n) (source n) (type n) (skip n)
     (Some v).
End Node.

(** [dataclasses.asdict] with the [dict_factory] of [Node.serialize]: the
    fields of a dataclass in declaration order, those holding a false value
    left out; an absent optional field is [None]. *)
Definition sparse (fields : list (string * pyval)) : dict pyval :=
  List.filter (fun kv => truthy kv.2) fields.

Definition option_to_py {A} (f : A -> pyval) (o : option A) : pyval :=
  match o with Some a => f a | None => PNone end.

Definition asdict_InputAssignment (a : InputAssignment.t) : dict pyval :=
  sparse ([("value", InputAssignment.value a);
           ("value_type", PInputValueType (InputAssignment.value_type a));
           ("section", PStr (InputAssignment.section a));
           ("property", PStr (InputAssignment.property a))]
          ++ match InputAssignment.prefix a with
             | Some p => [("prefix", PStr p)]
             | None => []
             end).

Definition asdict_ToolSource (s : ToolSource.t) : dict pyval :=
  sparse [("type", ToolSource.type s); ("tool", ToolSource.tool s);
          ("path", ToolSource.path s)].

Definition asdict_SkipCondition (c : SkipCondition.t) : dict pyval :=
  sparse [("condition", PDict (asdict_InputAssignment (SkipCondition.condition c)));
          ("condition_value", SkipCondition.condition_value c);
          ("return_value", PDict (asdict_InputAssignment (SkipCondition.return_value c)))].

Definition asdict_ActivateCondition (c : ActivateCondition.t) : dict pyval :=
  sparse [("condition", PDict (asdict_InputAssignment (ActivateCondition.condition c)));
          ("condition_value", ActivateCondition.condition_value c)].

Definition asdict_Node (n : Node.t) : dict pyval :=
  sparse [("name", Node.name n);
          ("tool", Node.tool n);
          ("inputs", PDict (map (fun kv => (kv.1, PDict (asdict_InputAssignment kv.2)))
                              (Node.inputs n)));
          ("comment", Node.comment n);
          ("api", Node.api n);
          ("provider", Node.provider n);
          ("module", Node.module n);
          ("connection", Node.connection n);
          ("aggregation", Node.aggregation n);
          ("enable_cache", Node.enable_cache n);
          ("use_variants", Node.use_variants n);
          ("source", option_to_py (fun s => PDict (asdict_ToolSource s)) (Node.source n));
          ("type", option_to_py PToolType (Node.type n));
          ("skip", option_to_py (fun c => PDict (asdict_SkipCondition c)) (Node.skip n));
          ("activate",
           option_to_py (fun c => PDict (asdict_ActivateCondition c)) (Node.activate n))].

(** A dict comprehension: the pairs are stored one after the other. *)
Definition dict_of_items {V} (items : list (string * V)) : dict V :=
  fold_left (fun d kv => dict_set d kv.1 kv.2) items [].

Section NodeCodec.
Context `{Imports}.

(** [self.inputs = self.inputs or {}] assigns to the node the dict it
    already has, or an empty dict in place of an empty one. *)
Definition Node_serialize (self : Node.t) : dict pyval :=
  let data := asdict_Node self in
  let data :=
    dict_set data "inputs"
      (PDict (dict_of_items
                (map (fun kv => (kv.1, InputAssignment_serialize kv.2)) (Node.inputs self)))) in
  if truthy (Node.aggregation self) then
    let data := dict_set data "aggregation" (PBool true) in
    let data := dict_set data "reduce" (PBool true) in
    data
  else data.

(** [(data.get("inputs") or {}).items()] *)
Definition items_of (v : pyval) : result (list (string * pyval)) :=
  match v with
  | PDict d => Ok d
  | _ => Raise AttributeError
  end.

(** [ToolType(v)] *)
Definition ToolType_new (v : pyval) : result ToolType :=
  match ToolType_of_value v with
  | Some t => Ok t
  | None => Raise (ValueError_not_a_member v)
  end.

Definition Node_deserialize (data : dict pyval) : result Node.t :=
  let* items := items_of (py_or (dict_get_default data "inputs" PNone) (PDict [])) in
  let* inputs :=
    result_map (fun kv => let* a := InputAssignment_deserialize kv.2 in Ok (kv.1, a)) items in
  let node :=
    Node.mk (dict_get_default data "name" PNone)
            (dict_get_default data "tool" PNone)
            (dict_of_items inputs)
            (dict_get_default data "comment" (PStr ""))
            (dict_get_default data "api" PNone)
            (dict_get_default data "provider" PNone)
            (dict_get_default data "module" PNone)
            (dict_get_default data "connection" PNone)
            (py_or (dict_get_default data "aggregation" (PBool false))
                   (dict_get_default data "reduce" (PBool false)))
            (dict_get_default data "enable_cache" (PBool false))
            (dict_get_default data "use_variants" (PBool false))
            None None None None in
  let* node :=
    if dict_has data "source" then
      let* v := subscript (PDict data) "source" in
      let* s := ToolSource_deserialize v in
      Ok (Node.set_source s node)
    else Ok node in
  let* node :=
    if dict_has data "type" then
      let* v := subscript (PDict data) "type" in
      let* t := ToolType_new v in
      Ok (Node.set_type t node)
    else Ok node in
  let* node :=
    if dict_has data "skip" then
      let* v := subscript (PDict data) "skip" in
      let* c := SkipCondition_deserialize v in
      Ok (Node.set_skip c node)
    else Ok node in
  let* node :=
    if dict_has data "activate" then
      let* v := subscript (PDict data) "activate" in
      let* c := ActivateCondition_deserialize v in
      Ok (Node.set_activate c node)
    else Ok node in
  match Node.skip node, Node.activate node with
  | Some _, Some _ => Raise (NodeConditionConflict (Node.name node))
  | _, _ => Ok node
  end.
End NodeCodec.

(** ** Node variants, tools and the flow *)

(** Identity of a [Node] object. *)
Definition loc := nat.

Module NodeVariant.
Record t := mk {
  node : loc;
  description : pyval;
}.
End NodeVariant.

Module NodeVariants.
Record t := mk {
  default_variant_id : pyval;
  variants : dict NodeVariant.t;
}.
End NodeVariants.

(** Modelled from the spec: a type tag of a tool input as
    [contracts/tool.py] declares it, an enum member with its value or a
    plain string. *)
Inductive type_tag :=
| EnumTag (value : string)
| StrTag (s : string).

(** [typ.value if isinstance(typ, Enum) else typ] *)
Definition tag_value (typ : type_tag) : string :=
  match typ with
  | EnumTag v => v
  | StrTag s => s
  end.

(** Modelled from the spec: the input declaration and the [Tool] of
    [contracts/tool.py], as far as this module reads them: the tool's name
    and, per input name, the acceptable type tags. *)
Module InputDefinition.
Record t := mk {
  type : list type_tag;
}.
End InputDefinition.

Module Tool.
Record t := mk {
  name : string;
  inputs : dict InputDefinition.t;
}.
End Tool.

(** The flow, without its [inputs] and [outputs], which no operation below
    reads.  [_tool_loader] is the attribute [_set_tool_loader] adds, [None]
    before that.
    Modelled from the spec: the loader, [ToolLoader.load_tool_for_node] of
    [_core/tools_manager.py], is the collaborator of §6 that gives a tool
    declaration or nothing for a node, and changes no node. *)
Module Flow.
Record t := mk {
  id : pyval;
  name : pyval;
  nodes : list loc;
  tools : list Tool.t;
  node_variants : option (dict NodeVariants.t);
  _tool_loader : option (Node.t -> option Tool.t);
}.
End Flow.

(** ** The store of node objects *)

Abbreviation store := (loc -> Node.t).

(** A computation that reads and writes node objects and may raise; what
    it wrote before raising stays written. *)
Definition M (A : Type) : Type := store -> result A * store.

Definition ret {A} (a : A) : M A := fun h => (Ok a, h).
Definition raise {A} (e : exn) : M A := fun h => (Raise e, h).
Definition bind {A B} (m : M A) (k : A -> M B) : M B :=
  fun h =>
    match m h with
    | (Ok a, h') => k a h'
    | (Raise e, h') => (Raise e, h')
    end.
Definition lift {A} (r : result A) : M A := fun h => (r, h).
Definition load (l : loc) : M Node.t := fun h => (Ok (h l), h).
Definition modify (l : loc) (f : Node.t -> Node.t) : M unit :=
  fun h => (Ok tt, alter f l h).

Notation "'do!' x := m 'in' k" := (bind m (fun x => k))
  (at level 10, x name, m at level 100, k at level 200).
Notation "'do!' ' pat := m 'in' k" :=
  (bind m (fun x => match x with pat => k end))
  (at level 10, pat pattern, m at level 100, k at level 200).

Fixpoint map_M {A B} (f : A -> M B) (l : list A) : M (list B) :=
  match l with
  | [] => ret []
  | x :: l' =>
      do! y := f x in
      do! ys := map_M f l' in
      ret (y :: ys)
  end.

Fixpoint for_each {A} (f : A -> M unit) (l : list A) : M unit :=
  match l with
  | [] => ret tt
  | x :: l' => do! _ := f x in for_each f l'
  end.

(** ** Default variants *)


Definition _apply_default_node_variant (node : loc)
    (node_variants : option (dict NodeVariants.t)) : M loc :=
  match node_variants with
  | None | Some [] => ret node
  | Some table =>
      do! nd := load node in
      do! node_variant := lift (dict_get_py table (Node.name nd)) in
      match node_variant with
      | None => ret node
      | Some node_variant =>
          do! default_variant :=
            lift (dict_get_py (NodeVariants.variants node_variant)
                    (NodeVariants.default_variant_id node_variant)) in
          match default_variant with
          | None => ret node
          | Some default_variant =>
              do! nd := load node in
              do! _ := modify (NodeVariant.node default_variant) (Node.set_name (Node.name nd)) in
              ret (NodeVariant.node default_variant)
          end
      end
  end.

(** The element of the comprehension
    [[self._apply_default_node_variant(node, self.node_variants)
      if node.use_variants else node for node in self.nodes]]
    of [_apply_default_node_variants] and [get_connection_names]. *)
Definition default_variant_or_self (node_variants : option (dict NodeVariants.t))
    (node : loc) : M loc :=
  do! nd := load node in
  if truthy (Node.use_variants nd) then _apply_default_node_variant node node_variants
  else ret node.

(** ** Lookups and node overrides *)

Definition get_node (self : Flow.t) (node_name : string) : M (option loc) :=
  fun h => (Ok (List.find (fun n => eq_str (Node.name (h n)) node_name) (Flow.nodes self)), h).

Definition get_tool (self : Flow.t) (tool_name : pyval) : option Tool.t :=
  List.find (fun t => eq_str tool_name (Tool.name t)) (Flow.tools self).

(** The body of the loop of [_apply_node_overrides]. *)
Definition apply_node_override (self : Flow.t) (key : string) (value : pyval) : M unit :=
  do! '(node_name, input_name) := lift (unpack2 (str_split "." None key)) in
  do! node := get_node self node_name in
  match node with
  | None => raise (ValueError_cannot_find_node node_name (Flow.name self))
  | Some node =>
      do! nd := load node in
      if truthy (Node.connection nd) && String.eqb input_name "connection" then
        modify node (Node.set_connection value)
      else
        modify node (fun nd =>
          Node.set_inputs
            (dict_set (Node.inputs nd) input_name (InputAssignment_new value LITERAL "" "")) nd)
  end.

Definition _apply_node_overrides (self : Flow.t) (node_overrides : dict pyval) : M Flow.t :=
  if negb (truthy (PDict node_overrides)) then ret self
  else
    do! _ := for_each (fun kv => apply_node_override self kv.1 kv.2) node_overrides in
    ret self.

(** ** Connection names *)

(** A [set]: the list of its elements, in the order they were added and
    possibly repeated.  Adding needs the element's hash. *)
Definition set_add (s : list pyval) (x : pyval) : result (list pyval) :=
  if hashable x then Ok (s ++ [x])%list else Raise TypeError.

Fixpoint set_update (s : list pyval) (xs : list pyval) : result (list pyval) :=
  match xs with
  | [] => Ok s
  | x :: xs' => let* s' := set_add s x in set_update s' xs'
  end.

Definition ToolType_eqb (a b : ToolType) : bool :=
  match a, b with
  | LLM, LLM | PROMPT, PROMPT => true
  | OTHER_TOOL s, OTHER_TOOL s' => String.eqb s s'
  | _, _ => false
  end.

(** [node.type == t] *)
Definition type_is (ty : option ToolType) (t : ToolType) : bool :=
  match ty with
  | Some t' => ToolType_eqb t' t
  | None => false
  end.

Section Connections.
Context `{Imports}.

(** [all(typ.lower() in value_types for typ in input_type)] *)
Definition all_value_types (input_type : list string) : bool :=
  forallb (fun typ => existsb (String.eqb (lower typ)) ValueType_values) input_type.

Definition _get_connection_name_from_tool (tool : Tool.t) (node : Node.t) : dict pyval :=
  fold_left
    (fun connection_names kv =>
       let input_type := map tag_value (InputDefinition.type kv.2) in
       if all_value_types input_type then connection_names
       else
         match dict_get (Node.inputs node) kv.1 with
         | Some input_assignment =>
             if InputValueType_eqb (InputAssignment.value_type input_assignment) LITERAL
             then dict_set connection_names kv.1 (InputAssignment.value input_assignment)
             else connection_names
         | None => connection_names
         end)
    (Tool.inputs tool) [].

(** [self.get_tool(node.tool) or self._tool_loader.load_tool_for_node(node)] *)
Definition tool_of_node (self : Flow.t) (nd : Node.t) : result (option Tool.t) :=
  match get_tool self (Node.tool nd) with
  | Some t => Ok (Some t)
  | None =>
      match Flow._tool_loader self with
      | Some load_tool_for_node => Ok (load_tool_for_node nd)
      | None => Raise AttributeError
      end
  end.

(** The loop of [get_connection_names] over the normalized nodes. *)
Fixpoint collect_connection_names (self : Flow.t) (nodes : list loc)
    (connection_names : list pyval) : M (list pyval) :=
  match nodes with
  | [] => ret connection_names
  | node :: rest =>
      do! nd := load node in
      if truthy (Node.connection nd) then
        do! connection_names := lift (set_add connection_names (Node.connection nd)) in
        collect_connection_names self rest connection_names
      else if type_is (Node.type nd) PROMPT || type_is (Node.type nd) LLM then
        collect_connection_names self rest connection_names
      else
        do! tool := lift (tool_of_node self nd) in
        match tool with
        | Some tool =>
            do! connection_names :=
              lift (set_update connection_names
                      (dict_values (_get_connection_name_from_tool tool nd))) in
            collect_connection_names self rest connection_names
        | None => collect_connection_names self rest connection_names
        end
  end.

Definition get_connection_names (self : Flow.t) : M (list pyval) :=
  let connection_names := [] in
  do! nodes := map_M (default_variant_or_self (Flow.node_variants self)) (Flow.nodes self) in
  do! connection_names := collect_connection_names self nodes connection_names in
  ret (List.filter truthy connection_names).
End Connections.

(** ** The properties of the specification, as definitions *)

(** §4.1: a string is a reference if it starts with [$], has length > 2,
    the next character is [{] and the string ends with [}]. *)
Definition is_reference_string (s : string) : bool :=
  startswith s "$"
  && (2 <? String.length s)%nat
  && match String.get 1 s with Some c => Ascii.eqb c "{" | None => false end
  && match str_last s with Some c => Ascii.eqb c "}" | None => false end.

(** §8: an equivalent structure has the same [value_type], [value],
    [section] and [property]. *)
Definition equivalent (a b : InputAssignment.t) : Prop :=
  InputAssignment.value_type a = InputAssignment.value_type b
  /\ InputAssignment.value a = InputAssignment.value b
  /\ InputAssignment.section a = InputAssignment.section b
  /\ InputAssignment.property a = InputAssignment.property b.

(** §6: the shape of the parts of a node tree that [Node.deserialize]
    takes apart: [inputs] a mapping when it is there and not empty,
    [source] a mapping, [type] a tool category, [skip] a mapping with
    [when], [is] and [return], [activate] a mapping with [when] and [is]. *)
Definition has_keys (keys : list string) (v : pyval) : bool :=
  match v with
  | PDict d => forallb (dict_has d) keys
  | _ => false
  end.

Definition node_tree_shape `{Imports} (data : dict pyval) : bool :=
  has_keys [] (py_or (dict_get_default data "inputs" PNone) (PDict []))
  && match dict_get data "source" with Some v => has_keys [] v | None => true end
  && match dict_get data "type" with
     | Some v => match ToolType_of_value v with Some _ => true | None => false end
     | None => true
     end
  && match dict_get data "skip" with
     | Some v => has_keys ["when"; "is"; "return"] v
     | None => true
     end
  && match dict_get data "activate" with
     | Some v => has_keys ["when"; "is"] v
     | None => true
     end.

Section ConnectionSpec.
Context `{Imports}.

(** §4.5: an input is a possible connection slot iff at least one of its
    acceptable type tags is not a plain value type. *)
Definition is_connection_slot (d : InputDefinition.t) : bool :=
  existsb (fun typ => negb (existsb (String.eqb (lower (tag_value typ))) ValueType_values))
    (InputDefinition.type d).


(** §4.5: the tool declaration of a node, first from the catalog of the
    flow, then from the tool loader. *)
Definition declared_tool (self : Flow.t) (load_tool_for_node : Node.t -> option Tool.t)
    (nd : Node.t) : option Tool.t :=
  match List.find (fun t => eq_str (Node.tool nd) (Tool.name t)) (Flow.tools self) with
  | Some t => Some t
  | None => load_tool_for_node nd
  end.


End ConnectionSpec.

(** §4.3: the default variant of a node in a variant table, when the table
    has an entry for the node's name and that entry a variant under its own
    [default_variant_id]. *)
Definition default_variant (table : option (dict NodeVariants.t)) (name : string)
    : option NodeVariant.t :=
  match table with
  | None => None
  | Some t =>
      match dict_get t name with
      | None => None
      | Some entry =>
          match NodeVariants.default_variant_id entry with
          | PStr i => dict_get (NodeVariants.variants entry) i
          | _ => None
          end
      end
  end.

(** The nodes that are the default variant of some entry of the table. *)
Definition is_default_variant_node (table : option (dict NodeVariants.t)) (l : loc) : Prop :=
  exists name v, default_variant table name = Some v /\ NodeVariant.node v = l.

(** §4.3: the node definition of a variant with its name overwritten,
    every other field its own. *)
Definition variant_with_name (name : pyval) (nd : Node.t) : Node.t :=
  Node.mk name (Node.tool nd) (Node.inputs nd) (Node.comment nd) (Node.api nd)
          (Node.provider nd) (Node.module nd) (Node.connection nd) (Node.aggregation nd)
          (Node.enable_cache nd) (Node.use_variants nd) (Node.source nd) (Node.type nd)
          (Node.skip nd) (Node.activate nd).



(** ** Auxiliary notions of the proofs *)

(** The condition conflict among the exceptions. *)
Definition is_conflict (e : exn) : Prop :=
  match e with
  | NodeConditionConflict _ => True
  | _ => False
  end.

(** Every node of [h'] is as it was in [h], or is the default variant of an
    entry of the variant table and carries, in place of its name, the name
    that one of the nodes of the flow had in [h]. *)
Definition renamed (self : Flow.t) (h h' : store) : Prop :=
  forall l,
    h' l = h l
    \/ (is_default_variant_node (Flow.node_variants self) l
        /\ exists n, In n (Flow.nodes self)
                     /\ h' l = Node.set_name (Node.name (h n)) (h l)).

(** The literal a node supplies at one input of a tool, when that input is
    a connection slot. *)
Definition slot_value `{Imports} (nd : Node.t) (kv : string * InputDefinition.t)
    : option pyval :=
  if is_connection_slot kv.2 then
    match dict_get (Node.inputs nd) kv.1 with
    | Some a =>
        match InputAssignment.value_type a with
        | LITERAL => Some (InputAssignment.value a)
        | _ => None
        end
    | None => None
    end
  else None.

(** ** Sample objects *)

(** One interpretation of the imported names: no string is a connection
    marker, three tool categories, the plain value types. *)
Definition sample_imports : Imports := {|
  str_of := fun v =>
    match v with
    | PNone => "None"
    | PBool true => "True"
    | PBool false => "False"
    | _ => ""
    end;
  is_connection_value := fun _ => false;
  serialize_conn := fun v => v;
  ToolType_of_value := fun v =>
    match v with
    | PStr s =>
        if String.eqb s "llm" then Some LLM
        else if String.eqb s "prompt" then Some PROMPT
        else if String.eqb s "python" then Some (OTHER_TOOL "python")
        else None
    | _ => None
    end;
  ValueType_values :=
    ["int"; "double"; "bool"; "string"; "secret"; "prompt_template"; "object"; "list"];
|}.

(** [Node(name, tool, inputs)] with the defaults of the dataclass. *)
Definition Node_new (name tool : pyval) (inputs : dict InputAssignment.t) : Node.t :=
  Node.mk name tool inputs (PStr "") PNone PNone PNone PNone
          (PBool false) (PBool false) (PBool false) None None None None.

(** The flow of §8: A, an LLM node with the connection [conn1], and B, a
    node of a Python tool whose input [conn] of a connection type is bound
    to the literal [conn2]. *)
Definition sample_node_A : Node.t :=
  Node.set_connection (PStr "conn1")
    (Node.set_type LLM (Node_new (PStr "A") (PStr "llm_tool") [])).

Definition sample_node_B : Node.t :=
  Node.set_type (OTHER_TOOL "python")
    (Node_new (PStr "B") (PStr "my_tool")
       [("conn", InputAssignment_new (PStr "conn2") LITERAL "" "");
        ("text", FlowInputAssignment_new (PStr "question") FLOW_INPUT "flow.")]).

Definition sample_tool : Tool.t :=
  Tool.mk "my_tool"
    [("conn", InputDefinition.mk [StrTag "AzureOpenAIConnection"]);
     ("text", InputDefinition.mk [EnumTag "string"])].

Definition sample_store : store :=
  fun l =>
    match l with
    | 0 => sample_node_A
    | 1 => sample_node_B
    | _ => Node_new PNone PNone []
    end.

Definition sample_flow : Flow.t :=
  Flow.mk (PStr "sample") (PStr "sample") [0; 1] [sample_tool] None (Some (fun _ => None)).

(** A flow with one node C that uses variants; the node definition of its
    default variant has no name, as in a flow file, and the tool X. *)
Definition variant_node_C : Node.t :=
  Node.mk (PStr "C") (PStr "T") [] (PStr "") PNone PNone PNone PNone
          (PBool false) (PBool false) (PBool true) None None None None.

Definition variant_node_X : Node.t := Node_new PNone (PStr "X") [].

Definition variant_store : store :=
  fun l =>
    match l with
    | 0 => variant_node_C
    | 1 => variant_node_X
    | _ => Node_new PNone PNone []
    end.

Definition variant_table : dict NodeVariants.t :=
  [("C", NodeVariants.mk (PStr "variant_0") [("variant_0", NodeVariant.mk 1 (PStr ""))])].

Definition variant_flow : Flow.t :=
  Flow.mk (PStr "sample") (PStr "sample") [0] [] (Some variant_table) (Some (fun _ => None)).

(** Two node trees: one with both condition keys, one with the legacy
    [reduce] key. *)
Definition conflict_tree : dict pyval :=
  [("name", PStr "n"); ("tool", PStr "t");
   ("skip", PDict [("when", PStr "${a.output}"); ("is", PBool true); ("return", PStr "x")]);
   ("activate", PDict [("when", PStr "${flow.x}"); ("is", PBool true)])].

Definition reduce_tree : dict pyval :=
  [("name", PStr "n"); ("tool", PStr "t"); ("reduce", PBool true)].

(** A node tree with both condition keys, each an empty mapping. *)
Definition empty_conditions_tree : dict pyval :=
  [("name", PStr "n"); ("tool", PStr "t"); ("skip", PDict []); ("activate", PDict [])].

(** The nodes of the variant flow, the default variant of C carrying the
    connection [conn3]. *)
Definition variant_conn_store : store :=
  fun l =>
    match l with
    | 0 => variant_node_C
    | 1 => Node.set_connection (PStr "conn3") variant_node_X
    | _ => Node_new PNone PNone []
    end.




(** ** More of the flow: the queries and the operations in place *)

(** [a == b].  [None], booleans with integers, strings, lists and dicts
    compare by value, a member of an enum is equal to itself only.
    Modelled from the spec: so it is for a member of [ToolType] too, a
    closed enumeration of [contracts/tool.py]. *)
Fixpoint py_eq (a b : pyval) {struct a} : bool :=
  match a, b with
  | PNone, PNone => true
  | PBool x, PBool y => Bool.eqb x y
  | PBool x, PInt n => Z.eqb (if x then 1 else 0) n
  | PInt n, PBool x => Z.eqb n (if x then 1 else 0)
  | PInt n, PInt m => Z.eqb n m
  | PStr s, PStr t => String.eqb s t
  | PList l, PList m =>
      (fix list_eq (l m : list pyval) {struct l} : bool :=
         match l, m with
         | [], [] => true
         | x :: l', y :: m' => py_eq x y && list_eq l' m'
         | _, _ => false
         end) l m
  | PDict d, PDict e =>
      Nat.eqb (length d) (length e)
      && (fix all_in (d : list (string * pyval)) {struct d} : bool :=
            match d with
            | [] => true
            | (k, v) :: d' =>
                match dict_get e k with
                | Some w => py_eq v w
                | None => false
                end && all_in d'
            end) d
  | PInputValueType x, PInputValueType y => InputValueType_eqb x y
  | PToolType x, PToolType y => ToolType_eqb x y
  | _, _ => false
  end.

(** [self.nodes = nodes] and [self.tools = tools]: the flow is a value
    here, so the assignment gives the flow with the new field. *)
Definition Flow_set_nodes (nodes : list loc) (self : Flow.t) : Flow.t :=
  Flow.mk (Flow.id self) (Flow.name self) nodes (Flow.tools self)
          (Flow.node_variants self) (Flow._tool_loader self).

Definition Flow_set_tools (tools : list Tool.t) (self : Flow.t) : Flow.t :=
  Flow.mk (Flow.id self) (Flow.name self) (Flow.nodes self) tools
          (Flow.node_variants self) (Flow._tool_loader self).

Definition _apply_default_node_variants (self : Flow.t) : M Flow.t :=
  do! nodes := map_M (default_variant_or_self (Flow.node_variants self)) (Flow.nodes self) in
  ret (Flow_set_nodes nodes self).

(** [any(n.aggregation for n in self.nodes)] *)
Definition has_aggregation_node (self : Flow.t) (h : store) : bool :=
  existsb (fun n => truthy (Node.aggregation (h n))) (Flow.nodes self).

(** [next((n for n in self.nodes if n.name == node_name), None)], as
    [get_node] has it. *)
Definition first_named (self : Flow.t) (h : store) (node_name : string) : option loc :=
  List.find (fun n => eq_str (Node.name (h n)) node_name) (Flow.nodes self).

(** [node is not None and node.aggregation]: [False], or the aggregation
    of the node as it is. *)
Definition is_reduce_node (self : Flow.t) (h : store) (node_name : string) : pyval :=
  match first_named self h node_name with
  | None => PBool false
  | Some node => Node.aggregation (h node)
  end.

Definition is_normal_node (self : Flow.t) (h : store) (node_name : string) : bool :=
  match first_named self h node_name with
  | None => false
  | Some node => negb (truthy (Node.aggregation (h node)))
  end.

Definition is_llm_node (node : Node.t) : bool := type_is (Node.type node) LLM.

(** [other_node.inputs and any(...)]: the empty dict itself when the node
    has no inputs.  The generator yields the inputs that match, and each
    is a true object. *)
Definition is_node_referenced_by (node other_node : Node.t) : pyval :=
  match Node.inputs other_node with
  | [] => PDict []
  | inputs =>
      PBool (existsb
               (fun input =>
                  InputValueType_eqb (InputAssignment.value_type input) NODE_REFERENCE
                  && py_eq (InputAssignment.value input) (Node.name node))
               (dict_values inputs))
  end.

Definition is_referenced_by_other_node (self : Flow.t) (h : store) (node : Node.t) : bool :=
  existsb (fun flow_node => truthy (is_node_referenced_by node (h flow_node)))
    (Flow.nodes self).

(** [_replace_with_variant]: the loop with its [break]. *)
Fixpoint replace_first_named (h : store) (nodes : list loc) (variant_node : loc) : list loc :=
  match nodes with
  | [] => []
  | node :: rest =>
      if py_eq (Node.name (h node)) (Node.name (h variant_node)) then variant_node :: rest
      else node :: replace_first_named h rest variant_node
  end.

Definition _replace_with_variant (self : Flow.t) (h : store) (variant_node : loc)
    (variant_tools : list Tool.t) : Flow.t :=
  Flow_set_tools (Flow.tools self ++ variant_tools)%list
    (Flow_set_nodes (replace_first_named h (Flow.nodes self) variant_node) self).

Section MoreConnections.
Context `{Imports}.

Definition get_connection_input_names_for_node (self : Flow.t) (node_name : string)
    : M (list string) :=
  do! node := get_node self node_name in
  do! node :=
    match node with
    | Some n =>
        do! nd := load n in
        if truthy (Node.use_variants nd) then
          do! v := _apply_default_node_variant n (Flow.node_variants self) in
          ret (Some v)
        else ret (Some n)
    | None => ret None
    end in
  match node with
  | None => ret []
  | Some n =>
      do! nd := load n in
      if type_is (Node.type nd) PROMPT || type_is (Node.type nd) LLM then ret []
      else
        do! tool := lift (tool_of_node self nd) in
        match tool with
        | Some tool => ret (map fst (_get_connection_name_from_tool tool nd))
        | None => ret []
        end
  end.
End MoreConnections.

(** ** Auxiliary notions of the further proofs *)

(** The two lookups of [_apply_default_node_variant], for a node name. *)
Definition variant_lookup (table : option (dict NodeVariants.t)) (name : pyval)
    : result (option NodeVariant.t) :=
  match table with
  | None | Some [] => Ok None
  | Some t =>
      let* entry := dict_get_py t name in
      match entry with
      | None => Ok None
      | Some entry =>
          dict_get_py (NodeVariants.variants entry) (NodeVariants.default_variant_id entry)
      end
  end.

(** Two stores with the same nodes. *)
Definition same_nodes (h h' : store) : Prop := forall l, h l = h' l.

(** A node that default-variant resolution gives back as it is: it does
    not use variants, or has no default variant, or is its own default
    variant. *)
Definition resolved (table : option (dict NodeVariants.t)) (h : store) (l : loc) : Prop :=
  truthy (Node.use_variants (h l)) = false
  \/ variant_lookup table (Node.name (h l)) = Ok None
  \/ exists v, variant_lookup table (Node.name (h l)) = Ok (Some v) /\ NodeVariant.node v = l.

(** The nodes of [h'] are those of [h] but for the connection and the
    inputs of the nodes among [nodes]. *)
Definition same_but_connection_inputs (nodes : list loc) (h h' : store) : Prop :=
  forall l,
    (exists c i, h' l = Node.set_connection c (Node.set_inputs i (h l)))
    /\ (~ In l nodes -> h' l = h l).

(** [s.count(c)] for a one-character string c. *)
Fixpoint str_count (c : ascii) (s : string) : nat :=
  match s with
  | EmptyString => 0
  | String c' s' => (if Ascii.eqb c' c then 1 else 0) + str_count c s'
  end.

(** [v] where it is true, else [d]: what is read back of a field that is
    written only when it is true. *)
Definition or_default (v d : pyval) : pyval := if truthy v then v else d.

(** ** The inputs and the outputs of a flow *)

(** Modelled from the spec: a member of the [ValueType] enum of
    [contracts/tool.py] is known by its value, one of [ValueType_values]. *)
Module FlowInputDefinition.
Record t := mk {
  type : string;
  default : pyval;
  description : pyval;
  enum : pyval;
  is_chat_input : pyval;
  is_chat_history : pyval;
}.
End FlowInputDefinition.

(** The reference of an output is an [InputAssignment], a true object. *)
Module FlowOutputDefinition.
Record t := mk {
  type : string;
  reference : InputAssignment.t;
  description : pyval;
  evaluation_only : pyval;
  is_chat_output : pyval;
}.
End FlowOutputDefinition.

Section FlowDefinitions.
Context `{Imports}.

(** [ValueType(v)] *)
Definition ValueType_new (v : pyval) : result string :=
  match v with
  | PStr s =>
      if existsb (String.eqb s) ValueType_values then Ok s
      else Raise (ValueError_not_a_member v)
  | _ => Raise (ValueError_not_a_member v)
  end.

(** [data.get(k, default)] on what may be no dict. *)
Definition get_default (data : pyval) (k : string) (default : pyval) : result pyval :=
  match data with
  | PDict d => Ok (dict_get_default d k default)
  | _ => Raise AttributeError
  end.

(** [str(v)] is [format_value v]. *)
Definition FlowInputDefinition_serialize (self : FlowInputDefinition.t) : dict pyval :=
  let data := [] in
  let data := dict_set data "type" (PStr (FlowInputDefinition.type self)) in
  let data :=
    if truthy (FlowInputDefinition.default self) then
      dict_set data "default" (PStr (format_value (FlowInputDefinition.default self)))
    else data in
  let data :=
    if truthy (FlowInputDefinition.description self) then
      dict_set data "description" (FlowInputDefinition.description self)
    else data in
  let data :=
    if truthy (FlowInputDefinition.enum self) then
      dict_set data "enum" (FlowInputDefinition.enum self)
    else data in
  let data :=
    if truthy (FlowInputDefinition.is_chat_input self) then
      dict_set data "is_chat_input" (PBool true)
    else data in
  let data :=
    if truthy (FlowInputDefinition.is_chat_history self) then
      dict_set data "is_chat_history" (PBool true)
    else data in
  data.

Definition FlowInputDefinition_deserialize (data : pyval) : result FlowInputDefinition.t :=
  let* v := subscript data "type" in
  let* type := ValueType_new v in
  let* default := get_default data "default" PNone in
  let* description := get_default data "description" (PStr "") in
  let* enum := get_default data "enum" (PList []) in
  let* is_chat_input := get_default data "is_chat_input" (PBool false) in
  let* is_chat_history := get_default data "is_chat_history" PNone in
  Ok (FlowInputDefinition.mk type default description enum is_chat_input is_chat_history).

Definition FlowOutputDefinition_serialize (self : FlowOutputDefinition.t) : dict pyval :=
  let data := [] in
  let data := dict_set data "type" (PStr (FlowOutputDefinition.type self)) in
  let data :=
    dict_set data "reference" (InputAssignment_serialize (FlowOutputDefinition.reference self)) in
  let data :=
    if truthy (FlowOutputDefinition.description self) then
      dict_set data "description" (FlowOutputDefinition.description self)
    else data in
  let data :=
    if truthy (FlowOutputDefinition.evaluation_only self) then
      dict_set data "evaluation_only" (PBool true)
    else data in
  let data :=
    if truthy (FlowOutputDefinition.is_chat_output self) then
      dict_set data "is_chat_output" (PBool true)
    else data in
  data.

Definition FlowOutputDefinition_deserialize (data : pyval) : result FlowOutputDefinition.t :=
  let* v := subscript data "type" in
  let* type := ValueType_new v in
  let* r := get_default data "reference" (PStr "") in
  let* reference := InputAssignment_deserialize r in
  let* description := get_default data "description" (PStr "") in
  let* evaluation_only := get_default data "evaluation_only" (PBool false) in
  let* is_chat_output := get_default data "is_chat_output" (PBool false) in
  Ok (FlowOutputDefinition.mk type reference description evaluation_only is_chat_output).
End FlowDefinitions.

(** The queries on the inputs and the outputs of a flow, given as they
    stand in [self.inputs] and [self.outputs]. *)
Definition is_referenced_by_flow_output (outputs : dict FlowOutputDefinition.t)
    (node : Node.t) : bool :=
  existsb
    (fun output =>
       InputValueType_eqb
         (InputAssignment.value_type (FlowOutputDefinition.reference output)) NODE_REFERENCE
       && py_eq (InputAssignment.value (FlowOutputDefinition.reference output))
            (Node.name node))
    (dict_values outputs).

(** [next((name for name, i in self.inputs.items() if i.is_chat_input), None)] *)
Definition get_chat_input_name (inputs : dict FlowInputDefinition.t) : option string :=
  option_map fst
    (List.find (fun kv => truthy (FlowInputDefinition.is_chat_input kv.2)) inputs).

Definition is_chat_flow (inputs : dict FlowInputDefinition.t) : bool :=
  match get_chat_input_name inputs with
  | Some _ => true
  | None => false
  end.

Definition get_chat_output_name (outputs : dict FlowOutputDefinition.t) : option string :=
  option_map fst
    (List.find (fun kv => truthy (FlowOutputDefinition.is_chat_output kv.2)) outputs).

(** What is read back of a written flow input: the default as a string,
    the flags as booleans, [None] for a chat history that is not set. *)
Definition FlowInputDefinition_normal `{Imports} (self : FlowInputDefinition.t)
    : FlowInputDefinition.t :=
  FlowInputDefinition.mk (FlowInputDefinition.type self)
    (if truthy (FlowInputDefinition.default self)
     then PStr (format_value (FlowInputDefinition.default self)) else PNone)
    (or_default (FlowInputDefinition.description self) (PStr ""))
    (or_default (FlowInputDefinition.enum self) (PList []))
    (PBool (truthy (FlowInputDefinition.is_chat_input self)))
    (if truthy (FlowInputDefinition.is_chat_history self) then PBool true else PNone).

(** A dict whose [type] is the value of a member of [ValueType]. *)
Definition has_value_type `{Imports} (data : pyval) : Prop :=
  exists d s, data = PDict d /\ dict_get d "type" = Some (PStr s) /\ In s ValueType_values.

(** ** The log contexts of [_utils/logger_utils.py] *)

Section LogContexts.
(** The loggers are objects of [logging], and the run modes the members
    of [RunMode] of [contracts/run_mode.py]: the stack of the contexts
    holds them and does not look at them. *)
Context {Logger RunMode : Type}.

(** The dataclass [LogContext]. *)
Record LogContext := LogContext_new {
  file_path : pyval;
  run_mode : option RunMode;
  credential_list : pyval;
  input_logger : option Logger;
}.

(** What [set_current] may be given. *)
Inductive context_object :=
| ALogContext (c : LogContext)
| AnotherObject (v : pyval).

(** The three static methods, on the global list [logger_contexts]. *)
Definition get_current (logger_contexts : list LogContext) : option LogContext :=
  match logger_contexts with
  | [] => None
  | _ => last logger_contexts
  end.

Definition set_current (context : context_object) (logger_contexts : list LogContext)
    : list LogContext :=
  match context with
  | ALogContext c => (logger_contexts ++ [c])%list
  | AnotherObject _ => logger_contexts
  end.

Definition clear_current (logger_contexts : list LogContext) : list LogContext :=
  match logger_contexts with
  | [] => logger_contexts
  | _ => removelast logger_contexts
  end.
End LogContexts.

(** Two more nodes: one with a skip condition, and one without a type
    and without a condition, with a literal and a reference as inputs. *)
Definition sample_node_skip : Node.t :=
  Node.set_skip
    (SkipCondition.mk (InputAssignment_new (PStr "a") NODE_REFERENCE "output" "")
       (PBool true) (InputAssignment_new (PStr "x") LITERAL "" ""))
    (Node_new (PStr "n") (PStr "t") []).

Definition sample_node_plain : Node.t :=
  Node_new (PStr "n") (PStr "t")
    [("text", InputAssignment_new (PStr "hello") LITERAL "" "");
     ("answer", InputAssignment_new (PStr "a") NODE_REFERENCE "output" "")].

(** * Proofs *)

(** ** Strings *)

#[local] Arguments String.append !_ _ / : simpl nomatch.
#[local] Arguments ascii_dec : simpl never.

Lemma prefix_app p r : String.prefix p (p +:+ r) = true.
Proof.
  induction p as [|c p IH]; simpl; [by destruct r|].
  destruct (ascii_dec c c); [done|congruence].
Qed.

Lemma prefix_app_l p s r : String.prefix p s = true -> String.prefix p (s +:+ r) = true.
Proof.
  revert s. induction p as [|c p IH]; intros s; simpl.
  - by destruct (s +:+ r).
  - destruct s as [|d s]; [done|]. simpl.
    destruct (ascii_dec c d); [apply IH|done].
Qed.

Lemma prefix_split p s : String.prefix p s = true -> s = p +:+ str_drop (String.length p) s.
Proof.
  revert s. induction p as [|c p IH]; intros s; simpl; [done|].
  destruct s as [|d s]; [done|]. simpl.
  destruct (ascii_dec c d) as [->|]; [|done].
  intros Hp. f_equal. by apply IH.
Qed.

Lemma str_drop_app p r : str_drop (String.length p) (p +:+ r) = r.
Proof. induction p; simpl; auto. Qed.

Lemma str_length_app s r : String.length (s +:+ r) = String.length s + String.length r.
Proof. induction s; simpl; auto. Qed.

Lemma str_last_snoc s c : str_last (s +:+ String c EmptyString) = Some c.
Proof.
  induction s as [|a s IH]; simpl; [done|].
  destruct (s +:+ String c EmptyString) eqn:E; [by destruct s|]. done.
Qed.

Lemma str_drop_last_snoc s c : str_drop_last (s +:+ String c EmptyString) = s.
Proof.
  induction s as [|a s IH]; simpl; [done|].
  destruct (s +:+ String c EmptyString) eqn:E; [by destruct s|]. by rewrite IH.
Qed.

Lemma str_snoc_last s c : str_last s = Some c -> s = str_drop_last s +:+ String c EmptyString.
Proof.
  induction s as [|a s IH]; simpl; [done|].
  destruct s as [|b s]; [by intros [= ->]|].
  intros Hl.
  change (String a (String b s) = String a (str_drop_last (String b s) +:+ String c EmptyString)).
  f_equal. by apply IH.
Qed.

Lemma str_app_assoc a b c : (a +:+ b) +:+ c = a +:+ (b +:+ c).
Proof. induction a; simpl; congruence. Qed.

Lemma str_contains_app c a b :
  str_contains c (a +:+ b) = str_contains c a || str_contains c b.
Proof. induction a as [|d a IH]; simpl; [done|]. by destruct (Ascii.eqb d c). Qed.

(** ** Splitting *)

Lemma split_pieces_0 sep s : split_pieces sep 0 s = (s, []).
Proof.
  induction s as [|c s IH]; simpl; [done|].
  destruct (Ascii.eqb c sep); [done|]. by rewrite IH.
Qed.


Lemma split_pieces_app sep n a b :
  str_contains sep a = false ->
  split_pieces sep (S n) (a +:+ String sep b)
  = (a, (split_pieces sep n b).1 :: (split_pieces sep n b).2).
Proof.
  induction a as [|c a IH]; simpl.
  - intros _. rewrite Ascii.eqb_refl. by destruct (split_pieces sep n b).
  - destruct (Ascii.eqb c sep); [done|]. intros Ha. by rewrite IH.
Qed.

(** Where the separator occurs, the string is a piece without it, the
    separator and a rest. *)
Lemma str_contains_split sep s :
  str_contains sep s = true ->
  exists a b, s = a +:+ String sep b /\ str_contains sep a = false.
Proof.
  induction s as [|c s IH]; simpl; [done|].
  destruct (Ascii.eqb c sep) eqn:E.
  - intros _. apply Ascii.eqb_eq in E as ->. by exists EmptyString, s.
  - intros (a & b & -> & Ha)%IH. exists (String c a), b. simpl. by rewrite E.
Qed.

Lemma split_once sep a b :
  str_contains sep a = false ->
  str_split sep (Some 1) (a +:+ String sep b) = [a; b].
Proof.
  intros Ha. unfold str_split. rewrite split_pieces_app by done.
  by rewrite split_pieces_0.
Qed.


(** A prefix that ends at the first separator of a string is the piece
    before that separator. *)
Lemma prefix_upto_sep sep q a r :
  str_contains sep q = false -> str_contains sep a = false ->
  String.prefix (q +:+ String sep EmptyString) (a +:+ String sep r) = true -> a = q.
Proof.
  revert a. induction q as [|e q IH]; intros a; simpl.
  - intros _. destruct a as [|d a]; [done|]. simpl.
    destruct (ascii_dec sep d) as [->|]; [|done].
    by rewrite Ascii.eqb_refl.
  - destruct (Ascii.eqb e sep) eqn:E; [done|]. intros Hq.
    destruct a as [|d a]; simpl.
    + intros _. destruct (ascii_dec e sep) as [->|]; [|done].
      by rewrite Ascii.eqb_refl in E.
    + destruct (Ascii.eqb d sep); [done|]. intros Ha.
      destruct (ascii_dec e d) as [->|]; [|done].
      intros Hp. f_equal. by apply IH.
Qed.

(** ** The reference codec *)

Lemma node_reference_no_dot data :
  str_contains "." data = false ->
  InputAssignment_deserialize_node_reference data
  = Ok (InputAssignment_new (PStr data) NODE_REFERENCE "output" "").
Proof. intros Hd. unfold InputAssignment_deserialize_node_reference. by rewrite Hd. Qed.

Lemma node_reference_section a b :
  str_contains "." a = false -> str_contains "." b = false ->
  InputAssignment_deserialize_node_reference (a +:+ "." +:+ b)
  = Ok (InputAssignment_new (PStr a) NODE_REFERENCE b "").
Proof.
  intros Ha Hb. unfold InputAssignment_deserialize_node_reference.
  rewrite str_contains_app. simpl. rewrite orb_true_r. simpl.
  rewrite split_once by done. simpl. by rewrite Hb.
Qed.

Lemma node_reference_property a b c :
  str_contains "." a = false -> str_contains "." b = false ->
  InputAssignment_deserialize_node_reference (a +:+ "." +:+ b +:+ "." +:+ c)
  = Ok (InputAssignment_new (PStr a) NODE_REFERENCE b c).
Proof.
  intros Ha Hb. unfold InputAssignment_deserialize_node_reference.
  rewrite str_contains_app. simpl. rewrite orb_true_r. simpl.
  rewrite split_once by done. simpl.
  rewrite str_contains_app. simpl. rewrite orb_true_r. simpl.
  by rewrite split_once.
Qed.

(** The three forms of the text of a node reference. *)
Lemma node_reference_forms data :
  str_contains "." data = false
  \/ (exists a b, data = a +:+ "." +:+ b
        /\ str_contains "." a = false /\ str_contains "." b = false)
  \/ (exists a b c, data = a +:+ "." +:+ b +:+ "." +:+ c
        /\ str_contains "." a = false /\ str_contains "." b = false).
Proof.
  destruct (str_contains "." data) eqn:Hd; [right|by left].
  apply str_contains_split in Hd as (a & r & -> & Ha).
  destruct (str_contains "." r) eqn:Hr.
  - apply str_contains_split in Hr as (b & c & -> & Hb). right. by exists a, b, c.
  - left. by exists a, r.
Qed.

Lemma flow_input_prefixes value :
  FlowInputAssignment_is_flow_input value
  = startswith value "flow." || startswith value "inputs.".
Proof.
  unfold FlowInputAssignment_is_flow_input, FLOW_INPUT_PREFIXES, FLOW_INPUT_PREFIX.
  cbn [is_flow_input_loop].
  by destruct (startswith value "flow."), (startswith value "inputs.").
Qed.

Lemma FlowInputAssignment_deserialize_flow rest :
  FlowInputAssignment_deserialize ("flow." +:+ rest)
  = Ok (FlowInputAssignment_new (PStr rest) FLOW_INPUT "flow.").
Proof.
  unfold FlowInputAssignment_deserialize, FLOW_INPUT_PREFIXES, FLOW_INPUT_PREFIX.
  cbn [FlowInputAssignment_deserialize_loop].
  unfold startswith. rewrite (prefix_app "flow." rest).
  by rewrite (str_drop_app "flow." rest).
Qed.

Lemma FlowInputAssignment_deserialize_inputs rest :
  FlowInputAssignment_deserialize ("inputs." +:+ rest)
  = Ok (FlowInputAssignment_new (PStr rest) FLOW_INPUT "inputs.").
Proof.
  unfold FlowInputAssignment_deserialize, FLOW_INPUT_PREFIXES, FLOW_INPUT_PREFIX.
  cbn [FlowInputAssignment_deserialize_loop].
  unfold startswith. rewrite (prefix_app "inputs." rest).
  by rewrite (str_drop_app "inputs." rest).
Qed.

Lemma deserialize_reference_flow rest :
  InputAssignment_deserialize_reference ("flow." +:+ rest)
  = Ok (FlowInputAssignment_new (PStr rest) FLOW_INPUT "flow.").
Proof.
  unfold InputAssignment_deserialize_reference. rewrite flow_input_prefixes.
  unfold startswith at 1. rewrite (prefix_app "flow." rest). cbn [orb].
  apply FlowInputAssignment_deserialize_flow.
Qed.

Lemma deserialize_reference_inputs rest :
  InputAssignment_deserialize_reference ("inputs." +:+ rest)
  = Ok (FlowInputAssignment_new (PStr rest) FLOW_INPUT "inputs.").
Proof.
  unfold InputAssignment_deserialize_reference. rewrite flow_input_prefixes.
  unfold startswith at 2. rewrite (prefix_app "inputs." rest), orb_true_r.
  apply FlowInputAssignment_deserialize_inputs.
Qed.

(** A reference is a flow input or a node reference, never a literal, and
    taking it apart does not raise. *)
Lemma deserialize_reference_total value :
  exists a, InputAssignment_deserialize_reference value = Ok a
            /\ InputAssignment.value_type a <> LITERAL.
Proof.
  destruct (FlowInputAssignment_is_flow_input value) eqn:Hf.
  - rewrite flow_input_prefixes in Hf.
    destruct (startswith value "flow.") eqn:H1.
    + apply prefix_split in H1. rewrite H1, deserialize_reference_flow. by eexists.
    + simpl in Hf. apply prefix_split in Hf. rewrite Hf, deserialize_reference_inputs.
      by eexists.
  - unfold InputAssignment_deserialize_reference. rewrite Hf.
    destruct (node_reference_forms value)
      as [Hd|[(a & b & -> & Ha & Hb)|(a & b & c & -> & Ha & Hb)]].
    + rewrite node_reference_no_dot by done. by eexists.
    + rewrite node_reference_section by done. by eexists.
    + rewrite node_reference_property by done. by eexists.
Qed.

(** The wrapper: [${] and [}] around the text of the reference. *)
Lemma deserialize_wrapped inner :
  InputAssignment_deserialize (PStr ("${" +:+ inner +:+ "}"))
  = InputAssignment_deserialize_reference inner.
Proof.
  unfold InputAssignment_deserialize. simpl.
  rewrite str_length_app. simpl.
  replace (2 <? S (S (String.length inner + 1)))%nat with true
    by (symmetry; apply Nat.ltb_lt; lia).
  unfold index. simpl. rewrite str_last_snoc.
  remember (inner +:+ "}") as w eqn:E. destruct w as [|a w]; [by destruct inner|].
  cbn -[str_drop_last]. by rewrite E, str_drop_last_snoc.
Qed.

Lemma is_reference_string_wrapped s :
  is_reference_string s = true ->
  s = "${" +:+ str_drop_last (str_drop 2 s) +:+ "}".
Proof.
  unfold is_reference_string, startswith.
  destruct s as [|c0 s]; [done|]. cbn -[str_last str_drop_last].
  destruct (ascii_dec "$" c0) as [<-|]; [|done].
  destruct s as [|c1 s]; [done|]. cbn -[str_last str_drop_last].
  destruct s as [|c2 s]; [done|]. cbn -[str_last str_drop_last].
  change (str_last (String "$" (String c1 (String c2 s)))) with (str_last (String c2 s)).
  destruct (Ascii.eqb c1 "{") eqn:H1; [|done]. apply Ascii.eqb_eq in H1 as ->.
  destruct (str_last (String c2 s)) as [c|] eqn:Hl; [|done].
  destruct (Ascii.eqb c "}") eqn:H2; [|done]. apply Ascii.eqb_eq in H2 as ->.
  intros _. do 2 f_equal. by apply str_snoc_last.
Qed.

Lemma is_reference_string_of_wrapped inner :
  is_reference_string ("${" +:+ inner +:+ "}") = true.
Proof.
  unfold is_reference_string, startswith.
  replace (str_last ("${" +:+ inner +:+ "}")) with (Some "}"%char)
    by (symmetry; apply (str_last_snoc ("${" +:+ inner) "}")).
  cbn -[Nat.ltb]. destruct (ascii_dec "$" "$"); [|done].
  rewrite str_length_app. simpl String.length.
  replace (2 <? S (S (String.length inner + 1)))%nat with true
    by (symmetry; apply Nat.ltb_lt; lia).
  done.
Qed.

Lemma str_last_cons c s : exists d, str_last (String c s) = Some d.
Proof.
  revert c. induction s as [|b s IH]; intros c; [by exists c|].
  destruct (IH b) as [d Hd]. exists d. by rewrite <- Hd.
Qed.

Lemma deserialize_not_reference s :
  is_reference_string s = false ->
  InputAssignment_deserialize (PStr s) = Ok (InputAssignment_new (PStr s) LITERAL "" "").
Proof.
  unfold is_reference_string, InputAssignment_deserialize, startswith, index.
  destruct s as [|c0 s]; [done|]. cbn -[str_last str_drop_last].
  destruct (ascii_dec "$" c0) as [<-|]; [|by simpl].
  destruct s as [|c1 s]; [by simpl|]. cbn -[str_last str_drop_last].
  destruct s as [|c2 s]; [by simpl|]. cbn -[str_last str_drop_last].
  change (str_last (String "$" (String c1 (String c2 s)))) with (str_last (String c2 s)).
  change (str_last (String c1 (String c2 s))) with (str_last (String c2 s)).
  destruct (str_last_cons c2 s) as [d ->]. cbn -[str_drop_last].
  destruct (Ascii.eqb c1 "{"); [|by simpl]. simpl. by intros ->.
Qed.

Lemma equivalent_refl a : equivalent a a.
Proof. by repeat split. Qed.

Lemma startswith_app_l s r p : startswith (s +:+ r) p = false -> startswith s p = false.
Proof.
  unfold startswith. intros Hp. destruct (String.prefix p s) eqn:E; [|done].
  by rewrite (prefix_app_l p s r E) in Hp.
Qed.

(** The text of a reference to the default section of a node is a flow
    input only for the node names [flow] and [inputs]. *)
Lemma default_section_flow_input data :
  str_contains "." data = false ->
  FlowInputAssignment_is_flow_input (data +:+ ".output") = true ->
  data = "flow" \/ data = "inputs".
Proof.
  intros Hd. rewrite flow_input_prefixes. unfold startswith.
  intros [Hp|Hp]%orb_true_iff; [left|right].
  - by apply (prefix_upto_sep "." "flow" data "output").
  - by apply (prefix_upto_sep "." "inputs" data "output").
Qed.

Section CodecTheorems.
Context `{Imports}.

Lemma serialize_flow_input v p :
  InputAssignment_serialize (FlowInputAssignment_new (PStr v) FLOW_INPUT p)
  = PStr ("${flow." +:+ v +:+ "}").
Proof. done. Qed.

Lemma roundtrip_reference inner a :
  inner <> "flow" -> inner <> "inputs" ->
  InputAssignment_deserialize_reference inner = Ok a ->
  exists a', InputAssignment_deserialize (InputAssignment_serialize a) = Ok a'
             /\ equivalent a a'.
Proof.
  intros Hflow Hinputs Ha.
  destruct (FlowInputAssignment_is_flow_input inner) eqn:Hf.
  - (* a flow input *)
    assert (exists p rest, a = FlowInputAssignment_new (PStr rest) FLOW_INPUT p)
      as (p & rest & ->).
    { rewrite flow_input_prefixes in Hf.
      destruct (startswith inner "flow.") eqn:H1.
      - apply prefix_split in H1. rewrite H1, deserialize_reference_flow in Ha.
        injection Ha as <-. by eexists _, _.
      - simpl in Hf. apply prefix_split in Hf.
        rewrite Hf, deserialize_reference_inputs in Ha.
        injection Ha as <-. by eexists _, _. }
    rewrite serialize_flow_input.
    change ("${flow." +:+ rest +:+ "}") with ("${" +:+ ("flow." +:+ rest) +:+ "}").
    rewrite deserialize_wrapped, deserialize_reference_flow.
    eexists. split; [done|]. by repeat split.
  - unfold InputAssignment_deserialize_reference in Ha. rewrite Hf in Ha.
    destruct (node_reference_forms inner)
      as [Hd|[(n & b & -> & Hn & Hb)|(n & b & c & -> & Hn & Hb)]].
    + (* the default section *)
      rewrite node_reference_no_dot in Ha by done. injection Ha as <-.
      change (InputAssignment_serialize (InputAssignment_new (PStr inner) NODE_REFERENCE "output" ""))
        with (PStr ("${" +:+ inner +:+ ".output" +:+ "}")).
      rewrite <- (str_app_assoc inner ".output" "}").
      rewrite deserialize_wrapped. unfold InputAssignment_deserialize_reference.
      destruct (FlowInputAssignment_is_flow_input (inner +:+ ".output")) eqn:Hf'.
      { by destruct (default_section_flow_input inner Hd Hf'). }
      change (inner +:+ ".output") with (inner +:+ "." +:+ "output").
      rewrite (node_reference_section inner "output") by done.
      eexists. split; [done|]. apply equivalent_refl.
    + (* a section *)
      rewrite node_reference_section in Ha by done. injection Ha as <-.
      change (InputAssignment_serialize (InputAssignment_new (PStr n) NODE_REFERENCE b ""))
        with (PStr ("${" +:+ n +:+ "." +:+ b +:+ "}")).
      replace ("${" +:+ n +:+ "." +:+ b +:+ "}") with ("${" +:+ (n +:+ "." +:+ b) +:+ "}")
        by (by rewrite !str_app_assoc).
      rewrite deserialize_wrapped. unfold InputAssignment_deserialize_reference.
      rewrite Hf, node_reference_section by done.
      eexists. split; [done|]. apply equivalent_refl.
    + (* a section and a property *)
      rewrite node_reference_property in Ha by done. injection Ha as <-.
      destruct c as [|c0 c].
      * change (InputAssignment_serialize (InputAssignment_new (PStr n) NODE_REFERENCE b ""))
          with (PStr ("${" +:+ n +:+ "." +:+ b +:+ "}")).
        replace ("${" +:+ n +:+ "." +:+ b +:+ "}") with ("${" +:+ (n +:+ "." +:+ b) +:+ "}")
          by (by rewrite !str_app_assoc).
        rewrite deserialize_wrapped. unfold InputAssignment_deserialize_reference.
        assert (FlowInputAssignment_is_flow_input (n +:+ "." +:+ b) = false) as ->.
        { rewrite flow_input_prefixes in Hf |- *.
          apply orb_false_iff in Hf as [H1 H2].
          replace (n +:+ "." +:+ b +:+ "." +:+ "") with ((n +:+ "." +:+ b) +:+ ".") in H1, H2
            by (by rewrite !str_app_assoc).
          by rewrite (startswith_app_l _ _ _ H1), (startswith_app_l _ _ _ H2). }
        rewrite node_reference_section by done.
        eexists. split; [done|]. apply equivalent_refl.
      * change (InputAssignment_serialize
                  (InputAssignment_new (PStr n) NODE_REFERENCE b (String c0 c)))
          with (PStr ("${" +:+ n +:+ "." +:+ b +:+ "." +:+ String c0 c +:+ "}")).
        replace ("${" +:+ n +:+ "." +:+ b +:+ "." +:+ String c0 c +:+ "}")
          with ("${" +:+ (n +:+ "." +:+ b +:+ "." +:+ String c0 c) +:+ "}")
          by (by rewrite !str_app_assoc).
        rewrite deserialize_wrapped. unfold InputAssignment_deserialize_reference.
        rewrite Hf, node_reference_property by done.
        eexists. split; [done|]. apply equivalent_refl.
Qed.
End CodecTheorems.

(** ** Claims about the reference codec *)

(** C1 (as amended).  For every string s, [InputAssignment.deserialize]
    does not raise; it yields a reference (a flow input or a node
    reference) exactly when s starts with [$], has length > 2, has [{]
    after the [$] and ends with [}], and it yields the literal holding s
    unchanged for every other string.  The string [${}] meets the four
    conditions and yields the reference to the default section of the node
    with the empty name. *)
Theorem deserialize_reference_iff :
  (forall s : string,
     exists a,
       InputAssignment_deserialize (PStr s) = Ok a
       /\ (InputAssignment.value_type a <> LITERAL <-> is_reference_string s = true)
       /\ (is_reference_string s = false ->
           a = InputAssignment_new (PStr s) LITERAL "" ""))
  /\ is_reference_string "${}" = true
  /\ InputAssignment_deserialize (PStr "${}")
     = Ok (InputAssignment_new (PStr "") NODE_REFERENCE "output" "").
Proof.
  split; [|done]. intros s.
  destruct (is_reference_string s) eqn:Hs.
  - apply is_reference_string_wrapped in Hs as Hw. rewrite Hw, deserialize_wrapped.
    destruct (deserialize_reference_total (str_drop_last (str_drop 2 s))) as (a & -> & Ht).
    exists a. by repeat split.
  - rewrite deserialize_not_reference by done.
    eexists. split; [done|]. split; [|done]. by split.
Qed.

(** C1, the counterexample: [${}] yields a node reference, not the literal
    holding [${}]. *)
Lemma deserialize_empty_braces_not_literal :
  InputAssignment_deserialize (PStr "${}")
  = Ok (InputAssignment_new (PStr "") NODE_REFERENCE "output" "")
  /\ InputAssignment_deserialize (PStr "${}")
     <> Ok (InputAssignment_new (PStr "${}") LITERAL "" "").
Proof. split; [reflexivity|discriminate]. Qed.

(** C7.  The recognized flow-input prefixes are [flow.] and [inputs.], in
    that order.  For an inner reference text that starts with one of them,
    deserialization produces a [FlowInputAssignment] whose value is the
    text after the first prefix that matches and whose [prefix] is that
    prefix; [FlowInputAssignment.deserialize] raises on a string that
    starts with none of them. *)
Theorem flow_input_deserialize (value : string) :
  FLOW_INPUT_PREFIXES = ["flow."; "inputs."]
  /\ match List.find (startswith value) FLOW_INPUT_PREFIXES with
     | Some p =>
         exists rest,
           value = p +:+ rest
           /\ InputAssignment_deserialize_reference value
              = Ok (FlowInputAssignment_new (PStr rest) FLOW_INPUT p)
           /\ FlowInputAssignment_deserialize value
              = Ok (FlowInputAssignment_new (PStr rest) FLOW_INPUT p)
           /\ InputAssignment_deserialize (PStr ("${" +:+ value +:+ "}"))
              = Ok (FlowInputAssignment_new (PStr rest) FLOW_INPUT p)
     | None =>
         FlowInputAssignment_deserialize value
         = Raise (ValueError_unexpected_flow_input value)
     end.
Proof.
  split; [done|].
  unfold FLOW_INPUT_PREFIXES, FLOW_INPUT_PREFIX. cbn [List.find].
  destruct (startswith value "flow.") eqn:H1.
  - apply prefix_split in H1 as Hv.
    set (rest := str_drop (String.length "flow.") value) in Hv. clearbody rest.
    subst value. exists rest.
    by rewrite deserialize_wrapped, deserialize_reference_flow,
      FlowInputAssignment_deserialize_flow.
  - destruct (startswith value "inputs.") eqn:H2.
    + apply prefix_split in H2 as Hv.
      set (rest := str_drop (String.length "inputs.") value) in Hv. clearbody rest.
      subst value. exists rest.
      by rewrite deserialize_wrapped, deserialize_reference_inputs,
        FlowInputAssignment_deserialize_inputs.
    + unfold FlowInputAssignment_deserialize, FLOW_INPUT_PREFIXES, FLOW_INPUT_PREFIX.
      cbn [FlowInputAssignment_deserialize_loop]. by rewrite H1, H2.
Qed.

Section CodecClaims.
Context `{Imports}.

(** C10.  Serialization emits the prefix [flow.] whatever prefix the
    assignment records: for every name x, deserializing [${inputs.x}]
    gives a flow input that records the prefix [inputs.] and serializes
    to [${flow.x}]. *)
Theorem serialize_normalizes_prefix (x : string) :
  (forall p, InputAssignment_serialize (FlowInputAssignment_new (PStr x) FLOW_INPUT p)
             = PStr ("${flow." +:+ x +:+ "}"))
  /\ exists a,
       InputAssignment_deserialize (PStr ("${inputs." +:+ x +:+ "}")) = Ok a
       /\ InputAssignment.prefix a = Some "inputs."
       /\ InputAssignment_serialize a = PStr ("${flow." +:+ x +:+ "}").
Proof.
  split; [done|].
  change ("${inputs." +:+ x +:+ "}") with ("${" +:+ ("inputs." +:+ x) +:+ "}").
  rewrite deserialize_wrapped, deserialize_reference_inputs.
  eexists. by repeat split.
Qed.

(** C2 (as amended).  For every string s other than [${flow}] and
    [${inputs}], and a the assignment [InputAssignment.deserialize]
    produces from s, deserializing the serialization of a yields an
    assignment with the same [value_type], [value], [section] and
    [property] as a.  (A string is no connection marker.) *)
Theorem deserialize_serialize_roundtrip (s : string) (a : InputAssignment.t) :
  (forall v, is_connection_value (PStr v) = false) ->
  s <> "${flow}" -> s <> "${inputs}" ->
  InputAssignment_deserialize (PStr s) = Ok a ->
  exists a', InputAssignment_deserialize (InputAssignment_serialize a) = Ok a'
             /\ equivalent a a'.
Proof.
  intros Hconn Hflow Hinputs Ha.
  destruct (is_reference_string s) eqn:Hs.
  - apply is_reference_string_wrapped in Hs as Hw.
    rewrite Hw, deserialize_wrapped in Ha.
    apply roundtrip_reference in Ha; [done| |].
    + intros E. rewrite E in Hw. by apply Hflow.
    + intros E. rewrite E in Hw. by apply Hinputs.
  - rewrite deserialize_not_reference in Ha by done. injection Ha as <-.
    exists (InputAssignment_new (PStr s) LITERAL "" ""). split; [|apply equivalent_refl].
    unfold InputAssignment_serialize. simpl. rewrite Hconn.
    by apply deserialize_not_reference.
Qed.
End CodecClaims.

(** C2, the counterexample: the reference [${flow}] to the default section
    of a node named [flow] is serialized as [${flow.output}], which
    deserializes to the flow input [output]. *)
Lemma roundtrip_fails_for_node_named_flow :
  exists a a',
    InputAssignment_deserialize (PStr "${flow}") = Ok a
    /\ (forall I : Imports,
          @InputAssignment_serialize I a = PStr "${flow.output}"
          /\ InputAssignment_deserialize (@InputAssignment_serialize I a) = Ok a')
    /\ InputAssignment.value_type a = NODE_REFERENCE
    /\ InputAssignment.value_type a' = FLOW_INPUT
    /\ ~ equivalent a a'.
Proof.
  exists (InputAssignment_new (PStr "flow") NODE_REFERENCE "output" ""),
    (FlowInputAssignment_new (PStr "output") FLOW_INPUT "flow.").
  split; [reflexivity|]. split; [intros I; split; reflexivity|].
  split; [reflexivity|]. split; [reflexivity|].
  intros [Ht _]. discriminate Ht.
Qed.

(** ** Node trees *)

Lemma dict_get_set_eq {V} (d : dict V) k v : dict_get (dict_set d k v) k = Some v.
Proof.
  induction d as [|[k' v'] d IH]; simpl.
  - by rewrite String.eqb_refl.
  - destruct (String.eqb k' k) eqn:E; simpl; by rewrite E.
Qed.

Lemma dict_get_set_ne {V} (d : dict V) k k' v :
  k <> k' -> dict_get (dict_set d k v) k' = dict_get d k'.
Proof.
  intros Hk. induction d as [|[k0 v0] d IH]; simpl.
  - destruct (String.eqb k k') eqn:E; [|done]. by apply String.eqb_eq in E.
  - destruct (String.eqb k0 k) eqn:E; simpl; [|by rewrite IH].
    apply String.eqb_eq in E as ->.
    destruct (String.eqb k k') eqn:E'; [|done]. by apply String.eqb_eq in E'.
Qed.

Lemma InputAssignment_deserialize_total v : exists a, InputAssignment_deserialize v = Ok a.
Proof.
  destruct v as [| | |s| | | |]; try by eexists.
  destruct (is_reference_string s) eqn:Hs.
  - apply is_reference_string_wrapped in Hs as ->. rewrite deserialize_wrapped.
    destruct (deserialize_reference_total (str_drop_last (str_drop 2 s))) as (a & -> & _).
    by exists a.
  - rewrite deserialize_not_reference by done. by eexists.
Qed.

Lemma result_map_total {A B} (f : A -> result B) l :
  (forall x, exists y, f x = Ok y) -> exists ys, result_map f l = Ok ys.
Proof.
  intros Hf. induction l as [|x l [ys IH]]; simpl; [by eexists|].
  destruct (Hf x) as [y ->]. simpl. rewrite IH. by eexists.
Qed.

Lemma has_keys_dict keys v : has_keys keys v = true -> exists d, v = PDict d.
Proof. destruct v; try done. by eexists. Qed.

Lemma has_keys_subscript keys v k :
  has_keys keys v = true -> In k keys -> exists x, subscript v k = Ok x.
Proof.
  destruct v as [| | | | |d| |]; try done. simpl.
  intros Hk Hin. rewrite forallb_forall in Hk. specialize (Hk k Hin).
  unfold dict_has in Hk. destruct (dict_get d k); [by eexists|done].
Qed.

Lemma ToolSource_deserialize_total v :
  has_keys [] v = true -> exists s, ToolSource_deserialize v = Ok s.
Proof.
  destruct v as [| | | | |d| |]; try done. intros _. simpl.
  unfold dict_has. destruct (dict_get d "tool"), (dict_get d "path"); by eexists.
Qed.

Lemma SkipCondition_deserialize_total v :
  has_keys ["when"; "is"; "return"] v = true -> exists c, SkipCondition_deserialize v = Ok c.
Proof.
  intros Hk. unfold SkipCondition_deserialize.
  destruct (has_keys_subscript _ v "when" Hk) as [w ->]; [by left|].
  destruct (has_keys_subscript _ v "is" Hk) as [i ->]; [by right; left|].
  destruct (has_keys_subscript _ v "return" Hk) as [r ->]; [by right; right; left|].
  simpl.
  destruct (InputAssignment_deserialize_total w) as [a ->].
  destruct (InputAssignment_deserialize_total r) as [b ->]. by eexists.
Qed.

Lemma ActivateCondition_deserialize_total v :
  has_keys ["when"; "is"] v = true -> exists c, ActivateCondition_deserialize v = Ok c.
Proof.
  intros Hk. unfold ActivateCondition_deserialize.
  destruct (has_keys_subscript _ v "when" Hk) as [w ->]; [by left|].
  destruct (has_keys_subscript _ v "is" Hk) as [i ->]; [by right; left|].
  simpl.
  destruct (InputAssignment_deserialize_total w) as [a ->]. by eexists.
Qed.

(** The parts of a node tree raise no condition conflict. *)

Lemma InputAssignment_deserialize_no_raise v e : InputAssignment_deserialize v <> Raise e.
Proof. destruct (InputAssignment_deserialize_total v) as [a ->]. done. Qed.

Lemma subscript_no_conflict v k e : subscript v k = Raise e -> ~ is_conflict e.
Proof.
  destruct v as [| | | | |d| |]; simpl; try (intros [= <-]; by intros []).
  destruct (dict_get d k); [done|]. intros [= <-]. by intros [].
Qed.

Lemma ToolSource_deserialize_no_conflict v e :
  ToolSource_deserialize v = Raise e -> ~ is_conflict e.
Proof.
  destruct v as [| | | | |d| |]; simpl; try (intros [= <-]; by intros []).
  unfold dict_has. destruct (dict_get d "tool"), (dict_get d "path"); done.
Qed.

Lemma SkipCondition_deserialize_no_conflict v e :
  SkipCondition_deserialize v = Raise e -> ~ is_conflict e.
Proof.
  unfold SkipCondition_deserialize.
  destruct (subscript v "when") as [w|e1] eqn:E1; simpl;
    [|intros [= <-]; by eapply subscript_no_conflict].
  destruct (InputAssignment_deserialize w) as [a|e2] eqn:E2; simpl;
    [|by apply InputAssignment_deserialize_no_raise in E2].
  destruct (subscript v "is") as [i|e3] eqn:E3; simpl;
    [|intros [= <-]; by eapply subscript_no_conflict].
  destruct (subscript v "return") as [r|e4] eqn:E4; simpl;
    [|intros [= <-]; by eapply subscript_no_conflict].
  destruct (InputAssignment_deserialize r) as [b|e5] eqn:E5; simpl;
    [done|by apply InputAssignment_deserialize_no_raise in E5].
Qed.

Lemma ActivateCondition_deserialize_no_conflict v e :
  ActivateCondition_deserialize v = Raise e -> ~ is_conflict e.
Proof.
  unfold ActivateCondition_deserialize.
  destruct (subscript v "when") as [w|e1] eqn:E1; simpl;
    [|intros [= <-]; by eapply subscript_no_conflict].
  destruct (InputAssignment_deserialize w) as [a|e2] eqn:E2; simpl;
    [|by apply InputAssignment_deserialize_no_raise in E2].
  destruct (subscript v "is") as [i|e3] eqn:E3; simpl;
    [done|intros [= <-]; by eapply subscript_no_conflict].
Qed.

(** An optional key of the tree: the field is assigned when the key is
    there. *)
Lemma optional_field {C} (data : dict pyval) key (des : pyval -> result C)
    (set : C -> Node.t -> Node.t) (node : Node.t) :
  (forall v e, des v = Raise e -> ~ is_conflict e) ->
  match (if dict_has data key then
           let* v := subscript (PDict data) key in
           let* c := des v in
           Ok (set c node)
         else Ok node) with
  | Ok node' => if dict_has data key then exists c, node' = set c node else node' = node
  | Raise e => ~ is_conflict e
  end.
Proof.
  intros Hdes. destruct (dict_has data key); [|done].
  destruct (subscript (PDict data) key) as [v|e] eqn:E; cbn [result_bind];
    [|by eapply subscript_no_conflict].
  destruct (des v) as [c|e] eqn:E'; cbn [result_bind]; [by exists c|by eapply Hdes].
Qed.

Section NodeTheorems.
Context `{Imports}.

Lemma ToolType_new_no_conflict v e : ToolType_new v = Raise e -> ~ is_conflict e.
Proof. unfold ToolType_new. destruct (ToolType_of_value v); [done|]. intros [= <-]. by intros []. Qed.

(** What [Node.deserialize] returns, whatever the tree. *)
Lemma Node_deserialize_inv data :
  match Node_deserialize data with
  | Ok n =>
      Node.aggregation n
      = py_or (dict_get_default data "aggregation" (PBool false))
              (dict_get_default data "reduce" (PBool false))
      /\ (dict_has data "skip" && dict_has data "activate" = false)
  | Raise e =>
      forall nm, e = NodeConditionConflict nm ->
        dict_has data "skip" = true /\ dict_has data "activate" = true
        /\ nm = dict_get_default data "name" PNone
  end.
Proof.
  unfold Node_deserialize.
  destruct (items_of _) as [items|e] eqn:E1; cbn [result_bind].
  2:{ intros nm ->. revert E1.
      by destruct (py_or (dict_get_default data "inputs" PNone) (PDict [])). }
  destruct (result_map _ items) as [inputs|e] eqn:E2; cbn [result_bind].
  2:{ exfalso. destruct (result_map_total
        (fun kv : string * pyval => let* a := InputAssignment_deserialize kv.2 in Ok (kv.1, a))
        items) as [ys Hys]; [|congruence].
      intros [k v]. simpl. destruct (InputAssignment_deserialize_total v) as [a ->].
      by eexists. }
  match goal with |- context [Node.mk ?a ?b ?c ?d ?e ?f ?g ?h ?i ?j ?k None None None None] =>
    set (node := Node.mk a b c d e f g h i j k None None None None) end.
  pose proof (optional_field data "source" ToolSource_deserialize Node.set_source node
                ToolSource_deserialize_no_conflict) as H1.
  destruct (if dict_has data "source" then _ else _) as [n1|e] eqn:E3 in H1 |- *;
    cbn [result_bind]; [|by intros nm ->].
  pose proof (optional_field data "type" ToolType_new Node.set_type n1
                ToolType_new_no_conflict) as H2.
  destruct (if dict_has data "type" then _ else _) as [n2|e] eqn:E4 in H2 |- *;
    cbn [result_bind]; [|by intros nm ->].
  pose proof (optional_field data "skip" SkipCondition_deserialize Node.set_skip n2
                SkipCondition_deserialize_no_conflict) as H3.
  destruct (if dict_has data "skip" then _ else _) as [n3|e] eqn:E5 in H3 |- *;
    cbn [result_bind]; [|by intros nm ->].
  pose proof (optional_field data "activate" ActivateCondition_deserialize Node.set_activate n3
                ActivateCondition_deserialize_no_conflict) as H4.
  destruct (if dict_has data "activate" then _ else _) as [n4|e] eqn:E6 in H4 |- *;
    cbn [result_bind]; [|by intros nm ->].
  clear E3 E4 E5 E6.
  destruct (dict_has data "source"), (dict_has data "type"),
    (dict_has data "skip"), (dict_has data "activate");
    repeat match goal with H : exists _, _ |- _ => destruct H as [? ?] end;
    subst; simpl; try done; by intros nm [= <-].
Qed.
End NodeTheorems.

Lemma optional_field_ok {C} (data : dict pyval) key (des : pyval -> result C)
    (set : C -> Node.t -> Node.t) (node : Node.t) :
  (forall v, dict_get data key = Some v -> exists c, des v = Ok c) ->
  exists node',
    (if dict_has data key then
       let* v := subscript (PDict data) key in
       let* c := des v in
       Ok (set c node)
     else Ok node) = Ok node'.
Proof.
  intros Hdes. unfold dict_has. simpl.
  destruct (dict_get data key) as [v|]; [|by eexists].
  cbn [result_bind]. destruct (Hdes v eq_refl) as [c ->]. by eexists.
Qed.

Lemma truthy_py_or a b : truthy (py_or a b) = truthy a || truthy b.
Proof. unfold py_or. by destruct (truthy a) eqn:E. Qed.

Section NodeClaims.
Context `{Imports}.

(** A tree of the shape of §6 is deserialized up to the check of the
    conditions. *)
Lemma Node_deserialize_shape data :
  node_tree_shape data = true ->
  (exists n, Node_deserialize data = Ok n)
  \/ (exists nm, Node_deserialize data = Raise (NodeConditionConflict nm)).
Proof.
  unfold node_tree_shape.
  intros ((((Hin & Hsrc)%andb_true_iff & Hty)%andb_true_iff
             & Hskip)%andb_true_iff & Hact)%andb_true_iff.
  unfold Node_deserialize.
  apply has_keys_dict in Hin as [items ->]. cbn [items_of result_bind].
  destruct (result_map_total
    (fun kv : string * pyval => let* a := InputAssignment_deserialize kv.2 in Ok (kv.1, a))
    items) as [inputs ->].
  { intros [k v]. simpl. destruct (InputAssignment_deserialize_total v) as [a ->].
    by eexists. }
  cbn [result_bind].
  match goal with |- context [Node.mk ?a ?b ?c ?d ?e ?f ?g ?h ?i ?j ?k None None None None] =>
    set (node := Node.mk a b c d e f g h i j k None None None None) end.
  destruct (optional_field_ok data "source" ToolSource_deserialize Node.set_source node)
    as [n1 ->].
  { intros v Hv. rewrite Hv in Hsrc. by apply ToolSource_deserialize_total. }
  cbn [result_bind].
  destruct (optional_field_ok data "type" ToolType_new Node.set_type n1) as [n2 ->].
  { intros v Hv. rewrite Hv in Hty. unfold ToolType_new.
    destruct (ToolType_of_value v); [by eexists|done]. }
  cbn [result_bind].
  destruct (optional_field_ok data "skip" SkipCondition_deserialize Node.set_skip n2)
    as [n3 ->].
  { intros v Hv. rewrite Hv in Hskip. by apply SkipCondition_deserialize_total. }
  cbn [result_bind].
  destruct (optional_field_ok data "activate" ActivateCondition_deserialize
              Node.set_activate n3) as [n4 ->].
  { intros v Hv. rewrite Hv in Hact. by apply ActivateCondition_deserialize_total. }
  cbn [result_bind].
  destruct (Node.skip n4), (Node.activate n4); eauto.
Qed.

(** C5 (as amended).  [Node.deserialize] raises the condition conflict,
    naming the node, only for a tree with both a [skip] and an [activate]
    key; and a tree of the shape of §6 with both keys raises it, while one
    with at most one of the keys gives a node. *)
Theorem Node_deserialize_conflict (data : dict pyval) :
  (forall nm,
     Node_deserialize data = Raise (NodeConditionConflict nm) ->
     dict_has data "skip" = true /\ dict_has data "activate" = true
     /\ nm = dict_get_default data "name" PNone)
  /\ (node_tree_shape data = true ->
      if dict_has data "skip" && dict_has data "activate"
      then Node_deserialize data
           = Raise (NodeConditionConflict (dict_get_default data "name" PNone))
      else exists n, Node_deserialize data = Ok n).
Proof.
  pose proof (Node_deserialize_inv data) as Hinv. split.
  - intros nm Hr. rewrite Hr in Hinv. by apply Hinv.
  - intros Hshape.
    destruct (Node_deserialize_shape data Hshape) as [[n Hn]|[nm Hnm]].
    + rewrite Hn in Hinv |- *. destruct Hinv as [_ ->]. by exists n.
    + rewrite Hnm in Hinv |- *. destruct (Hinv nm eq_refl) as (-> & -> & ->). done.
Qed.

(** C8.  [Node.deserialize] sets the aggregation of the node to
    [aggregation or reduce] of the tree, each false when absent, which is
    true exactly when one of the two is, and is the boolean OR of two
    booleans; [Node.serialize] of a node whose aggregation is set gives a
    dict with [aggregation] and [reduce] both [True]. *)
Theorem aggregation_or_reduce :
  (forall data n,
     Node_deserialize data = Ok n ->
     let a := dict_get_default data "aggregation" (PBool false) in
     let r := dict_get_default data "reduce" (PBool false) in
     Node.aggregation n = py_or a r
     /\ truthy (Node.aggregation n) = truthy a || truthy r
     /\ (forall x y, a = PBool x -> r = PBool y -> Node.aggregation n = PBool (x || y)))
  /\ (forall n,
        truthy (Node.aggregation n) = true ->
        dict_get (Node_serialize n) "aggregation" = Some (PBool true)
        /\ dict_get (Node_serialize n) "reduce" = Some (PBool true)).
Proof.
  split.
  - intros data n Hn a r. pose proof (Node_deserialize_inv data) as Hinv.
    rewrite Hn in Hinv. destruct Hinv as [Hagg _]. fold a r in Hagg.
    split; [done|]. split; [by rewrite Hagg, truthy_py_or|].
    intros x y Ha Hr. rewrite Hagg, Ha, Hr. by destruct x.
  - intros n Hagg. unfold Node_serialize. rewrite Hagg. split.
    + rewrite dict_get_set_ne by done. apply dict_get_set_eq.
    + apply dict_get_set_eq.
Qed.
End NodeClaims.

(** C5, the counterexample: a tree with both keys, each an empty mapping,
    raises the key error of [when] while the skip condition is read, and
    not the condition conflict. *)
Lemma Node_deserialize_both_keys_key_error :
  dict_has empty_conditions_tree "skip" = true
  /\ dict_has empty_conditions_tree "activate" = true
  /\ (forall I : Imports,
        @Node_deserialize I empty_conditions_tree = Raise (KeyError "when"))
  /\ (forall (I : Imports) nm,
        @Node_deserialize I empty_conditions_tree <> Raise (NodeConditionConflict nm)).
Proof.
  split; [reflexivity|]. split; [reflexivity|]. split; [intros I; reflexivity|].
  intros I nm. discriminate.
Qed.

(** ** Default variants *)


(** What [_apply_default_node_variant] does to the store: nothing, or the
    name of the node is written to the default variant of an entry. *)
Lemma _apply_default_node_variant_effect table node h :
  (_apply_default_node_variant node table h).2 = h
  \/ exists name v,
       default_variant table name = Some v
       /\ _apply_default_node_variant node table h
          = (Ok (NodeVariant.node v),
             alter (Node.set_name (Node.name (h node))) (NodeVariant.node v) h).
Proof.
  unfold _apply_default_node_variant.
  destruct table as [[|e0 t]|]; [left; reflexivity|set (tab := e0 :: t)|left; reflexivity].
  unfold bind, load, lift, ret, modify. cbn beta iota.
  destruct (Node.name (h node)) as [| | |s| | | |] eqn:Hn; try (left; reflexivity).
  cbn [dict_get_py].
  destruct (dict_get tab s) as [entry|] eqn:He; [|left; reflexivity].
  destruct (NodeVariants.default_variant_id entry) as [| | |i| | | |] eqn:Hi; try (left; reflexivity).
  cbn [dict_get_py].
  destruct (dict_get (NodeVariants.variants entry) i) as [v|] eqn:Hv; [|left; reflexivity].
  right. exists s, v. split; [|cbn; by rewrite Hn].
  unfold default_variant. subst tab. by rewrite He, Hi.
Qed.

Lemma default_variant_or_self_effect table node h :
  (default_variant_or_self table node h).2 = h
  \/ exists name v,
       default_variant table name = Some v
       /\ default_variant_or_self table node h
          = (Ok (NodeVariant.node v),
             alter (Node.set_name (Node.name (h node))) (NodeVariant.node v) h).
Proof.
  unfold default_variant_or_self, bind, load. cbn beta iota.
  destruct (truthy (Node.use_variants (h node))); [|by left].
  apply _apply_default_node_variant_effect.
Qed.


(** ** The store under connection discovery *)

Section Frame.
Context `{Imports}.

(** The loop over the normalized nodes only reads the store. *)
Lemma collect_connection_names_store self nodes acc h :
  (collect_connection_names self nodes acc h).2 = h.
Proof.
  revert acc. induction nodes as [|node rest IH]; intros acc; [done|].
  cbn [collect_connection_names]. unfold bind, load, lift. cbn beta iota.
  destruct (truthy (Node.connection (h node))).
  { destruct (set_add acc (Node.connection (h node))); [apply IH|done]. }
  destruct (type_is (Node.type (h node)) PROMPT || type_is (Node.type (h node)) LLM);
    [apply IH|].
  destruct (tool_of_node self (h node)) as [[tool|]|]; [|apply IH|done].
  destruct (set_update acc _); [apply IH|done].
Qed.

Lemma renamed_refl self h : renamed self h h.
Proof. intros l. by left. Qed.

Lemma renamed_step self h hk n :
  In n (Flow.nodes self) -> renamed self h hk ->
  renamed self h (default_variant_or_self (Flow.node_variants self) n hk).2.
Proof.
  intros Hn Hk.
  destruct (default_variant_or_self_effect (Flow.node_variants self) n hk)
    as [->|(name & v & Hv & ->)]; [done|].
  cbn [snd]. intros l.
  destruct (decide (NodeVariant.node v = l)) as [<-|Hne].
  - right. split; [by exists name, v|].
    assert (exists n', In n' (Flow.nodes self) /\ Node.name (hk n) = Node.name (h n'))
      as (n' & Hn' & Hname).
    { destruct (Hk n) as [->|(_ & n' & Hn' & ->)]; [by exists n|by exists n']. }
    exists n'. split; [done|].
    rewrite fn_lookup_alter, Hname.
    destruct (Hk (NodeVariant.node v)) as [->|(_ & n'' & _ & ->)]; done.
  - rewrite fn_lookup_alter_ne by done. apply Hk.
Qed.

Lemma renamed_map_M self h ns hk :
  (forall n, In n ns -> In n (Flow.nodes self)) -> renamed self h hk ->
  renamed self h (map_M (default_variant_or_self (Flow.node_variants self)) ns hk).2.
Proof.
  revert hk. induction ns as [|n ns IH]; intros hk Hns Hk; [done|].
  cbn [map_M]. unfold bind at 1.
  pose proof (renamed_step self h hk n (Hns n (or_introl eq_refl)) Hk) as Hstep.
  destruct (default_variant_or_self _ n hk) as [[y|e] h1]; [|done].
  unfold bind at 1.
  specialize (IH h1 (fun m Hm => Hns m (or_intror Hm)) Hstep).
  by destruct (map_M _ ns h1) as [[ys|e] h2].
Qed.

(** C9 (as amended).  [get_connection_names] changes no stored node other
    than the default-variant node definitions of the variant table, and of
    those only the [name], which it overwrites with the name of a node of
    the flow.  (The node list and the table themselves are values the
    operation does not assign.) *)
Theorem get_connection_names_frame (self : Flow.t) (h : store) (l : loc) :
  let h' := (get_connection_names self h).2 in
  h' l = h l
  \/ (is_default_variant_node (Flow.node_variants self) l
      /\ exists n, In n (Flow.nodes self)
                   /\ h' l = Node.set_name (Node.name (h n)) (h l)).
Proof.
  intros h'. revert l. change (renamed self h h'). subst h'.
  unfold get_connection_names. unfold bind at 1.
  pose proof (renamed_map_M self h (Flow.nodes self) h (fun n Hn => Hn) (renamed_refl self h))
    as Hr.
  destruct (map_M _ (Flow.nodes self) h) as [[nodes|e] h1]; [|apply Hr].
  unfold bind at 1.
  pose proof (collect_connection_names_store self nodes [] h1) as Hc.
  destruct (collect_connection_names self nodes [] h1) as [[names|e] h2];
    cbn [snd] in Hc |- *; subst h2; apply Hr.
Qed.
End Frame.

(** ** Node overrides *)



(** ** Connection names *)







Section ConnectionTheorems.
Context `{Imports}.

Lemma all_value_types_slot d :
  all_value_types (map tag_value (InputDefinition.type d)) = negb (is_connection_slot d).
Proof.
  unfold all_value_types, is_connection_slot.
  induction (InputDefinition.type d) as [|typ tys IH]; simpl; [done|].
  rewrite IH, negb_orb. by rewrite negb_involutive.
Qed.


Lemma type_is_prompt_or_llm ty :
  type_is ty PROMPT || type_is ty LLM
  = match ty with Some PROMPT | Some LLM => true | _ => false end.
Proof. by destruct ty as [[| |]|]. Qed.

Lemma tool_of_node_loader self ld nd :
  Flow._tool_loader self = Some ld -> tool_of_node self nd = Ok (declared_tool self ld nd).
Proof.
  intros Hld. unfold tool_of_node, declared_tool, get_tool. rewrite Hld.
  by destruct (List.find _ (Flow.tools self)).
Qed.


End ConnectionTheorems.

(** ** The examples of §8 *)

Example deserialize_flow_input :
  InputAssignment_deserialize (PStr "${flow.topic}")
  = Ok (FlowInputAssignment_new (PStr "topic") FLOW_INPUT "flow.")
  /\ InputAssignment_deserialize (PStr "${inputs.topic}")
     = Ok (FlowInputAssignment_new (PStr "topic") FLOW_INPUT "inputs.").
Proof. split; reflexivity. Qed.

Example deserialize_node_reference :
  InputAssignment_deserialize (PStr "${node1.output}")
  = Ok (InputAssignment_new (PStr "node1") NODE_REFERENCE "output" "")
  /\ InputAssignment_deserialize (PStr "${node1.output.field}")
     = Ok (InputAssignment_new (PStr "node1") NODE_REFERENCE "output" "field").
Proof. split; reflexivity. Qed.

Example deserialize_literal :
  InputAssignment_deserialize (PStr "plain text")
  = Ok (InputAssignment_new (PStr "plain text") LITERAL "" "")
  /\ InputAssignment_deserialize (PStr "${unterminated")
     = Ok (InputAssignment_new (PStr "${unterminated") LITERAL "" "").
Proof. split; reflexivity. Qed.

Example overrides_example :
  let h := (_apply_node_overrides sample_flow
              [("A.connection", PStr "newconn"); ("B.x", PStr "v")] sample_store).2 in
  Node.connection (h 0) = PStr "newconn"
  /\ dict_get (Node.inputs (h 1)) "x" = Some (InputAssignment_new (PStr "v") LITERAL "" "").
Proof. split; reflexivity. Qed.

(** ** The claims at the sample objects *)

Lemma deserialize_reference_iff_witness :
  is_reference_string "plain text" = false
  /\ InputAssignment_deserialize (PStr "plain text")
     = Ok (InputAssignment_new (PStr "plain text") LITERAL "" "").
Proof.
  split; [reflexivity|].
  destruct (proj1 deserialize_reference_iff "plain text") as (a & Ha & _ & Hlit).
  rewrite Ha. f_equal. apply Hlit. reflexivity.
Defined.

Lemma deserialize_serialize_roundtrip_witness :
  (forall v, @is_connection_value sample_imports (PStr v) = false)
  /\ "${node1.output.field}" <> "${flow}"
  /\ "${node1.output.field}" <> "${inputs}"
  /\ InputAssignment_deserialize (PStr "${node1.output.field}")
     = Ok (InputAssignment_new (PStr "node1") NODE_REFERENCE "output" "field")
  /\ exists a',
       InputAssignment_deserialize
         (@InputAssignment_serialize sample_imports
            (InputAssignment_new (PStr "node1") NODE_REFERENCE "output" "field")) = Ok a'
       /\ equivalent (InputAssignment_new (PStr "node1") NODE_REFERENCE "output" "field") a'.
Proof.
  split; [reflexivity|]. split; [discriminate|]. split; [discriminate|].
  split; [reflexivity|].
  apply (@deserialize_serialize_roundtrip sample_imports "${node1.output.field}");
    [reflexivity|discriminate|discriminate|reflexivity].
Defined.

Example get_connection_names_example :
  @get_connection_names sample_imports sample_flow sample_store
  = (Ok [PStr "conn1"; PStr "conn2"], sample_store).
Proof. reflexivity. Qed.

Example get_connection_names_variant_example :
  @get_connection_names sample_imports variant_flow variant_conn_store
  = (Ok [PStr "conn3"], alter (variant_with_name (PStr "C")) 1 variant_conn_store).
Proof. reflexivity. Qed.




Lemma Node_deserialize_conflict_witness :
  @node_tree_shape sample_imports conflict_tree = true
  /\ @Node_deserialize sample_imports conflict_tree
     = Raise (NodeConditionConflict (PStr "n")).
Proof.
  split; [reflexivity|].
  exact (proj2 (@Node_deserialize_conflict sample_imports conflict_tree) eq_refl).
Defined.


Lemma aggregation_or_reduce_witness :
  exists n,
    @Node_deserialize sample_imports reduce_tree = Ok n
    /\ Node.aggregation n = PBool true
    /\ dict_get (@Node_serialize sample_imports n) "aggregation" = Some (PBool true)
    /\ dict_get (@Node_serialize sample_imports n) "reduce" = Some (PBool true).
Proof.
  destruct (@aggregation_or_reduce sample_imports) as [Hde Hser].
  eexists. split; [reflexivity|].
  split; [refine (proj1 (Hde reduce_tree _ _)); reflexivity|].
  apply Hser. reflexivity.
Defined.

(** C9, the counterexample: the node definition of the default variant of
    C has no name before [get_connection_names] and the name C after it. *)
Lemma get_connection_names_renames_variant :
  Node.name (variant_store 1) = PNone
  /\ Node.name ((@get_connection_names sample_imports variant_flow variant_store).2 1)
     = PStr "C"
  /\ (@get_connection_names sample_imports variant_flow variant_store).2 1
     <> variant_store 1.
Proof. split; [reflexivity|]. split; [reflexivity|]. discriminate. Qed.

(** * Further properties *)

(** ** Default variants in place *)

Lemma _apply_default_node_variant_lookup node table h :
  _apply_default_node_variant node table h
  = match variant_lookup table (Node.name (h node)) with
    | Ok None => (Ok node, h)
    | Ok (Some v) =>
        (Ok (NodeVariant.node v),
         alter (Node.set_name (Node.name (h node))) (NodeVariant.node v) h)
    | Raise e => (Raise e, h)
    end.
Proof.
  unfold _apply_default_node_variant, variant_lookup.
  destruct table as [[|e0 t]|]; [done| |done].
  unfold bind, load, lift, ret, modify. cbn beta iota.
  destruct (dict_get_py (e0 :: t) (Node.name (h node))) as [[entry|]|e]; cbn [result_bind];
    [|done|done].
  by destruct (dict_get_py (NodeVariants.variants entry)
                 (NodeVariants.default_variant_id entry)) as [[v|]|e].
Qed.

Lemma same_nodes_refl h : same_nodes h h.
Proof. by intros l. Qed.

Lemma same_nodes_trans h1 h2 h3 : same_nodes h1 h2 -> same_nodes h2 h3 -> same_nodes h1 h3.
Proof. intros H12 H23 l. by rewrite H12. Qed.

Lemma resolved_same_nodes table h h' l : same_nodes h h' -> resolved table h l -> resolved table h' l.
Proof. intros Hh. unfold resolved. by rewrite (Hh l). Qed.

(** Resolution gives a resolved node back and leaves the nodes of the
    store as they are. *)
Lemma resolved_run table h l :
  resolved table h l ->
  exists h', default_variant_or_self table l h = (Ok l, h') /\ same_nodes h h'.
Proof.
  intros Hres. unfold default_variant_or_self, bind, load. cbn beta iota.
  destruct (truthy (Node.use_variants (h l))) eqn:Huse.
  2:{ exists h. by split. }
  rewrite _apply_default_node_variant_lookup.
  destruct Hres as [Hf|[->|(v & -> & Hv)]]; [congruence|exists h; by split|].
  rewrite Hv. eexists. split; [done|].
  intros l'. destruct (decide (l = l')) as [<-|Hne].
  - rewrite fn_lookup_alter. by destruct (h l).
  - by rewrite fn_lookup_alter_ne.
Qed.

(** What one step of the comprehension gives is resolved, and stays so
    under the later steps. *)
Lemma resolved_after_step table h n r h' :
  default_variant_or_self table n h = (Ok r, h') -> resolved table h' r.
Proof.
  unfold default_variant_or_self, bind, load. cbn beta iota.
  destruct (truthy (Node.use_variants (h n))) eqn:Huse.
  2:{ intros [= <- <-]. by left. }
  rewrite _apply_default_node_variant_lookup.
  destruct (variant_lookup table (Node.name (h n))) as [[v|]|e] eqn:Hv; [| |done].
  - intros [= <- <-]. right. right. exists v. split; [|done].
    by rewrite fn_lookup_alter.
  - intros [= <- <-]. right. by left.
Qed.

Lemma resolved_preserved table h n r' h' l :
  default_variant_or_self table n h = (r', h') -> resolved table h l -> resolved table h' l.
Proof.
  unfold default_variant_or_self, bind, load. cbn beta iota.
  destruct (truthy (Node.use_variants (h n))) eqn:Huse.
  2:{ by intros [= <- <-]. }
  rewrite _apply_default_node_variant_lookup.
  destruct (variant_lookup table (Node.name (h n))) as [[v|]|e] eqn:Hv;
    [|by intros [= <- <-]|by intros [= <- <-]].
  intros [= <- <-] Hres. unfold resolved.
  destruct (decide (NodeVariant.node v = l)) as [<-|Hne].
  - rewrite fn_lookup_alter. cbn [Node.name Node.use_variants Node.set_name].
    destruct (truthy (Node.use_variants (h (NodeVariant.node v)))); [|by left].
    right. right. by exists v.
  - by rewrite fn_lookup_alter_ne.
Qed.

Lemma map_M_resolved table ns h rs h' :
  map_M (default_variant_or_self table) ns h = (Ok rs, h') ->
  Forall (resolved table h') rs.
Proof.
  revert h rs h'. induction ns as [|n ns IH]; intros h rs h'.
  { intros [= <- <-]. constructor. }
  cbn [map_M]. unfold bind at 1.
  destruct (default_variant_or_self table n h) as [[r|e] h1] eqn:Hstep; [|done].
  unfold bind at 1.
  destruct (map_M (default_variant_or_self table) ns h1) as [[rs'|e] h2] eqn:Hrest; [|done].
  intros [= <- <-]. constructor; [|by eapply IH].
  apply resolved_after_step in Hstep.
  clear IH. revert h1 rs' h2 Hrest Hstep.
  induction ns as [|m ns IH]; intros h1 rs' h2.
  { by intros [= <- <-]. }
  cbn [map_M]. unfold bind at 1.
  destruct (default_variant_or_self table m h1) as [[r1|e] h3] eqn:Hstep1; [|done].
  unfold bind at 1.
  destruct (map_M (default_variant_or_self table) ns h3) as [[rs''|e] h4] eqn:Hrest'; [|done].
  intros [= <- <-] Hres. eapply IH; [done|]. by eapply resolved_preserved.
Qed.

Lemma map_M_resolved_run table rs h :
  Forall (resolved table h) rs ->
  exists h', map_M (default_variant_or_self table) rs h = (Ok rs, h') /\ same_nodes h h'.
Proof.
  revert h. induction rs as [|r rs IH]; intros h Hrs.
  { exists h. by split. }
  inversion Hrs as [|? ? Hr Hrs']; subst.
  destruct (resolved_run table h r Hr) as (h1 & Hstep & Hh1).
  destruct (IH h1) as (h2 & Hrest & Hh2).
  { eapply Forall_impl; [exact Hrs'|]. intros l. by apply resolved_same_nodes. }
  exists h2. split; [|by eapply same_nodes_trans].
  cbn [map_M]. unfold bind at 1. rewrite Hstep. unfold bind at 1. by rewrite Hrest.
Qed.

(** X1.  [_apply_default_node_variants] is idempotent: applied to the flow
    and the nodes that a first application gives, it returns the same flow
    and changes no node. *)
Theorem apply_default_node_variants_idempotent (self self1 : Flow.t) (h h1 : store) :
  _apply_default_node_variants self h = (Ok self1, h1) ->
  exists h2,
    _apply_default_node_variants self1 h1 = (Ok self1, h2)
    /\ forall l, h2 l = h1 l.
Proof.
  unfold _apply_default_node_variants. unfold bind at 1.
  destruct (map_M _ (Flow.nodes self) h) as [[rs|e] h'] eqn:Hrun; [|done].
  intros [= <- <-].
  apply map_M_resolved in Hrun.
  destruct (map_M_resolved_run _ _ _ Hrun) as (h2 & Hrun2 & Hh2).
  exists h2. split; [|intros l; by rewrite (Hh2 l)].
  unfold bind at 1. cbn [Flow.node_variants Flow.nodes Flow_set_nodes]. by rewrite Hrun2.
Qed.

Section MoreConnectionTheorems.
Context `{Imports}.

(** The loop over the normalized nodes reads the nodes, the tools and the
    loader only. *)
Lemma collect_connection_names_same_nodes self self' nodes acc h h' :
  Flow.tools self' = Flow.tools self -> Flow._tool_loader self' = Flow._tool_loader self ->
  same_nodes h h' ->
  (collect_connection_names self' nodes acc h').1 = (collect_connection_names self nodes acc h).1.
Proof.
  intros Htools Hld Hh. revert acc. induction nodes as [|node rest IH]; intros acc; [done|].
  cbn [collect_connection_names]. unfold bind, load, lift. cbn beta iota.
  rewrite <- (Hh node).
  destruct (truthy (Node.connection (h node))).
  { destruct (set_add acc (Node.connection (h node))); [apply IH|done]. }
  destruct (type_is (Node.type (h node)) PROMPT || type_is (Node.type (h node)) LLM);
    [apply IH|].
  assert (tool_of_node self' (h node) = tool_of_node self (h node)) as ->.
  { unfold tool_of_node, get_tool. by rewrite Htools, Hld. }
  destruct (tool_of_node self (h node)) as [[tool|]|]; [|apply IH|done].
  destruct (set_update acc _); [apply IH|done].
Qed.

Lemma get_connection_names_run self h rs h1 :
  map_M (default_variant_or_self (Flow.node_variants self)) (Flow.nodes self) h = (Ok rs, h1) ->
  get_connection_names self h
  = (match (collect_connection_names self rs [] h1).1 with
     | Ok names => Ok (List.filter truthy names)
     | Raise e => Raise e
     end, h1).
Proof.
  intros Hrun. unfold get_connection_names. unfold bind at 1. rewrite Hrun.
  unfold bind at 1.
  pose proof (collect_connection_names_store self rs [] h1) as Hs.
  destruct (collect_connection_names self rs [] h1) as [[names|e] s]; cbn [fst snd] in *;
    by subst.
Qed.

(** X2.  The connection names of a flow are the same before and after
    [_apply_default_node_variants]: the names found for the flow as loaded
    are the names found for the flow with its default variants in place,
    and the nodes are left the same. *)
Theorem get_connection_names_after_default_variants (self self1 : Flow.t) (h h1 : store) :
  _apply_default_node_variants self h = (Ok self1, h1) ->
  (get_connection_names self1 h1).1 = (get_connection_names self h).1
  /\ forall l, (get_connection_names self1 h1).2 l = (get_connection_names self h).2 l.
Proof.
  unfold _apply_default_node_variants. unfold bind at 1.
  destruct (map_M _ (Flow.nodes self) h) as [[rs|e] h'] eqn:Hrun; [|done].
  intros [= <- <-].
  pose proof (map_M_resolved _ _ _ _ _ Hrun) as Hres.
  destruct (map_M_resolved_run _ _ _ Hres) as (h2 & Hrun2 & Hh2).
  rewrite (get_connection_names_run self h rs h' Hrun).
  rewrite (get_connection_names_run (Flow_set_nodes rs self) h' rs h2 Hrun2).
  cbn [fst snd].
  rewrite (collect_connection_names_same_nodes self (Flow_set_nodes rs self) rs [] h' h2
             eq_refl eq_refl Hh2).
  split; [done|]. intros l. symmetry. apply Hh2.
Qed.
End MoreConnectionTheorems.

(** ** The connection inputs of a node *)

Lemma dict_set_keys {V} (d : dict V) k v :
  map fst (dict_set d k v) = if dict_has d k then map fst d else (map fst d ++ [k])%list.
Proof.
  unfold dict_has. induction d as [|[k0 v0] d IH]; simpl; [done|].
  destruct (String.eqb k0 k) eqn:E; simpl; [done|].
  rewrite IH. by destruct (dict_get d k).
Qed.

Lemma dict_get_In {V} (d : dict V) k v : dict_get d k = Some v -> In (k, v) d.
Proof.
  induction d as [|[k0 v0] d IH]; simpl; [done|].
  destruct (String.eqb k0 k) eqn:E; [|by right; apply IH].
  apply String.eqb_eq in E as ->. intros [= ->]. by left.
Qed.

Lemma dict_get_None_keys {V} (d : dict V) k : dict_get d k = None -> ~ In k (map fst d).
Proof.
  induction d as [|[k0 v0] d IH]; simpl; [tauto|].
  destruct (String.eqb k0 k) eqn:E; [done|].
  intros Hd [->|Hin]; [by rewrite String.eqb_refl in E|by apply IH].
Qed.

Lemma dict_set_keys_NoDup {V} (d : dict V) k v :
  NoDup (map fst d) -> NoDup (map fst (dict_set d k v)).
Proof.
  intros Hd. rewrite dict_set_keys. unfold dict_has.
  destruct (dict_get d k) eqn:E; [done|].
  apply NoDup_app. split; [done|]. split; [|apply NoDup_singleton].
  intros x Hx ->%list_elem_of_singleton.
  by apply (dict_get_None_keys d k E), list_elem_of_In.
Qed.

Lemma dict_set_In_iff {V} (d : dict V) k v k' x :
  NoDup (map fst d) ->
  In (k', x) (dict_set d k v) <-> (k' = k /\ x = v) \/ (k' <> k /\ In (k', x) d).
Proof.
  induction d as [|[k0 v0] d IH]; simpl; intros Hd.
  - split; [intros [[= <- <-]|[]]; by left|intros [[-> ->]|[_ []]]; by left].
  - apply NoDup_cons in Hd as [Hk0 Hd]. destruct (String.eqb k0 k) eqn:E; simpl.
    + apply String.eqb_eq in E as ->. split.
      * intros [[= <- <-]|Hin]; [by left|]. right. split; [|by right].
        intros ->. apply Hk0, list_elem_of_In, in_map_iff. by exists (k, x).
      * intros [[-> ->]|[Hne [[= -> ->]|Hin]]]; [by left|done|by right].
    + rewrite IH by done. split.
      * intros [[= <- <-]|[[-> ->]|[Hne Hin]]].
        -- right. split; [|by left]. intros ->. by rewrite String.eqb_refl in E.
        -- by left.
        -- right. split; [done|by right].
      * intros [[-> ->]|[Hne [[= -> ->]|Hin]]]; [right; by left|by left|].
        right. right. by split.
Qed.

Section ConnectionInputs.
Context `{Imports}.

(** When a node supplies a literal at an input of a tool. *)
Lemma slot_value_Some (nd : Node.t) k d v :
  slot_value nd (k, d) = Some v
  <-> is_connection_slot d = true
      /\ exists a, dict_get (Node.inputs nd) k = Some a
                   /\ InputAssignment.value_type a = LITERAL
                   /\ InputAssignment.value a = v.
Proof.
  unfold slot_value. cbn [fst snd].
  destruct (is_connection_slot d); [|split; [done|by intros [? _]]].
  destruct (dict_get (Node.inputs nd) k) as [a|];
    [|split; [done|by intros (_ & a & ? & _)]].
  destruct (InputAssignment.value_type a) eqn:Ht; split;
    try done; try (by intros (_ & a' & [= <-] & Ht' & _); congruence).
  - intros [= <-]. split; [done|]. by exists a.
  - by intros (_ & a' & [= <-] & _ & <-).
Qed.

(** The loop of [_get_connection_name_from_tool]: the keys stay distinct,
    and the entries are the literals supplied at the inputs of the tool. *)
Lemma connection_name_fold (tool : Tool.t) (nd : Node.t) :
  NoDup (map fst (_get_connection_name_from_tool tool nd))
  /\ forall k v,
       In (k, v) (_get_connection_name_from_tool tool nd)
       <-> exists d, In (k, d) (Tool.inputs tool) /\ slot_value nd (k, d) = Some v.
Proof.
  unfold _get_connection_name_from_tool.
  set (step := fun (connection_names : dict pyval) (kv : string * InputDefinition.t) => _).
  assert (forall k d acc,
            step acc (k, d)
            = match slot_value nd (k, d) with
              | Some v => dict_set acc k v
              | None => acc
              end) as Hstep.
  { intros k d acc. unfold step, slot_value. cbn [fst snd]. rewrite all_value_types_slot.
    destruct (is_connection_slot d); [|done]. cbn [negb].
    destruct (dict_get (Node.inputs nd) k) as [a|]; [|done].
    by destruct (InputAssignment.value_type a). }
  assert (forall items acc,
            NoDup (map fst acc) ->
            (forall k v, In (k, v) acc -> exists d, slot_value nd (k, d) = Some v) ->
            NoDup (map fst (fold_left step items acc))
            /\ forall k v,
                 In (k, v) (fold_left step items acc)
                 <-> In (k, v) acc
                     \/ exists d, In (k, d) items /\ slot_value nd (k, d) = Some v) as Hfold.
  { induction items as [|[k d] items IH]; intros acc Hnd Hacc; simpl.
    { split; [done|]. intros k v. split; [by left|]. by intros [?|(? & [] & _)]. }
    rewrite Hstep. destruct (slot_value nd (k, d)) as [v|] eqn:Hv.
    - destruct (IH (dict_set acc k v)) as [Hnd' Hin'].
      + by apply dict_set_keys_NoDup.
      + intros k' v' [[-> ->]|[_ Hin]]%dict_set_In_iff; [by exists d|by apply Hacc|done].
      + split; [done|]. intros k' v'. rewrite Hin', dict_set_In_iff by done. split.
        * intros [[[-> ->]|[_ Hin]]|(d' & Hd' & Hv')].
          -- right. exists d. split; [by left|done].
          -- by left.
          -- right. exists d'. split; [by right|done].
        * intros [Hin|(d' & [[= <- <-]|Hd'] & Hv')].
          -- destruct (decide (k' = k)) as [->|Hne]; [|left; right; by split].
             left. left. split; [done|].
             destruct (Hacc k v' Hin) as [d' Hd']. apply slot_value_Some in Hd', Hv.
             destruct Hd' as (_ & a & Ha & _ & <-), Hv as (_ & a' & Ha' & _ & <-).
             congruence.
          -- left. left. split; [done|congruence].
          -- right. by exists d'.
    - destruct (IH acc Hnd Hacc) as [Hnd' Hin']. split; [done|].
      intros k' v'. rewrite Hin'. split.
      + intros [Hin|(d' & Hd' & Hv')]; [by left|]. right. exists d'. split; [by right|done].
      + intros [Hin|(d' & [[= <- <-]|Hd'] & Hv')]; [by left|congruence|].
        right. by exists d'. }
  destruct (Hfold (Tool.inputs tool) []) as [Hnd Hin]; [apply NoDup_nil; done|done|].
  split; [done|]. intros k v. rewrite Hin. split.
  - by intros [[]|Hd].
  - intros Hd. by right.
Qed.

(** X3.  [_get_connection_name_from_tool] gives a dict with one entry for
    each input name that the tool declares with a type tag that is no
    plain value type and that the node binds to a literal, holding that
    literal; inputs bound to references, inputs of plain value types and
    inputs the node does not bind have no entry. *)
Theorem connection_name_from_tool_entries (tool : Tool.t) (nd : Node.t) :
  NoDup (map fst (_get_connection_name_from_tool tool nd))
  /\ forall k v,
       In (k, v) (_get_connection_name_from_tool tool nd)
       <-> (exists d, In (k, d) (Tool.inputs tool) /\ is_connection_slot d = true)
           /\ exists a, dict_get (Node.inputs nd) k = Some a
                        /\ InputAssignment.value_type a = LITERAL
                        /\ InputAssignment.value a = v.
Proof.
  destruct (connection_name_fold tool nd) as [Hnd Hin].
  split; [done|]. intros k v. rewrite Hin. split.
  - intros (d & Hd & Hv). apply slot_value_Some in Hv as [Hs Ha].
    split; [by exists d|done].
  - intros [(d & Hd & Hs) Ha]. exists d. split; [done|]. by apply slot_value_Some.
Qed.

(** X4.  [get_connection_input_names_for_node] gives no name, and does not
    raise, for a name no node has; for a node it resolves the default
    variant first and then gives, each once, the input names the tool of
    the node declares with a type tag that is no plain value type and the
    node binds to a literal; a Prompt or LLM node and a node without a
    tool give no name. *)
Theorem get_connection_input_names_for_node_spec (self : Flow.t) (node_name : string)
    (h : store) :
  (first_named self h node_name = None ->
   get_connection_input_names_for_node self node_name h = (Ok [], h))
  /\ (forall n r h1 ld,
        first_named self h node_name = Some n ->
        default_variant_or_self (Flow.node_variants self) n h = (Ok r, h1) ->
        Flow._tool_loader self = Some ld ->
        exists names,
          get_connection_input_names_for_node self node_name h = (Ok names, h1)
          /\ NoDup names
          /\ forall k,
               In k names
               <-> Node.type (h1 r) <> Some PROMPT /\ Node.type (h1 r) <> Some LLM
                   /\ exists tool,
                        declared_tool self ld (h1 r) = Some tool
                        /\ (exists d, In (k, d) (Tool.inputs tool)
                                      /\ is_connection_slot d = true)
                        /\ exists a, dict_get (Node.inputs (h1 r)) k = Some a
                                     /\ InputAssignment.value_type a = LITERAL).
Proof.
  unfold get_connection_input_names_for_node, first_named. split.
  { intros Hn. unfold bind at 1. unfold get_node. cbn beta iota. by rewrite Hn. }
  intros n r h1 ld Hn Hres Hld. unfold bind at 1. unfold get_node. cbn beta iota.
  rewrite Hn. unfold bind at 1.
  assert ((do! nd := load n
           in if truthy (Node.use_variants nd)
              then do! v := _apply_default_node_variant n (Flow.node_variants self)
                   in ret (Some v)
              else ret (Some n)) h = (Ok (Some r), h1)) as ->.
  { revert Hres. unfold default_variant_or_self, bind, load, ret. cbn beta iota.
    destruct (truthy (Node.use_variants (h n))); [|by intros [= <- <-]].
    destruct (_apply_default_node_variant n (Flow.node_variants self) h) as [[v|e] h'];
      [|done]. by intros [= <- <-]. }
  unfold bind at 1, load. cbn beta iota. rewrite type_is_prompt_or_llm.
  destruct (Node.type (h1 r)) as [[| |tag]|] eqn:Hty.
  1,2: exists []; split; [done|]; split; [apply NoDup_nil; done|];
       intros k; split; [done|]; by intros (? & ? & _).
  all: unfold bind at 1, lift; rewrite (tool_of_node_loader self ld) by done.
  all: destruct (declared_tool self ld (h1 r)) as [tool|] eqn:Htool; cbn beta iota.
  2,4: exists []; split; [done|]; split; [apply NoDup_nil; done|];
       intros k; split; [done|]; by intros (_ & _ & ? & ? & _).
  all: destruct (connection_name_fold tool (h1 r)) as [Hnd Hin].
  all: eexists; split; [done|]; split; [done|]; intros k; rewrite in_map_iff; split.
  1,3: intros ([k' v] & <- & (d & Hd & Hv)%Hin);
       apply slot_value_Some in Hv as (Hs & a & Ha & Hl & _);
       split; [done|]; split; [done|];
       exists tool; split; [done|]; split; [by exists d|]; by exists a.
  all: intros (_ & _ & tool' & [= <-] & (d & Hd & Hs) & a & Ha & Hl);
       exists (k, InputAssignment.value a); split; [done|]; apply Hin;
       exists d; split; [done|]; apply slot_value_Some; split; [done|]; by exists a.
Qed.
End ConnectionInputs.

(** ** Aggregation queries *)

Lemma find_first_named (f : loc -> pyval) (nodes : list loc) n s :
  NoDup (map f nodes) -> In n nodes -> f n = PStr s ->
  List.find (fun m => eq_str (f m) s) nodes = Some n.
Proof.
  induction nodes as [|m nodes IH]; simpl; [done|].
  intros [Hm Hnd]%NoDup_cons [->|Hin] Hs.
  - rewrite Hs. simpl. by rewrite String.eqb_refl.
  - destruct (eq_str (f m) s) eqn:E; [|by apply IH].
    exfalso. apply Hm. unfold eq_str in E. destruct (f m) as [| | |s'| | | |] eqn:Hfm; try done.
    apply String.eqb_eq in E as ->. rewrite <- Hs.
    apply list_elem_of_In, in_map. done.
Qed.

(** X5.  A name is never both a reduce node and a normal node, and is
    neither when no node has it; a node that is found is one or the other.
    A flow with a reduce node has an aggregation node; and when the nodes
    have distinct strings as names it has an aggregation node only if some
    name is a reduce node. *)
Theorem aggregation_queries (self : Flow.t) (h : store) :
  (forall name,
     truthy (is_reduce_node self h name) && is_normal_node self h name = false
     /\ (first_named self h name = None ->
         is_reduce_node self h name = PBool false /\ is_normal_node self h name = false)
     /\ (first_named self h name <> None ->
         is_normal_node self h name = negb (truthy (is_reduce_node self h name)))
     /\ (truthy (is_reduce_node self h name) = true -> has_aggregation_node self h = true))
  /\ ((forall n, In n (Flow.nodes self) -> exists s, Node.name (h n) = PStr s) ->
      NoDup (map (fun n => Node.name (h n)) (Flow.nodes self)) ->
      has_aggregation_node self h = true ->
      exists name, truthy (is_reduce_node self h name) = true).
Proof.
  split.
  - intros name. unfold is_reduce_node, is_normal_node, has_aggregation_node.
    destruct (first_named self h name) as [n|] eqn:Hn.
    + split; [by destruct (truthy _)|]. split; [done|]. split; [done|].
      intros Hagg. apply existsb_exists. exists n. split; [|done].
      by apply find_some in Hn as [Hin _].
    + by repeat split.
  - intros Hstr Hnd [n [Hin Hagg]]%existsb_exists.
    destruct (Hstr n Hin) as [s Hs]. exists s.
    unfold is_reduce_node, first_named.
    by rewrite (find_first_named (fun n => Node.name (h n)) _ n s Hnd Hin Hs).
Qed.

(** ** What overrides keep, and how they fail *)

Lemma same_but_connection_inputs_refl nodes h : same_but_connection_inputs nodes h h.
Proof.
  intros l. split; [|done].
  exists (Node.connection (h l)), (Node.inputs (h l)). by destruct (h l).
Qed.

Lemma same_but_connection_inputs_trans nodes h1 h2 h3 :
  same_but_connection_inputs nodes h1 h2 -> same_but_connection_inputs nodes h2 h3 ->
  same_but_connection_inputs nodes h1 h3.
Proof.
  intros H12 H23 l. destruct (H12 l) as [(c & i & E12) N12], (H23 l) as [(c' & i' & E23) N23].
  split.
  - exists c', i'. rewrite E23, E12. by destruct (h1 l).
  - intros Hl. by rewrite N23, N12.
Qed.

Lemma apply_node_override_cases self key value h :
  (exists e, apply_node_override self key value h = (Raise e, h))
  \/ exists l f,
       In l (Flow.nodes self)
       /\ apply_node_override self key value h = (Ok tt, alter f l h)
       /\ exists c i, f (h l) = Node.set_connection c (Node.set_inputs i (h l)).
Proof.
  remember (apply_node_override self key value h) as R eqn:HR. revert HR.
  unfold apply_node_override, bind, lift, get_node, load, modify, raise.
  destruct (unpack2 _) as [[node_name input_name]|e]; [|intros ->; left; by eexists].
  destruct (List.find _ (Flow.nodes self)) as [l|] eqn:Hl; [|intros ->; left; by eexists].
  apply find_some in Hl as [Hin _].
  destruct (truthy (Node.connection (h l)) && String.eqb input_name "connection");
    intros ->; right.
  - exists l, (Node.set_connection value). split; [done|]. split; [done|].
    exists value, (Node.inputs (h l)). by destruct (h l).
  - eexists l, _. split; [done|]. split; [done|]. cbn beta.
    exists (Node.connection (h l)),
      (dict_set (Node.inputs (h l)) input_name (InputAssignment_new value LITERAL "" "")).
    by destruct (h l).
Qed.

Lemma apply_node_override_frame self key value h :
  same_but_connection_inputs (Flow.nodes self) h (apply_node_override self key value h).2.
Proof.
  destruct (apply_node_override_cases self key value h)
    as [[e ->]|(l & f & Hin & -> & (c & i & Hf))]; simpl.
  - apply same_but_connection_inputs_refl.
  - intros l'. destruct (decide (l' = l)) as [->|Hne].
    + rewrite fn_lookup_alter. split; [by exists c, i|]. done.
    + rewrite fn_lookup_alter_ne by done. split; [|done].
      exists (Node.connection (h l')), (Node.inputs (h l')). by destruct (h l').
Qed.

Lemma for_each_frame self (m : dict pyval) h :
  same_but_connection_inputs (Flow.nodes self) h
    (for_each (fun kv => apply_node_override self kv.1 kv.2) m h).2.
Proof.
  revert h. induction m as [|[key value] m IH]; intros h.
  - apply same_but_connection_inputs_refl.
  - cbn [for_each]. unfold bind. cbn [fst snd].
    pose proof (apply_node_override_frame self key value h) as Hstep.
    destruct (apply_node_override self key value h) as [[[]|e] h1]; [|done].
    eapply same_but_connection_inputs_trans; [exact Hstep|apply IH].
Qed.

Lemma find_ext_in {A} (p q : A -> bool) (l : list A) :
  (forall x, p x = q x) -> List.find p l = List.find q l.
Proof. intros E. induction l as [|x l IH]; simpl; [done|]. by rewrite E, IH. Qed.

Lemma existsb_ext_all {A} (p q : A -> bool) (l : list A) :
  (forall x, p x = q x) -> existsb p l = existsb q l.
Proof. intros E. induction l as [|x l IH]; simpl; [done|]. by rewrite E, IH. Qed.

(** X6.  Whatever the overrides are, and whether or not they are applied
    to the end, [_apply_node_overrides] changes nothing of a node but its
    connection and its inputs, and nothing of a node that is not of the
    flow: so a name finds the same node before and after, the reduce
    nodes, the normal nodes and the llm nodes are the same, and the flow
    has an aggregation node after if and only if it had one before. *)
Theorem apply_node_overrides_frame (self : Flow.t) (node_overrides : dict pyval) (h : store) :
  (forall l, exists c i,
      (_apply_node_overrides self node_overrides h).2 l
      = Node.set_connection c (Node.set_inputs i (h l)))
  /\ (forall l, ~ In l (Flow.nodes self) ->
        (_apply_node_overrides self node_overrides h).2 l = h l)
  /\ (forall name,
        first_named self (_apply_node_overrides self node_overrides h).2 name
        = first_named self h name
        /\ is_reduce_node self (_apply_node_overrides self node_overrides h).2 name
           = is_reduce_node self h name
        /\ is_normal_node self (_apply_node_overrides self node_overrides h).2 name
           = is_normal_node self h name)
  /\ (forall l, is_llm_node ((_apply_node_overrides self node_overrides h).2 l)
                = is_llm_node (h l))
  /\ has_aggregation_node self (_apply_node_overrides self node_overrides h).2
     = has_aggregation_node self h.
Proof.
  assert (same_but_connection_inputs (Flow.nodes self) h
            (_apply_node_overrides self node_overrides h).2) as Hrel.
  { unfold _apply_node_overrides.
    destruct (negb (truthy (PDict node_overrides))).
    - apply same_but_connection_inputs_refl.
    - pose proof (for_each_frame self node_overrides h) as Hfe. unfold bind.
      destruct (for_each _ node_overrides h) as [[[]|e] h1]; exact Hfe. }
  set (h' := (_apply_node_overrides self node_overrides h).2) in *.
  assert (forall l, Node.name (h' l) = Node.name (h l)) as Hname.
  { intros l. destruct (Hrel l) as [(c & i & ->) _]. done. }
  assert (forall l, Node.aggregation (h' l) = Node.aggregation (h l)) as Hagg.
  { intros l. destruct (Hrel l) as [(c & i & ->) _]. done. }
  assert (forall name, first_named self h' name = first_named self h name) as Hfirst.
  { intros name. unfold first_named. apply find_ext_in. intros l. by rewrite Hname. }
  split; [intros l; apply (Hrel l)|]. split; [intros l; apply (Hrel l)|].
  split; [|split].
  - intros name. split; [done|]. unfold is_reduce_node, is_normal_node.
    rewrite Hfirst. destruct (first_named self h name) as [n|]; [|done].
    by rewrite Hagg.
  - intros l. unfold is_llm_node. destruct (Hrel l) as [(c & i & ->) _]. done.
  - unfold has_aggregation_node. apply existsb_ext_all. intros l. by rewrite Hagg.
Qed.

Lemma split_pieces_count sep n s :
  str_count sep s <= n -> length (split_pieces sep n s).2 = str_count sep s.
Proof.
  revert n. induction s as [|c s IH]; intros n; simpl; [done|].
  destruct (Ascii.eqb c sep).
  - destruct n as [|n]; [lia|]. intros Hn.
    specialize (IH n ltac:(lia)). destruct (split_pieces sep n s). simpl in *. lia.
  - intros Hn. specialize (IH n Hn). destruct (split_pieces sep n s). simpl in *. lia.
Qed.

Lemma str_count_length sep s : str_count sep s <= String.length s.
Proof. induction s as [|c s IH]; simpl; [done|]. destruct (Ascii.eqb c sep); lia. Qed.

Lemma str_split_count sep s : length (str_split sep None s) = S (str_count sep s).
Proof.
  unfold str_split.
  pose proof (split_pieces_count sep (String.length s) s (str_count_length sep s)) as Hc.
  destruct (split_pieces sep (String.length s) s). simpl in *. lia.
Qed.

Lemma unpack2_length {A} (l : list A) :
  length l <> 2 -> unpack2 l = Raise (ValueError_unpack 2 (length l)).
Proof. destruct l as [|a [|b [|c l]]]; simpl; try done. Qed.

Lemma for_each_app {A} (f : A -> M unit) (pre post : list A) h h1 :
  for_each f pre h = (Ok tt, h1) -> for_each f (pre ++ post)%list h = for_each f post h1.
Proof.
  revert h. induction pre as [|x pre IH]; intros h.
  - by intros [= <-].
  - cbn [for_each app]. unfold bind. destruct (f x h) as [[[]|e] h2]; [|done]. apply IH.
Qed.

Lemma _apply_node_overrides_app self pre post h r h1 :
  _apply_node_overrides self pre h = (Ok r, h1) -> post <> [] ->
  _apply_node_overrides self (pre ++ post)%list h
  = _apply_node_overrides self post h1.
Proof.
  intros Hpre Hpost.
  assert (for_each (fun kv => apply_node_override self kv.1 kv.2) pre h = (Ok tt, h1)) as Hfe.
  { revert Hpre. unfold _apply_node_overrides. destruct (negb (truthy (PDict pre))) eqn:E.
    - destruct pre; [|done]. by intros [= _ <-].
    - unfold bind, ret. destruct (for_each _ pre h) as [[[]|e] h2]; [|done]. by intros [= _ <-]. }
  unfold _apply_node_overrides.
  replace (negb (truthy (PDict (pre ++ post)%list))) with false
    by (destruct pre; [by destruct post|done]).
  replace (negb (truthy (PDict post))) with false by (by destruct post).
  unfold bind. by rewrite (for_each_app _ pre post h h1 Hfe).
Qed.

(** X7.  How an override fails.  A key that is not made of exactly two
    pieces around one dot raises the error of the unpacking, with the
    number of its pieces, before any node is looked up; an override that
    raises changes no node; and, as nothing is rolled back, when overrides
    raise at an entry, the nodes are left as the entries before it made
    them. *)
Theorem apply_node_overrides_failure (self : Flow.t) :
  (forall key value h,
     str_count "." key <> 1 ->
     apply_node_override self key value h
     = (Raise (ValueError_unpack 2 (S (str_count "." key))), h))
  /\ (forall key value h e h1,
        apply_node_override self key value h = (Raise e, h1) -> h1 = h)
  /\ (forall pre key value post h r h1 e h2,
        _apply_node_overrides self pre h = (Ok r, h1) ->
        apply_node_override self key value h1 = (Raise e, h2) ->
        _apply_node_overrides self (pre ++ (key, value) :: post)%list h = (Raise e, h1)).
Proof.
  split; [|split].
  - intros key value h Hc. unfold apply_node_override. unfold bind at 1. unfold lift.
    rewrite unpack2_length by (rewrite str_split_count; lia).
    by rewrite str_split_count.
  - intros key value h e h1 Hr.
    destruct (apply_node_override_cases self key value h) as [[e' E]|(l & f & _ & E & _)];
      rewrite E in Hr; by inversion Hr.
  - intros pre key value post h r h1 e h2 Hpre Hr.
    rewrite (_apply_node_overrides_app self pre _ h r h1 Hpre) by done.
    assert (h2 = h1) as ->.
    { destruct (apply_node_override_cases self key value h1) as [[e' E]|(l & f & _ & E & _)];
        rewrite E in Hr; by inversion Hr. }
    unfold _apply_node_overrides. cbn [truthy negb for_each]. unfold bind.
    cbn beta iota delta [fst snd]. by rewrite Hr.
Qed.

(** ** Replacing a node by a variant *)

Lemma py_eq_str a s : py_eq a (PStr s) = eq_str a s.
Proof. by destruct a. Qed.

Lemma replace_first_named_length h nodes v :
  length (replace_first_named h nodes v) = length nodes.
Proof.
  induction nodes as [|n nodes IH]; simpl; [done|].
  destruct (py_eq _ _); simpl; by rewrite ?IH.
Qed.

Lemma replace_first_named_split h pre n post v :
  (forall m, In m pre -> py_eq (Node.name (h m)) (Node.name (h v)) = false) ->
  py_eq (Node.name (h n)) (Node.name (h v)) = true ->
  replace_first_named h (pre ++ n :: post)%list v = (pre ++ v :: post)%list.
Proof.
  intros Hpre Hn. induction pre as [|m pre IH]; simpl.
  - by rewrite Hn.
  - rewrite (Hpre m) by (by left). f_equal. apply IH. intros m' Hm'. apply Hpre. by right.
Qed.

Lemma replace_first_named_none h nodes v :
  (forall m, In m nodes -> py_eq (Node.name (h m)) (Node.name (h v)) = false) ->
  replace_first_named h nodes v = nodes.
Proof.
  induction nodes as [|n nodes IH]; simpl; [done|]. intros Hn.
  rewrite (Hn n) by (by left). f_equal. apply IH. intros m Hm. apply Hn. by right.
Qed.

(** X8.  [_replace_with_variant] appends the tools of the variant whether
    or not a node is replaced, and keeps the number of the nodes; it puts
    the variant in the place of the first node that has its name, and of
    that one only, and changes no place when no node has the name; after
    it, the name of the variant, when a node had it, finds the variant. *)
Theorem replace_with_variant_spec (self : Flow.t) (h : store) (variant_node : loc)
    (variant_tools : list Tool.t) :
  Flow.tools (_replace_with_variant self h variant_node variant_tools)
  = (Flow.tools self ++ variant_tools)%list
  /\ length (Flow.nodes (_replace_with_variant self h variant_node variant_tools))
     = length (Flow.nodes self)
  /\ ((forall m, In m (Flow.nodes self) ->
         py_eq (Node.name (h m)) (Node.name (h variant_node)) = false) ->
      Flow.nodes (_replace_with_variant self h variant_node variant_tools) = Flow.nodes self)
  /\ (forall pre n post,
        Flow.nodes self = (pre ++ n :: post)%list ->
        (forall m, In m pre -> py_eq (Node.name (h m)) (Node.name (h variant_node)) = false) ->
        py_eq (Node.name (h n)) (Node.name (h variant_node)) = true ->
        Flow.nodes (_replace_with_variant self h variant_node variant_tools)
        = (pre ++ variant_node :: post)%list)
  /\ (forall name,
        Node.name (h variant_node) = PStr name ->
        first_named self h name <> None ->
        first_named (_replace_with_variant self h variant_node variant_tools) h name
        = Some variant_node).
Proof.
  split; [done|]. split; [apply replace_first_named_length|].
  split; [apply replace_first_named_none|]. split.
  - intros pre n post Hnodes Hpre Hn. unfold _replace_with_variant.
    cbn [Flow.nodes Flow_set_tools Flow_set_nodes]. rewrite Hnodes.
    by apply replace_first_named_split.
  - intros name Hname. unfold first_named, _replace_with_variant.
    cbn [Flow.nodes Flow_set_tools Flow_set_nodes].
    induction (Flow.nodes self) as [|n nodes IH]; simpl; [done|].
    rewrite Hname, py_eq_str.
    destruct (eq_str (Node.name (h n)) name) eqn:E; simpl.
    + intros _. rewrite Hname. simpl. by rewrite String.eqb_refl.
    + rewrite E. apply IH.
Qed.

(** ** A serialized node with a condition *)

Lemma dict_get_sparse fields k :
  dict_get (sparse fields) k
  = option_map snd (List.find (fun kv => String.eqb kv.1 k && truthy kv.2) fields).
Proof.
  unfold sparse. induction fields as [|[k' v] fields IH]; simpl; [done|].
  destruct (truthy v); simpl.
  - rewrite andb_true_r. by destruct (String.eqb k' k).
  - by rewrite andb_false_r.
Qed.

Lemma asdict_InputAssignment_truthy a : truthy (PDict (asdict_InputAssignment a)) = true.
Proof.
  unfold asdict_InputAssignment, sparse. simpl. by destruct (truthy (InputAssignment.value a)).
Qed.

Lemma asdict_SkipCondition_truthy c : truthy (PDict (asdict_SkipCondition c)) = true.
Proof.
  unfold asdict_SkipCondition, sparse. cbn [List.filter snd].
  by rewrite asdict_InputAssignment_truthy.
Qed.

Lemma asdict_ActivateCondition_truthy c : truthy (PDict (asdict_ActivateCondition c)) = true.
Proof.
  unfold asdict_ActivateCondition, sparse. cbn [List.filter snd].
  by rewrite asdict_InputAssignment_truthy.
Qed.

Lemma SkipCondition_deserialize_asdict c :
  SkipCondition_deserialize (PDict (asdict_SkipCondition c)) = Raise (KeyError "when").
Proof.
  unfold SkipCondition_deserialize, subscript, asdict_SkipCondition.
  by rewrite dict_get_sparse.
Qed.

Lemma ActivateCondition_deserialize_asdict c :
  ActivateCondition_deserialize (PDict (asdict_ActivateCondition c)) = Raise (KeyError "when").
Proof.
  unfold ActivateCondition_deserialize, subscript, asdict_ActivateCondition.
  by rewrite dict_get_sparse.
Qed.

Lemma py_or_dict d : py_or (PDict d) (PDict []) = PDict d.
Proof. by destruct d. Qed.

Section SerializedNode.
Context `{Imports}.

Lemma Node_serialize_get n k :
  k <> "inputs" -> k <> "aggregation" -> k <> "reduce" ->
  dict_get (Node_serialize n) k = dict_get (asdict_Node n) k.
Proof.
  intros H1 H2 H3. unfold Node_serialize.
  destruct (truthy (Node.aggregation n)); by rewrite !dict_get_set_ne by done.
Qed.

Lemma Node_serialize_inputs n :
  dict_get (Node_serialize n) "inputs"
  = Some (PDict (dict_of_items
                   (map (fun kv => (kv.1, InputAssignment_serialize kv.2)) (Node.inputs n)))).
Proof.
  unfold Node_serialize. destruct (truthy (Node.aggregation n)).
  - rewrite !dict_get_set_ne by done. apply dict_get_set_eq.
  - apply dict_get_set_eq.
Qed.

Lemma Node_serialize_source n v :
  dict_get (Node_serialize n) "source" = Some v -> exists d, v = PDict d.
Proof.
  rewrite Node_serialize_get by done. unfold asdict_Node. rewrite dict_get_sparse.
  cbn -[truthy asdict_ToolSource].
  destruct (Node.source n) as [s|]; cbn -[truthy asdict_ToolSource]; [|done].
  destruct (truthy (PDict (asdict_ToolSource s))); cbn; [|done]. intros [= <-]. by eexists.
Qed.

Lemma Node_serialize_type n v :
  dict_get (Node_serialize n) "type" = Some v ->
  exists t, Node.type n = Some t /\ v = PToolType t.
Proof.
  rewrite Node_serialize_get by done. unfold asdict_Node. rewrite dict_get_sparse.
  cbn -[truthy].
  destruct (Node.type n) as [t|]; cbn; [|done]. intros [= <-]. by exists t.
Qed.

Lemma Node_serialize_skip n :
  dict_get (Node_serialize n) "skip"
  = option_map (fun c => PDict (asdict_SkipCondition c)) (Node.skip n).
Proof.
  rewrite Node_serialize_get by done. unfold asdict_Node. rewrite dict_get_sparse.
  cbn -[truthy asdict_SkipCondition].
  destruct (Node.skip n) as [c|]; cbn -[truthy asdict_SkipCondition]; [|done].
  by rewrite asdict_SkipCondition_truthy.
Qed.

Lemma Node_serialize_activate n :
  dict_get (Node_serialize n) "activate"
  = option_map (fun c => PDict (asdict_ActivateCondition c)) (Node.activate n).
Proof.
  rewrite Node_serialize_get by done. unfold asdict_Node. rewrite dict_get_sparse.
  cbn -[truthy asdict_ActivateCondition].
  destruct (Node.activate n) as [c|]; cbn -[truthy asdict_ActivateCondition]; [|done].
  by rewrite asdict_ActivateCondition_truthy.
Qed.

(** X9.  [Node.deserialize] does not read back what [Node.serialize]
    writes for a node with a condition: the serialized condition has the
    keys of the fields of the dataclass, not [when] and [is], so a node
    with a [skip] or an [activate] condition is serialized to a dict on
    which deserialization raises the key error for [when], and never the
    conflict of the conditions, even when the node has both.  (The type
    of the node, when it has one, is a member that [ToolType] accepts.) *)
Theorem Node_deserialize_serialized_condition (n : Node.t) :
  (forall t, Node.type n = Some t -> ToolType_of_value (PToolType t) <> None) ->
  Node.skip n <> None \/ Node.activate n <> None ->
  Node_deserialize (Node_serialize n) = Raise (KeyError "when").
Proof.
  intros Hty Hcond. unfold Node_deserialize.
  unfold dict_get_default at 1. rewrite Node_serialize_inputs, py_or_dict.
  cbn [items_of result_bind].
  destruct (result_map_total
    (fun kv : string * pyval => let* a := InputAssignment_deserialize kv.2 in Ok (kv.1, a))
    (dict_of_items (map (fun kv => (kv.1, InputAssignment_serialize kv.2)) (Node.inputs n))))
    as [inputs ->].
  { intros [k v]. simpl. destruct (InputAssignment_deserialize_total v) as [a ->].
    by eexists. }
  cbn [result_bind].
  match goal with |- context [Node.mk ?a ?b ?c ?d ?e ?f ?g ?h ?i ?j ?k None None None None] =>
    set (node := Node.mk a b c d e f g h i j k None None None None) end.
  destruct (optional_field_ok (Node_serialize n) "source" ToolSource_deserialize
              Node.set_source node) as [n1 ->].
  { intros v [d ->]%Node_serialize_source. by apply ToolSource_deserialize_total. }
  cbn [result_bind].
  destruct (optional_field_ok (Node_serialize n) "type" ToolType_new Node.set_type n1)
    as [n2 ->].
  { intros v (t & Ht & ->)%Node_serialize_type. unfold ToolType_new.
    specialize (Hty t Ht). destruct (ToolType_of_value (PToolType t)); [by eexists|done]. }
  cbn [result_bind].
  unfold dict_has, subscript. rewrite Node_serialize_skip, Node_serialize_activate.
  destruct (Node.skip n) as [c|]; cbn [option_map result_bind].
  - by rewrite SkipCondition_deserialize_asdict.
  - destruct (Node.activate n) as [c|]; cbn [option_map result_bind].
    + by rewrite ActivateCondition_deserialize_asdict.
    + by destruct Hcond.
Qed.
End SerializedNode.

(** ** The conditions of a node *)

Lemma has_keys_cons k keys d :
  has_keys (k :: keys) (PDict d) = dict_has d k && has_keys keys (PDict d).
Proof. done. Qed.

(** X10.  What the deserializers of the two conditions accept.  An
    activate condition is read from a dict with the keys [when] and [is],
    a skip condition from a dict that has the key [return] too, and from
    nothing else; the condition itself never makes them fail, whatever
    [when] holds.  When the skip condition is read, the activate condition
    is read from the same dict with the same condition and value; and
    when the activate condition is not, both raise the same error: the
    type error on what is not a dict, else the key error of the first of
    [when] and [is] that is missing. *)
Theorem condition_deserialize_accepts (data : pyval) :
  ((exists c, ActivateCondition_deserialize data = Ok c)
     <-> has_keys ["when"; "is"] data = true)
  /\ ((exists c, SkipCondition_deserialize data = Ok c)
        <-> has_keys ["when"; "is"; "return"] data = true)
  /\ (forall c, SkipCondition_deserialize data = Ok c ->
        ActivateCondition_deserialize data
        = Ok (ActivateCondition.mk (SkipCondition.condition c)
                (SkipCondition.condition_value c)))
  /\ (forall e, ActivateCondition_deserialize data = Raise e ->
        SkipCondition_deserialize data = Raise e
        /\ match data with
           | PDict d =>
               e = KeyError (if dict_has d "when" then "is" else "when")
           | _ => e = TypeError
           end)
  /\ (has_keys ["when"; "is"] data = true ->
      has_keys ["return"] data = false ->
      SkipCondition_deserialize data = Raise (KeyError "return")).
Proof.
  unfold ActivateCondition_deserialize, SkipCondition_deserialize.
  destruct data as [| | | | |d| |];
    try (cbn; split; [split; [by intros [c Hc]|done]|];
         split; [split; [by intros [c Hc]|done]|];
         split; [done|]; split; [by intros e [= <-]|done]).
  rewrite !has_keys_cons. unfold has_keys, forallb, subscript, dict_has.
  destruct (dict_get d "when") as [w|]; cbn [result_bind andb].
  2:{ split; [split; [by intros [c Hc]|done]|].
      split; [split; [by intros [c Hc]|done]|].
      split; [done|]. split; [by intros e [= <-]|done]. }
  destruct (InputAssignment_deserialize_total w) as [a ->]. cbn [result_bind].
  destruct (dict_get d "is") as [i|]; cbn [result_bind andb].
  2:{ split; [split; [by intros [c Hc]|done]|].
      split; [split; [by intros [c Hc]|done]|].
      split; [done|]. split; [by intros e [= <-]|done]. }
  destruct (dict_get d "return") as [r|]; cbn [result_bind andb].
  - destruct (InputAssignment_deserialize_total r) as [b ->]. cbn [result_bind].
    split; [split; [done|by eexists]|]. split; [split; [done|by eexists]|].
    split; [by intros c [= <-]|]. split; [done|]. done.
  - split; [split; [done|by eexists]|]. split; [split; [by intros [c Hc]|done]|].
    split; [done|]. split; [done|]. done.
Qed.

(** ** The text of an assignment, read and written back *)

Lemma not_flow_input x r :
  str_contains "." x = false -> x <> "flow" -> x <> "inputs" ->
  FlowInputAssignment_is_flow_input (x +:+ "." +:+ r) = false.
Proof.
  intros Hx Hf Hi. rewrite flow_input_prefixes. unfold startswith.
  apply orb_false_iff. split.
  - destruct (String.prefix "flow." (x +:+ "." +:+ r)) eqn:E; [|done].
    exfalso. apply Hf. by apply (prefix_upto_sep "." "flow" x r).
  - destruct (String.prefix "inputs." (x +:+ "." +:+ r)) eqn:E; [|done].
    exfalso. apply Hi. by apply (prefix_upto_sep "." "inputs" x r).
Qed.

Lemma not_flow_input_no_dot x :
  str_contains "." x = false -> FlowInputAssignment_is_flow_input x = false.
Proof.
  intros Hx. rewrite flow_input_prefixes. unfold startswith. apply orb_false_iff. split.
  - destruct (String.prefix "flow." x) eqn:E; [|done]. apply prefix_split in E.
    rewrite E in Hx. change ("flow." +:+ ?r) with ("flow" +:+ String "." r) in Hx.
    by rewrite str_contains_app, orb_comm in Hx.
  - destruct (String.prefix "inputs." x) eqn:E; [|done]. apply prefix_split in E.
    rewrite E in Hx. by rewrite (str_contains_app "." "inputs." _) in Hx.
Qed.

Section TextTheorems.
Context `{Imports}.

(** X11.  The text that [serialize] writes for the assignment that
    [deserialize] reads from a text.  A text that is no reference comes
    back as it is, and so does [${flow.x}].  For a node name x without
    a dot, other than [flow] and [inputs], the reference [${x}] comes back
    with the default section, as [${x.output}]; [${x.y}] and [${x.y.z}],
    with z not empty, come back as they are; and [${x.y.}] loses its last
    dot. *)
Theorem serialize_deserialize_text :
  (forall s,
     is_reference_string s = false -> is_connection_value (PStr s) = false ->
     exists a, InputAssignment_deserialize (PStr s) = Ok a
               /\ InputAssignment_serialize a = PStr s)
  /\ (forall x,
        exists a, InputAssignment_deserialize (PStr ("${flow." +:+ x +:+ "}")) = Ok a
                  /\ InputAssignment_serialize a = PStr ("${flow." +:+ x +:+ "}"))
  /\ (forall x,
        str_contains "." x = false ->
        exists a, InputAssignment_deserialize (PStr ("${" +:+ x +:+ "}")) = Ok a
                  /\ InputAssignment_serialize a = PStr ("${" +:+ x +:+ ".output}"))
  /\ (forall x y,
        str_contains "." x = false -> x <> "flow" -> x <> "inputs" ->
        str_contains "." y = false ->
        (exists a, InputAssignment_deserialize (PStr ("${" +:+ x +:+ "." +:+ y +:+ "}")) = Ok a
                   /\ InputAssignment_serialize a = PStr ("${" +:+ x +:+ "." +:+ y +:+ "}"))
        /\ (forall z,
              z <> "" ->
              exists a,
                InputAssignment_deserialize
                  (PStr ("${" +:+ x +:+ "." +:+ y +:+ "." +:+ z +:+ "}")) = Ok a
                /\ InputAssignment_serialize a
                   = PStr ("${" +:+ x +:+ "." +:+ y +:+ "." +:+ z +:+ "}"))
        /\ exists a,
             InputAssignment_deserialize (PStr ("${" +:+ x +:+ "." +:+ y +:+ "." +:+ "}")) = Ok a
             /\ InputAssignment_serialize a = PStr ("${" +:+ x +:+ "." +:+ y +:+ "}")).
Proof.
  split; [|split; [|split]].
  - intros s Hs Hc. rewrite deserialize_not_reference by done. eexists. split; [done|].
    unfold InputAssignment_serialize. simpl. by rewrite Hc.
  - intros x. change ("${flow." +:+ x +:+ "}") with ("${" +:+ ("flow." +:+ x) +:+ "}").
    rewrite deserialize_wrapped, deserialize_reference_flow. by eexists.
  - intros x Hx. rewrite deserialize_wrapped. unfold InputAssignment_deserialize_reference.
    rewrite not_flow_input_no_dot, node_reference_no_dot by done. eexists. split; [done|].
    unfold InputAssignment_serialize. simpl. repeat first [rewrite str_app_assoc | progress simpl]; done.
  - intros x y Hx Hf Hi Hy. split; [|split].
    + replace ("${" +:+ x +:+ "." +:+ y +:+ "}") with ("${" +:+ (x +:+ "." +:+ y) +:+ "}")
        by (by rewrite !str_app_assoc).
      rewrite (deserialize_wrapped (x +:+ "." +:+ y)).
      unfold InputAssignment_deserialize_reference.
      rewrite not_flow_input, node_reference_section by done. eexists. split; [done|].
      unfold InputAssignment_serialize. simpl. repeat first [rewrite str_app_assoc | progress simpl]; done.
    + intros z Hz.
      replace ("${" +:+ x +:+ "." +:+ y +:+ "." +:+ z +:+ "}")
        with ("${" +:+ (x +:+ "." +:+ y +:+ "." +:+ z) +:+ "}")
        by (by rewrite !str_app_assoc).
      rewrite (deserialize_wrapped (x +:+ "." +:+ y +:+ "." +:+ z)).
      unfold InputAssignment_deserialize_reference.
      rewrite not_flow_input, node_reference_property by done. eexists. split; [done|].
      unfold InputAssignment_serialize. simpl.
      destruct (String.eqb z "") eqn:E; [by apply String.eqb_eq in E|]. simpl.
      repeat first [rewrite str_app_assoc | progress simpl]; done.
    + replace ("${" +:+ x +:+ "." +:+ y +:+ "." +:+ "}")
        with ("${" +:+ (x +:+ "." +:+ y +:+ "." +:+ "") +:+ "}")
        by (by rewrite !str_app_assoc).
      rewrite (deserialize_wrapped (x +:+ "." +:+ y +:+ "." +:+ "")).
      unfold InputAssignment_deserialize_reference.
      rewrite not_flow_input, node_reference_property by done. eexists. split; [done|].
      unfold InputAssignment_serialize. simpl. repeat first [rewrite str_app_assoc | progress simpl]; done.
Qed.
End TextTheorems.

(** ** Which node refers to which *)

Lemma py_eq_str_refl s : py_eq (PStr s) (PStr s) = true.
Proof. simpl. apply String.eqb_refl. Qed.

Lemma InputValueType_eqb_eq a b : InputValueType_eqb a b = true <-> a = b.
Proof. destruct a, b; simpl; split; congruence. Qed.

Lemma is_node_referenced_by_truthy node other :
  truthy (is_node_referenced_by node other) = true
  <-> exists k a, In (k, a) (Node.inputs other)
        /\ InputAssignment.value_type a = NODE_REFERENCE
        /\ py_eq (InputAssignment.value a) (Node.name node) = true.
Proof.
  unfold is_node_referenced_by. destruct (Node.inputs other) as [|kv inputs] eqn:E.
  { simpl. split; [done|]. by intros (k & a & [] & _). }
  rewrite <- E. clear E. cbn [truthy]. rewrite existsb_exists. unfold dict_values. split.
  - intros (a & Hin & (Ht%InputValueType_eqb_eq & Hv)%andb_true_iff).
    apply in_map_iff in Hin as ([k a'] & <- & Hin). simpl in *. by exists k, a'.
  - intros (k & a & Hin & Ht & Hv). exists a. split.
    + apply in_map_iff. by exists (k, a).
    + rewrite Ht, Hv. done.
Qed.

(** X12.  The reference queries.  A node is referenced by another node
    exactly when an input of that node is a node reference whose value is
    equal to its name; for a node without inputs the answer is the empty
    dict of its inputs, not [False].  A node is referenced by another node
    of the flow as soon as one node of the flow refers to it, and the node
    itself is not left out: a node that refers to itself is referenced.
    Read from the text of a flow file, the reference [${x.y}] in an input
    of a node refers to the node named x, for x without a dot other than
    [flow] and [inputs]. *)
Theorem node_reference_queries (self : Flow.t) (h : store) (node : Node.t) :
  (forall other,
     Node.inputs other = [] -> is_node_referenced_by node other = PDict [])
  /\ (forall other,
        truthy (is_node_referenced_by node other) = true
        <-> exists k a, In (k, a) (Node.inputs other)
              /\ InputAssignment.value_type a = NODE_REFERENCE
              /\ py_eq (InputAssignment.value a) (Node.name node) = true)
  /\ (is_referenced_by_other_node self h node = true
      <-> exists l, In l (Flow.nodes self)
            /\ truthy (is_node_referenced_by node (h l)) = true)
  /\ (forall l,
        In l (Flow.nodes self) -> h l = node ->
        truthy (is_node_referenced_by node node) = true ->
        is_referenced_by_other_node self h node = true)
  /\ (forall x y other k a,
        Node.name node = PStr x ->
        str_contains "." x = false -> x <> "flow" -> x <> "inputs" ->
        str_contains "." y = false ->
        InputAssignment_deserialize (PStr ("${" +:+ (x +:+ "." +:+ y) +:+ "}")) = Ok a ->
        In (k, a) (Node.inputs other) ->
        truthy (is_node_referenced_by node other) = true).
Proof.
  split; [|split; [|split; [|split]]].
  - intros other Ho. unfold is_node_referenced_by. by rewrite Ho.
  - apply is_node_referenced_by_truthy.
  - unfold is_referenced_by_other_node. apply existsb_exists.
  - intros l Hin Hl Href. unfold is_referenced_by_other_node.
    apply existsb_exists. exists l. by rewrite Hl.
  - intros x y other k a Hname Hx Hf Hi Hy Ha Hin.
    rewrite deserialize_wrapped in Ha. unfold InputAssignment_deserialize_reference in Ha.
    rewrite not_flow_input, node_reference_section in Ha by done. injection Ha as <-.
    apply is_node_referenced_by_truthy. exists k. eexists. split; [exact Hin|].
    split; [done|]. rewrite Hname. apply py_eq_str_refl.
Qed.

(** ** A serialized node without a condition *)

Lemma dict_set_fresh {V} (d : dict V) k v :
  ~ In k (map fst d) -> dict_set d k v = (d ++ [(k, v)])%list.
Proof.
  induction d as [|[k0 v0] d IH]; simpl; [done|]. intros Hk.
  destruct (String.eqb k0 k) eqn:E.
  - apply String.eqb_eq in E. tauto.
  - rewrite IH; [done|tauto].
Qed.

Lemma dict_of_items_from {V} (items acc : list (string * V)) :
  NoDup (map fst (acc ++ items)%list) ->
  fold_left (fun d kv => dict_set d kv.1 kv.2) items acc = (acc ++ items)%list.
Proof.
  revert acc. induction items as [|[k v] items IH]; intros acc Hnd; simpl.
  - by rewrite app_nil_r.
  - rewrite dict_set_fresh.
    + rewrite IH; rewrite <- app_assoc; done.
    + rewrite map_app in Hnd. apply NoDup_app in Hnd as (_ & Hd & _).
      intros Hin. apply (Hd k); [by apply list_elem_of_In|]. simpl. left.
Qed.

Lemma dict_of_items_NoDup {V} (items : list (string * V)) :
  NoDup (map fst items) -> dict_of_items items = items.
Proof. intros Hnd. unfold dict_of_items. by rewrite dict_of_items_from. Qed.

Lemma result_map_Forall2 {A B} (f : A -> result B) l l' :
  result_map f l = Ok l' -> Forall2 (fun x y => f x = Ok y) l l'.
Proof.
  revert l'. induction l as [|x l IH]; intros l'; simpl.
  - intros [= <-]. constructor.
  - destruct (f x) as [y|e] eqn:Hx; [|done]. simpl.
    destruct (result_map f l) as [ys|e]; [|done]. simpl. intros [= <-].
    constructor; [done|]. by apply IH.
Qed.

Lemma ToolSource_deserialize_asdict s :
  ToolSource_deserialize (PDict (asdict_ToolSource s))
  = Ok (ToolSource.mk (or_default (ToolSource.type s) (PStr "code"))
          (or_default (ToolSource.tool s) PNone)
          (or_default (ToolSource.path s) PNone)).
Proof.
  unfold ToolSource_deserialize, subscript, dict_has, dict_get_default, asdict_ToolSource.
  rewrite !dict_get_sparse. unfold or_default. cbn -[truthy].
  by destruct (truthy (ToolSource.type s)), (truthy (ToolSource.tool s)),
    (truthy (ToolSource.path s)).
Qed.

Section SerializedPlainNode.
Context `{Imports}.

Lemma Node_serialize_scalar n k v d :
  k <> "inputs" -> k <> "aggregation" -> k <> "reduce" ->
  dict_get (asdict_Node n) k = (if truthy v then Some v else None) ->
  dict_get_default (Node_serialize n) k d = or_default v d.
Proof.
  intros H1 H2 H3 Hk. unfold dict_get_default, or_default.
  rewrite Node_serialize_get, Hk by done. by destruct (truthy v).
Qed.

Lemma asdict_Node_scalars n :
  dict_get (asdict_Node n) "name" = (if truthy (Node.name n) then Some (Node.name n) else None)
  /\ dict_get (asdict_Node n) "tool"
     = (if truthy (Node.tool n) then Some (Node.tool n) else None)
  /\ dict_get (asdict_Node n) "comment"
     = (if truthy (Node.comment n) then Some (Node.comment n) else None)
  /\ dict_get (asdict_Node n) "api" = (if truthy (Node.api n) then Some (Node.api n) else None)
  /\ dict_get (asdict_Node n) "provider"
     = (if truthy (Node.provider n) then Some (Node.provider n) else None)
  /\ dict_get (asdict_Node n) "module"
     = (if truthy (Node.module n) then Some (Node.module n) else None)
  /\ dict_get (asdict_Node n) "connection"
     = (if truthy (Node.connection n) then Some (Node.connection n) else None)
  /\ dict_get (asdict_Node n) "enable_cache"
     = (if truthy (Node.enable_cache n) then Some (Node.enable_cache n) else None)
  /\ dict_get (asdict_Node n) "use_variants"
     = (if truthy (Node.use_variants n) then Some (Node.use_variants n) else None).
Proof.
  unfold asdict_Node. rewrite !dict_get_sparse.
  cbn -[truthy asdict_ToolSource asdict_SkipCondition asdict_ActivateCondition
        asdict_InputAssignment].
  repeat split;
    match goal with |- context [if truthy ?v then Some (_, _) else _] =>
      by destruct (truthy v) end.
Qed.

Lemma Node_serialize_aggregation n :
  py_or (dict_get_default (Node_serialize n) "aggregation" (PBool false))
        (dict_get_default (Node_serialize n) "reduce" (PBool false))
  = PBool (truthy (Node.aggregation n)).
Proof.
  unfold dict_get_default, Node_serialize.
  destruct (truthy (Node.aggregation n)) eqn:E.
  - rewrite dict_get_set_ne, dict_get_set_eq by done. done.
  - rewrite !dict_get_set_ne by done. unfold asdict_Node. rewrite !dict_get_sparse.
    cbn -[truthy asdict_ToolSource asdict_SkipCondition asdict_ActivateCondition
          asdict_InputAssignment].
    rewrite E.
    destruct (truthy (Node.name n)), (truthy (Node.tool n)); done.
Qed.

Lemma Node_serialize_source_get n :
  dict_get (Node_serialize n) "source"
  = match Node.source n with
    | Some s =>
        if truthy (PDict (asdict_ToolSource s)) then Some (PDict (asdict_ToolSource s))
        else None
    | None => None
    end.
Proof.
  rewrite Node_serialize_get by done. unfold asdict_Node. rewrite dict_get_sparse.
  cbn -[truthy asdict_ToolSource].
  destruct (Node.source n) as [s|]; cbn -[truthy asdict_ToolSource]; [|done].
  by destruct (truthy (PDict (asdict_ToolSource s))).
Qed.

Lemma Node_serialize_type_get n :
  dict_get (Node_serialize n) "type" = option_map PToolType (Node.type n).
Proof.
  rewrite Node_serialize_get by done. unfold asdict_Node. rewrite dict_get_sparse.
  cbn -[truthy]. by destruct (Node.type n).
Qed.

(** X13.  What comes back of a node without a condition when it is
    serialized and deserialized.  The node is read back; each field that
    is written only when it is true comes back as it was when it is true
    and as the default of [Node.deserialize] otherwise, so a false
    aggregation, cache flag or variant flag comes back as [False] and an
    empty name as [None]; the aggregation comes back as a boolean; the
    type comes back as it was; a tool source comes back field by field in
    the same way, and not at all when none of its fields is true.  When
    the input names are distinct, the inputs come back in their order,
    each read from the text written for it.  (The type of the node, when
    it has one, is a member that [ToolType] gives back.) *)
Theorem Node_deserialize_serialized_plain (n : Node.t) :
  Node.skip n = None -> Node.activate n = None ->
  (forall t, Node.type n = Some t -> ToolType_of_value (PToolType t) = Some t) ->
  exists n',
    Node_deserialize (Node_serialize n) = Ok n'
    /\ Node.name n' = or_default (Node.name n) PNone
    /\ Node.tool n' = or_default (Node.tool n) PNone
    /\ Node.comment n' = or_default (Node.comment n) (PStr "")
    /\ Node.api n' = or_default (Node.api n) PNone
    /\ Node.provider n' = or_default (Node.provider n) PNone
    /\ Node.module n' = or_default (Node.module n) PNone
    /\ Node.connection n' = or_default (Node.connection n) PNone
    /\ Node.aggregation n' = PBool (truthy (Node.aggregation n))
    /\ Node.enable_cache n' = or_default (Node.enable_cache n) (PBool false)
    /\ Node.use_variants n' = or_default (Node.use_variants n) (PBool false)
    /\ Node.type n' = Node.type n
    /\ Node.skip n' = None /\ Node.activate n' = None
    /\ Node.source n'
       = match Node.source n with
         | Some s =>
             if truthy (ToolSource.type s) || truthy (ToolSource.tool s)
                || truthy (ToolSource.path s)
             then Some (ToolSource.mk (or_default (ToolSource.type s) (PStr "code"))
                          (or_default (ToolSource.tool s) PNone)
                          (or_default (ToolSource.path s) PNone))
             else None
         | None => None
         end
    /\ (NoDup (map fst (Node.inputs n)) ->
        Forall2 (fun kv kv' =>
                   kv'.1 = kv.1
                   /\ InputAssignment_deserialize (InputAssignment_serialize kv.2) = Ok kv'.2)
          (Node.inputs n) (Node.inputs n')).
Proof.
  intros Hskip Hact Hty. unfold Node_deserialize.
  unfold dict_get_default at 1. rewrite Node_serialize_inputs, py_or_dict.
  cbn [items_of result_bind].
  destruct (result_map
    (fun kv : string * pyval => let* a := InputAssignment_deserialize kv.2 in Ok (kv.1, a))
    (dict_of_items (map (fun kv => (kv.1, InputAssignment_serialize kv.2)) (Node.inputs n))))
    as [inputs|e] eqn:Hinputs.
  2:{ destruct (result_map_total
        (fun kv : string * pyval => let* a := InputAssignment_deserialize kv.2 in Ok (kv.1, a))
        (dict_of_items (map (fun kv => (kv.1, InputAssignment_serialize kv.2)) (Node.inputs n))))
        as [inputs Hi].
      { intros [k v]. simpl. destruct (InputAssignment_deserialize_total v) as [a ->].
        by eexists. }
      by rewrite Hi in Hinputs. }
  cbn [result_bind].
  destruct (asdict_Node_scalars n) as (Hname & Htool & Hcomment & Hapi & Hprov & Hmod & Hconn
                                       & Hcache & Hvar).
  rewrite (Node_serialize_scalar n "name" (Node.name n)) by done.
  rewrite (Node_serialize_scalar n "tool" (Node.tool n)) by done.
  rewrite (Node_serialize_scalar n "comment" (Node.comment n)) by done.
  rewrite (Node_serialize_scalar n "api" (Node.api n)) by done.
  rewrite (Node_serialize_scalar n "provider" (Node.provider n)) by done.
  rewrite (Node_serialize_scalar n "module" (Node.module n)) by done.
  rewrite (Node_serialize_scalar n "connection" (Node.connection n)) by done.
  rewrite (Node_serialize_scalar n "enable_cache" (Node.enable_cache n)) by done.
  rewrite (Node_serialize_scalar n "use_variants" (Node.use_variants n)) by done.
  rewrite Node_serialize_aggregation.
  unfold dict_has, subscript.
  rewrite Node_serialize_source_get, Node_serialize_type_get, Node_serialize_skip,
    Node_serialize_activate, Hskip, Hact.
  cbn [option_map].
  assert (forall s, truthy (PDict (asdict_ToolSource s))
                    = truthy (ToolSource.type s) || truthy (ToolSource.tool s)
                      || truthy (ToolSource.path s)) as Hsrc.
  { intros s. unfold asdict_ToolSource, sparse. cbn -[truthy].
    by destruct (truthy (ToolSource.type s)), (truthy (ToolSource.tool s)),
      (truthy (ToolSource.path s)). }
  assert (NoDup (map fst (Node.inputs n)) ->
          Forall2 (fun kv kv' =>
                     kv'.1 = kv.1
                     /\ InputAssignment_deserialize (InputAssignment_serialize kv.2) = Ok kv'.2)
            (Node.inputs n) (dict_of_items inputs)) as Hin.
  { intros Hnd. rewrite dict_of_items_NoDup in Hinputs
      by (by rewrite map_map; simpl).
    apply result_map_Forall2 in Hinputs.
    assert (map fst inputs = map fst (Node.inputs n)) as Hkeys.
    { clear -Hinputs. revert inputs Hinputs.
      induction (Node.inputs n) as [|[k a] l IH]; intros inputs Hf; inversion Hf; subst;
        [done|].
      simpl in *. destruct (InputAssignment_deserialize _); [|done].
      simpl in *. match goal with Hy : Ok _ = Ok _ |- _ => injection Hy as <- end.
      simpl. f_equal. by apply IH. }
    rewrite dict_of_items_NoDup by (by rewrite Hkeys).
    clear -Hinputs. revert inputs Hinputs.
    induction (Node.inputs n) as [|[k a] l IH]; intros inputs Hf; inversion Hf; subst;
      [constructor|].
    simpl in *. destruct (InputAssignment_deserialize _) as [a'|] eqn:Ha; [|done].
    simpl in *. match goal with Hy : Ok _ = Ok _ |- _ => injection Hy as <- end.
    constructor; [done|]. by apply IH. }
  destruct (Node.source n) as [s|]; [rewrite Hsrc; destruct (_ || _)|];
    cbn [result_bind]; rewrite ?ToolSource_deserialize_asdict; cbn [result_bind];
    (destruct (Node.type n) as [t|]; cbn [option_map result_bind];
     [unfold ToolType_new; rewrite (Hty t eq_refl); cbn [result_bind]|]);
    eexists; (split; [reflexivity|]); cbn; repeat (split; [reflexivity|]); exact Hin.
Qed.
End SerializedPlainNode.

(** ** The inputs and the outputs of a flow *)

Section FlowDefinitionTheorems.
Context `{Imports}.

Lemma ValueType_new_Ok v s : ValueType_new v = Ok s <-> v = PStr s /\ In s ValueType_values.
Proof.
  unfold ValueType_new. destruct v as [| | |s'| | | |]; try (split; [done|by intros [? _]]).
  destruct (existsb (String.eqb s') ValueType_values) eqn:E.
  - apply existsb_exists in E as (x & Hin & Hx). apply String.eqb_eq in Hx. subst x. split.
    + intros [= <-]. by split.
    + by intros [[= <-] _].
  - split; [done|]. intros [[= ->] Hin]. exfalso.
    assert (existsb (String.eqb s) ValueType_values = true) as E'; [|by rewrite E' in E].
    apply existsb_exists. exists s. split; [done|apply String.eqb_refl].
Qed.

Lemma ValueType_new_member s : In s ValueType_values -> ValueType_new (PStr s) = Ok s.
Proof. intros Hs. by apply ValueType_new_Ok. Qed.

Lemma ValueType_new_error v e : ValueType_new v = Raise e -> e = ValueError_not_a_member v.
Proof.
  unfold ValueType_new. destruct v as [| | |s| | | |]; try by intros [= <-].
  destruct (existsb _ _); [done|]. by intros [= <-].
Qed.

(** X14.  [FlowInputDefinition.deserialize] reads a flow input from a
    dict whose [type] is the value of a value type, and from nothing
    else: it raises the type error on what is no dict, the key error of
    [type] on a dict without it, and else the error of the enum.  What
    [serialize] writes for a flow input is read back, with the default as
    a string, the flags as booleans and the fields that are not true at
    the defaults of the deserializer; and written again, it is the same
    dict, as long as the string of a true default is not empty. *)
Theorem FlowInputDefinition_codec :
  (forall data,
     (exists i, FlowInputDefinition_deserialize data = Ok i) <-> has_value_type data)
  /\ (forall data e,
        FlowInputDefinition_deserialize data = Raise e ->
        match data with
        | PDict d =>
            match dict_get d "type" with
            | Some v => e = ValueError_not_a_member v
            | None => e = KeyError "type"
            end
        | _ => e = TypeError
        end)
  /\ (forall self,
        In (FlowInputDefinition.type self) ValueType_values ->
        FlowInputDefinition_deserialize (PDict (FlowInputDefinition_serialize self))
        = Ok (FlowInputDefinition_normal self))
  /\ (forall self,
        (truthy (FlowInputDefinition.default self) = true ->
         format_value (FlowInputDefinition.default self) <> "") ->
        FlowInputDefinition_serialize (FlowInputDefinition_normal self)
        = FlowInputDefinition_serialize self).
Proof.
  split; [|split; [|split]].
  - intros data. unfold FlowInputDefinition_deserialize, has_value_type. split.
    + intros [i Hi]. destruct data as [| | | | |d| |]; try done. simpl in Hi.
      destruct (dict_get d "type") as [v|] eqn:Hv; [|done]. simpl in Hi.
      destruct (ValueType_new v) as [s|] eqn:Hs; [|done].
      apply ValueType_new_Ok in Hs as [-> Hs]. by exists d, s.
    + intros (d & s & -> & Hv & Hs). cbn -[ValueType_new]. rewrite Hv.
      cbn -[ValueType_new]. rewrite ValueType_new_member by done. by eexists.
  - intros data e. unfold FlowInputDefinition_deserialize.
    destruct data as [| | | | |d| |]; try by intros [= <-]. simpl.
    destruct (dict_get d "type") as [v|]; [|by intros [= <-]]. simpl.
    destruct (ValueType_new v) as [s|e'] eqn:Hs; [done|]. simpl. intros [= <-].
    by apply ValueType_new_error in Hs.
  - intros [type default description enum is_chat_input is_chat_history] Hty.
    unfold FlowInputDefinition_deserialize, FlowInputDefinition_serialize,
      FlowInputDefinition_normal, or_default, get_default, dict_get_default, subscript.
    cbn [FlowInputDefinition.type FlowInputDefinition.default
         FlowInputDefinition.description FlowInputDefinition.enum
         FlowInputDefinition.is_chat_input FlowInputDefinition.is_chat_history] in *.
    destruct (truthy default), (truthy description), (truthy enum), (truthy is_chat_input),
      (truthy is_chat_history); cbn -[ValueType_new];
      rewrite ValueType_new_member by done; reflexivity.
  - intros [type default description enum is_chat_input is_chat_history] Hd.
    unfold FlowInputDefinition_serialize, FlowInputDefinition_normal, or_default.
    cbn [FlowInputDefinition.type FlowInputDefinition.default
         FlowInputDefinition.description FlowInputDefinition.enum
         FlowInputDefinition.is_chat_input FlowInputDefinition.is_chat_history] in *.
    destruct (truthy default) eqn:E1.
    + specialize (Hd eq_refl).
      assert (truthy (PStr (format_value default)) = true) as ->.
      { simpl. destruct (String.eqb (format_value default) "") eqn:E; [|done].
        by apply String.eqb_eq in E. }
      assert (format_value (PStr (format_value default)) = format_value default) as -> by done.
      destruct (truthy description) eqn:E2, (truthy enum) eqn:E3, (truthy is_chat_input),
        (truthy is_chat_history); rewrite ?E2, ?E3; reflexivity.
    + destruct (truthy description) eqn:E2, (truthy enum) eqn:E3, (truthy is_chat_input),
        (truthy is_chat_history); rewrite ?E2, ?E3; reflexivity.
Qed.
End FlowDefinitionTheorems.

Section FlowOutputTheorems.
Context `{Imports}.

Lemma FlowOutputDefinition_serialize_reference self :
  dict_get (FlowOutputDefinition_serialize self) "reference"
  = Some (InputAssignment_serialize (FlowOutputDefinition.reference self)).
Proof.
  unfold FlowOutputDefinition_serialize.
  destruct (truthy (FlowOutputDefinition.description self)),
    (truthy (FlowOutputDefinition.evaluation_only self)),
    (truthy (FlowOutputDefinition.is_chat_output self)); reflexivity.
Qed.

(** X15.  The reference of a flow output.  [FlowOutputDefinition.deserialize]
    reads an output from a dict whose [type] is the value of a value type,
    whatever the reference holds; without the key [reference] the output
    has the literal of the empty string as its reference, and [serialize]
    writes a reference for every output, so that the empty string is
    written for it, a key the dict did not have.  An output read with the
    reference [${x.y}], x the name of a node without a dot other than
    [flow] and [inputs], makes that node referenced by the flow outputs,
    and an output read without a reference refers to no node. *)
Theorem FlowOutputDefinition_reference :
  (forall data,
     (exists o, FlowOutputDefinition_deserialize data = Ok o) <-> has_value_type data)
  /\ (forall self,
        dict_get (FlowOutputDefinition_serialize self) "reference"
        = Some (InputAssignment_serialize (FlowOutputDefinition.reference self)))
  /\ (forall d o,
        FlowOutputDefinition_deserialize (PDict d) = Ok o ->
        dict_get d "reference" = None ->
        FlowOutputDefinition.reference o = InputAssignment_new (PStr "") LITERAL "" ""
        /\ (is_connection_value (PStr "") = false ->
            dict_get (FlowOutputDefinition_serialize o) "reference" = Some (PStr ""))
        /\ forall name outputs node,
             is_referenced_by_flow_output [(name, o)] node = false
             /\ is_referenced_by_flow_output ((name, o) :: outputs) node
                = is_referenced_by_flow_output outputs node)
  /\ (forall d o x y name outputs node,
        FlowOutputDefinition_deserialize (PDict d) = Ok o ->
        dict_get d "reference" = Some (PStr ("${" +:+ (x +:+ "." +:+ y) +:+ "}")) ->
        str_contains "." x = false -> x <> "flow" -> x <> "inputs" ->
        str_contains "." y = false ->
        Node.name node = PStr x ->
        In (name, o) outputs ->
        is_referenced_by_flow_output outputs node = true).
Proof.
  split; [|split; [|split]].
  - intros data. unfold FlowOutputDefinition_deserialize, has_value_type. split.
    + intros [o Ho]. destruct data as [| | | | |d| |]; try done. cbn -[ValueType_new] in Ho.
      destruct (dict_get d "type") as [v|] eqn:Hv; [|done]. cbn -[ValueType_new] in Ho.
      destruct (ValueType_new v) as [s|] eqn:Hs; [|done].
      apply ValueType_new_Ok in Hs as [-> Hs]. by exists d, s.
    + intros (d & s & -> & Hv & Hs). cbn -[ValueType_new]. rewrite Hv.
      cbn -[ValueType_new InputAssignment_deserialize].
      rewrite ValueType_new_member by done. cbn -[InputAssignment_deserialize].
      destruct (InputAssignment_deserialize_total (dict_get_default d "reference" (PStr "")))
        as [a ->]. by eexists.
  - apply FlowOutputDefinition_serialize_reference.
  - intros d o Ho Href.
    assert (FlowOutputDefinition.reference o = InputAssignment_new (PStr "") LITERAL "" "")
      as Hr.
    { revert Ho. unfold FlowOutputDefinition_deserialize, get_default, dict_get_default.
      rewrite Href. destruct (subscript (PDict d) "type") as [v|]; [|done].
      cbn -[ValueType_new]. destruct (ValueType_new v); [|done]. cbn. by intros [= <-]. }
    split; [done|]. split.
    + intros Hc. rewrite FlowOutputDefinition_serialize_reference, Hr.
      unfold InputAssignment_serialize. cbn. by rewrite Hc.
    + intros name outputs node. unfold is_referenced_by_flow_output. cbn. by rewrite Hr.
  - intros d o x y name outputs node Ho Href Hx Hf Hi Hy Hname Hin.
    assert (FlowOutputDefinition.reference o = InputAssignment_new (PStr x) NODE_REFERENCE y "")
      as Hr.
    { revert Ho. unfold FlowOutputDefinition_deserialize, get_default, dict_get_default.
      rewrite Href. destruct (subscript (PDict d) "type") as [v|]; [|done].
      cbn -[ValueType_new InputAssignment_deserialize String.append].
      destruct (ValueType_new v); [|done].
      cbn -[InputAssignment_deserialize String.append].
      rewrite deserialize_wrapped. unfold InputAssignment_deserialize_reference.
      rewrite not_flow_input, node_reference_section by done. cbn. by intros [= <-]. }
    unfold is_referenced_by_flow_output. apply existsb_exists. exists o. split.
    + unfold dict_values. apply in_map_iff. by exists (name, o).
    + rewrite Hr, Hname. cbn. apply String.eqb_refl.
Qed.

(** X16.  The chat input and the chat output of a flow are the first in
    the order of declaration that are flagged, whatever follows them; a
    flow is a chat flow exactly when one of its inputs is flagged, and an
    input read from a dict without the key [is_chat_input] is not. *)
Theorem chat_names (inputs : dict FlowInputDefinition.t) (outputs : dict FlowOutputDefinition.t) :
  (forall pre name i post,
     inputs = (pre ++ (name, i) :: post)%list ->
     (forall kv, In kv pre -> truthy (FlowInputDefinition.is_chat_input kv.2) = false) ->
     truthy (FlowInputDefinition.is_chat_input i) = true ->
     get_chat_input_name inputs = Some name)
  /\ (forall pre name o post,
        outputs = (pre ++ (name, o) :: post)%list ->
        (forall kv, In kv pre -> truthy (FlowOutputDefinition.is_chat_output kv.2) = false) ->
        truthy (FlowOutputDefinition.is_chat_output o) = true ->
        get_chat_output_name outputs = Some name)
  /\ (is_chat_flow inputs = true
      <-> exists name i, In (name, i) inputs
            /\ truthy (FlowInputDefinition.is_chat_input i) = true)
  /\ (forall d i,
        FlowInputDefinition_deserialize (PDict d) = Ok i ->
        dict_get d "is_chat_input" = None ->
        truthy (FlowInputDefinition.is_chat_input i) = false).
Proof.
  assert (forall {A} (p : string * A -> bool) pre x post,
            (forall kv, In kv pre -> p kv = false) -> p x = true ->
            List.find p (pre ++ x :: post)%list = Some x) as Hfind.
  { intros A p pre x post Hpre Hx. induction pre as [|y pre IH]; simpl.
    - by rewrite Hx.
    - rewrite (Hpre y) by (by left). apply IH. intros kv Hkv. apply Hpre. by right. }
  split; [|split; [|split]].
  - intros pre name i post -> Hpre Hi. unfold get_chat_input_name.
    by rewrite (Hfind _ (fun kv => truthy (FlowInputDefinition.is_chat_input kv.2))
                  pre (name, i) post Hpre Hi).
  - intros pre name o post -> Hpre Ho. unfold get_chat_output_name.
    by rewrite (Hfind _ (fun kv => truthy (FlowOutputDefinition.is_chat_output kv.2))
                  pre (name, o) post Hpre Ho).
  - unfold is_chat_flow, get_chat_input_name. split.
    + destruct (List.find _ inputs) as [[name i]|] eqn:E; [|done]. intros _.
      apply find_some in E as [Hin Hi]. by exists name, i.
    + intros (name & i & Hin & Hi).
      destruct (List.find _ inputs) as [kv|] eqn:E; [done|].
      pose proof (find_none _ _ E (name, i) Hin) as Hn. simpl in Hn. by rewrite Hn in Hi.
  - intros d i. unfold FlowInputDefinition_deserialize, get_default, dict_get_default.
    destruct (subscript (PDict d) "type") as [v|]; [|done]. cbn -[ValueType_new].
    destruct (ValueType_new v); [|done]. cbn. intros [= <-] ->. done.
Qed.
End FlowOutputTheorems.

(** ** The log contexts *)

Section LogContextTheorems.
Context {Logger RunMode : Type}.

Lemma get_current_snoc (s : list (@LogContext Logger RunMode)) c :
  get_current (s ++ [c])%list = Some c.
Proof.
  unfold get_current. destruct (s ++ [c])%list eqn:E; [by destruct s|].
  rewrite <- E. apply last_snoc.
Qed.

Lemma clear_current_snoc (s : list (@LogContext Logger RunMode)) c :
  clear_current (s ++ [c])%list = s.
Proof.
  unfold clear_current. destruct (s ++ [c])%list eqn:E; [by destruct s|].
  rewrite <- E. apply removelast_last.
Qed.

(** X17.  The log contexts are a stack.  Setting a context makes it the
    current one, and clearing after it gives back the contexts as they
    were; what is no [LogContext] is not set; on no context there is no
    current one and clearing does nothing.  So contexts that are set one
    after the other and cleared as many times leave the stack as it was,
    and after a clearing the current context is the one that was set
    before the one cleared. *)
Theorem log_context_stack (s : list (@LogContext Logger RunMode)) :
  (forall c,
     get_current (set_current (ALogContext c) s) = Some c
     /\ clear_current (set_current (ALogContext c) s) = s)
  /\ (forall v, set_current (AnotherObject v) s = s)
  /\ (get_current (@nil (@LogContext Logger RunMode)) = None
      /\ clear_current (@nil (@LogContext Logger RunMode)) = [])
  /\ (forall cs,
        fold_right (fun _ st => clear_current st)
          (fold_left (fun st c => set_current (ALogContext c) st) cs s) cs
        = s)
  /\ (forall cs c c',
        get_current
          (clear_current
             (fold_left (fun st c => set_current (ALogContext c) st) (cs ++ [c; c'])%list s))
        = Some c).
Proof.
  assert (forall cs (st : list (@LogContext Logger RunMode)),
            fold_left (fun st c => set_current (ALogContext c) st) cs st = (st ++ cs)%list)
    as Hpush.
  { induction cs as [|c cs IH]; intros st; simpl.
    - by rewrite app_nil_r.
    - rewrite IH. by rewrite <- app_assoc. }
  split; [|split; [|split; [|split]]].
  - intros c. simpl. split; [apply get_current_snoc|apply clear_current_snoc].
  - done.
  - done.
  - intros cs. rewrite Hpush. induction cs as [|c cs IH] using rev_ind; simpl.
    + by rewrite app_nil_r.
    + rewrite fold_right_app. simpl. rewrite app_assoc, clear_current_snoc. apply IH.
  - intros cs c c'. rewrite Hpush.
    replace (s ++ cs ++ [c; c'])%list with ((s ++ cs ++ [c]) ++ [c'])%list
      by (by rewrite <- !app_assoc).
    rewrite clear_current_snoc, app_assoc. apply get_current_snoc.
Qed.
End LogContextTheorems.

(** ** The trees that are nodes *)

Lemma SkipCondition_deserialize_keys v c :
  SkipCondition_deserialize v = Ok c -> has_keys ["when"; "is"; "return"] v = true.
Proof.
  unfold SkipCondition_deserialize. destruct v as [| | | | |d| |]; try done.
  unfold has_keys, forallb, subscript, dict_has.
  destruct (dict_get d "when"); [|done]. cbn [result_bind].
  destruct (InputAssignment_deserialize _); [|done]. cbn [result_bind].
  destruct (dict_get d "is"); [|done]. cbn [result_bind].
  destruct (dict_get d "return"); done.
Qed.

Lemma ActivateCondition_deserialize_keys v c :
  ActivateCondition_deserialize v = Ok c -> has_keys ["when"; "is"] v = true.
Proof.
  unfold ActivateCondition_deserialize. destruct v as [| | | | |d| |]; try done.
  unfold has_keys, forallb, subscript, dict_has.
  destruct (dict_get d "when"); [|done]. cbn [result_bind].
  destruct (InputAssignment_deserialize _); [|done]. cbn [result_bind].
  destruct (dict_get d "is"); done.
Qed.

Lemma optional_field_inv {C} (data : dict pyval) key (des : pyval -> result C)
    (set : C -> Node.t -> Node.t) (node node' : Node.t) :
  (if dict_has data key then
     let* v := subscript (PDict data) key in
     let* c := des v in
     Ok (set c node)
   else Ok node) = Ok node' ->
  match dict_get data key with
  | Some v => exists c, des v = Ok c
  | None => True
  end.
Proof.
  unfold dict_has, subscript. destruct (dict_get data key) as [v|]; [|done].
  cbn [result_bind]. destruct (des v) as [c|]; [|done]. by exists c.
Qed.

Section NodeDomain.
Context `{Imports}.

(** X18.  The trees that [Node.deserialize] reads.  It gives a node
    exactly for a tree whose [inputs], when true, are a dict, whose
    [source], when present, is a dict, whose [type], when present, is the
    value of a tool type, whose [skip], when present, is a dict with
    [when], [is] and [return], whose [activate], when present, is a dict
    with [when] and [is], and which does not have both of them. *)
Theorem Node_deserialize_domain (data : dict pyval) :
  (exists n, Node_deserialize data = Ok n)
  <-> node_tree_shape data = true
      /\ dict_has data "skip" && dict_has data "activate" = false.
Proof.
  split.
  - intros [n Hn]. pose proof (Node_deserialize_inv data) as Hinv. rewrite Hn in Hinv.
    destruct Hinv as [_ Hboth]. split; [|done]. clear Hboth.
    revert Hn. unfold Node_deserialize, node_tree_shape.
    destruct (items_of _) as [items|] eqn:Hitems; [|done]. cbn [result_bind].
    destruct (result_map _ items) as [inputs|]; [|done]. cbn [result_bind].
    match goal with |- context [Node.mk ?a ?b ?c ?d ?e ?f ?g ?h ?i ?j ?k None None None None] =>
      set (node := Node.mk a b c d e f g h i j k None None None None) end.
    destruct (if dict_has data "source" then _ else _) as [n1|] eqn:H1; [|done].
    cbn [result_bind].
    destruct (if dict_has data "type" then _ else _) as [n2|] eqn:H2; [|done].
    cbn [result_bind].
    destruct (if dict_has data "skip" then _ else _) as [n3|] eqn:H3; [|done].
    cbn [result_bind].
    destruct (if dict_has data "activate" then _ else _) as [n4|] eqn:H4; [|done].
    intros _.
    apply optional_field_inv in H1, H2, H3, H4.
    repeat (apply andb_true_iff; split).
    + destruct (py_or _ _); done.
    + destruct (dict_get data "source") as [v|]; [|done]. destruct H1 as [s Hs].
      destruct v; done.
    + destruct (dict_get data "type") as [v|]; [|done]. destruct H2 as [t Ht].
      unfold ToolType_new in Ht. by destruct (ToolType_of_value v).
    + destruct (dict_get data "skip") as [v|]; [|done]. destruct H3 as [c Hc].
      by apply SkipCondition_deserialize_keys in Hc.
    + destruct (dict_get data "activate") as [v|]; [|done]. destruct H4 as [c Hc].
      by apply ActivateCondition_deserialize_keys in Hc.
  - intros [Hshape Hboth]. destruct (Node_deserialize_shape data Hshape) as [Hn|[nm Hnm]];
      [done|].
    pose proof (Node_deserialize_inv data) as Hinv. rewrite Hnm in Hinv.
    destruct (Hinv nm eq_refl) as (Hs & Ha & _). by rewrite Hs, Ha in Hboth.
Qed.
End NodeDomain.

(** ** What default variants in place keep *)

Lemma variant_lookup_error table name e : variant_lookup table name = Raise e -> e = TypeError.
Proof.
  unfold variant_lookup. destruct table as [[|e0 t]|]; [done| |done].
  destruct (dict_get_py (e0 :: t) name) as [[entry|]|e'] eqn:E1; cbn [result_bind].
  - destruct (NodeVariants.default_variant_id entry); simpl; congruence.
  - done.
  - destruct name; simpl in E1; congruence.
Qed.

Lemma variant_lookup_default table name v :
  variant_lookup table name = Ok (Some v) ->
  exists s, name = PStr s /\ default_variant table s = Some v.
Proof.
  unfold variant_lookup, default_variant. destruct table as [[|e0 t]|]; [done| |done].
  destruct name as [| | |s| | | |]; try done. cbn [dict_get_py result_bind].
  destruct (dict_get (e0 :: t) s) as [entry|] eqn:He; [|done].
  destruct (NodeVariants.default_variant_id entry) as [| | |i| | | |] eqn:Hi; try done.
  cbn [dict_get_py]. intros [= Hv]. exists s. split; [done|]. by rewrite He, Hi.
Qed.

Lemma default_variant_or_self_result table n h :
  match default_variant_or_self table n h with
  | (Ok r, _) => r = n \/ is_default_variant_node table r
  | (Raise e, h') => e = TypeError /\ h' = h
  end.
Proof.
  unfold default_variant_or_self, bind, load. cbn beta iota.
  destruct (truthy (Node.use_variants (h n))); [|by left].
  rewrite _apply_default_node_variant_lookup.
  destruct (variant_lookup table (Node.name (h n))) as [[v|]|e] eqn:E.
  - right. apply variant_lookup_default in E as (s & _ & Hs). by exists s, v.
  - by left.
  - split; [|done]. by apply variant_lookup_error in E.
Qed.

Lemma map_M_default_variants table ns h :
  match map_M (default_variant_or_self table) ns h with
  | (Ok rs, _) => Forall2 (fun n r => r = n \/ is_default_variant_node table r) ns rs
  | (Raise e, _) => e = TypeError
  end.
Proof.
  revert h. induction ns as [|n ns IH]; intros h; [constructor|].
  cbn [map_M]. unfold bind at 1.
  pose proof (default_variant_or_self_result table n h) as Hstep.
  destruct (default_variant_or_self table n h) as [[r|e] h1]; [|by destruct Hstep].
  unfold bind at 1. specialize (IH h1).
  destruct (map_M _ ns h1) as [[rs|e] h2]; [|done]. by constructor.
Qed.

(** X19.  What [_apply_default_node_variants] keeps.  It changes no
    stored node other than the default variants of the table, and of those
    the name only, which becomes the name of a node of the flow; the flow
    it returns has as many nodes, each the node that was there or a
    default variant of the table, and the same tools and table; and it can
    fail with the type error of a name that has no hash only. *)
Theorem apply_default_node_variants_frame (self : Flow.t) (h : store) :
  (forall l,
     (_apply_default_node_variants self h).2 l = h l
     \/ (is_default_variant_node (Flow.node_variants self) l
         /\ exists n, In n (Flow.nodes self)
              /\ (_apply_default_node_variants self h).2 l
                 = Node.set_name (Node.name (h n)) (h l)))
  /\ (forall self1 h1,
        _apply_default_node_variants self h = (Ok self1, h1) ->
        self1 = Flow_set_nodes (Flow.nodes self1) self
        /\ Forall2 (fun n r => r = n \/ is_default_variant_node (Flow.node_variants self) r)
             (Flow.nodes self) (Flow.nodes self1))
  /\ (forall e h1, _apply_default_node_variants self h = (Raise e, h1) -> e = TypeError).
Proof.
  unfold _apply_default_node_variants.
  pose proof (renamed_map_M self h (Flow.nodes self) h (fun n Hn => Hn) (renamed_refl self h))
    as Hr.
  pose proof (map_M_default_variants (Flow.node_variants self) (Flow.nodes self) h) as Hm.
  unfold bind.
  destruct (map_M _ (Flow.nodes self) h) as [[rs|e] h1]; cbn [snd fst] in *.
  - split; [exact Hr|]. split; [|done]. intros self1 h1' [= <- <-]. by split.
  - split; [exact Hr|]. split; [done|]. by intros e' h1' [= <- <-].
Qed.

(** ** Instances of the further properties *)

Lemma apply_default_node_variants_idempotent_witness :
  _apply_default_node_variants variant_flow variant_store
  = (Ok (Flow_set_nodes [1] variant_flow), alter (Node.set_name (PStr "C")) 1 variant_store)
  /\ exists h2,
       _apply_default_node_variants (Flow_set_nodes [1] variant_flow)
         (alter (Node.set_name (PStr "C")) 1 variant_store)
       = (Ok (Flow_set_nodes [1] variant_flow), h2)
       /\ forall l, h2 l = alter (Node.set_name (PStr "C")) 1 variant_store l.
Proof.
  split; [reflexivity|].
  apply (apply_default_node_variants_idempotent variant_flow (Flow_set_nodes [1] variant_flow)
           variant_store (alter (Node.set_name (PStr "C")) 1 variant_store)).
  reflexivity.
Defined.

Lemma get_connection_names_after_default_variants_witness :
  _apply_default_node_variants variant_flow variant_store
  = (Ok (Flow_set_nodes [1] variant_flow), alter (Node.set_name (PStr "C")) 1 variant_store)
  /\ (@get_connection_names sample_imports (Flow_set_nodes [1] variant_flow)
        (alter (Node.set_name (PStr "C")) 1 variant_store)).1
     = (@get_connection_names sample_imports variant_flow variant_store).1
  /\ forall l,
       (@get_connection_names sample_imports (Flow_set_nodes [1] variant_flow)
          (alter (Node.set_name (PStr "C")) 1 variant_store)).2 l
       = (@get_connection_names sample_imports variant_flow variant_store).2 l.
Proof.
  split; [reflexivity|].
  apply (@get_connection_names_after_default_variants sample_imports variant_flow
           (Flow_set_nodes [1] variant_flow) variant_store
           (alter (Node.set_name (PStr "C")) 1 variant_store)).
  reflexivity.
Defined.

Lemma Node_deserialize_serialized_condition_witness :
  (forall t, Node.type sample_node_skip = Some t ->
             @ToolType_of_value sample_imports (PToolType t) <> None)
  /\ (Node.skip sample_node_skip <> None \/ Node.activate sample_node_skip <> None)
  /\ @Node_deserialize sample_imports (@Node_serialize sample_imports sample_node_skip)
     = Raise (KeyError "when").
Proof.
  split; [discriminate|]. split; [left; discriminate|].
  apply (@Node_deserialize_serialized_condition sample_imports sample_node_skip);
    [discriminate|left; discriminate].
Defined.

Lemma Node_deserialize_serialized_plain_witness :
  Node.skip sample_node_plain = None
  /\ Node.activate sample_node_plain = None
  /\ (forall t, Node.type sample_node_plain = Some t ->
                @ToolType_of_value sample_imports (PToolType t) = Some t)
  /\ exists n',
       @Node_deserialize sample_imports (@Node_serialize sample_imports sample_node_plain)
       = Ok n'
       /\ Node.name n' = or_default (Node.name sample_node_plain) PNone
       /\ Node.tool n' = or_default (Node.tool sample_node_plain) PNone
       /\ Node.comment n' = or_default (Node.comment sample_node_plain) (PStr "")
       /\ Node.api n' = or_default (Node.api sample_node_plain) PNone
       /\ Node.provider n' = or_default (Node.provider sample_node_plain) PNone
       /\ Node.module n' = or_default (Node.module sample_node_plain) PNone
       /\ Node.connection n' = or_default (Node.connection sample_node_plain) PNone
       /\ Node.aggregation n' = PBool (truthy (Node.aggregation sample_node_plain))
       /\ Node.enable_cache n' = or_default (Node.enable_cache sample_node_plain) (PBool false)
       /\ Node.use_variants n' = or_default (Node.use_variants sample_node_plain) (PBool false)
       /\ Node.type n' = Node.type sample_node_plain
       /\ Node.skip n' = None /\ Node.activate n' = None
       /\ Node.source n'
          = match Node.source sample_node_plain with
            | Some s =>
                if truthy (ToolSource.type s) || truthy (ToolSource.tool s)
                   || truthy (ToolSource.path s)
                then Some (ToolSource.mk (or_default (ToolSource.type s) (PStr "code"))
                             (or_default (ToolSource.tool s) PNone)
                             (or_default (ToolSource.path s) PNone))
                else None
            | None => None
            end
       /\ (NoDup (map fst (Node.inputs sample_node_plain)) ->
           Forall2 (fun kv kv' =>
                      kv'.1 = kv.1
                      /\ InputAssignment_deserialize
                           (@InputAssignment_serialize sample_imports kv.2) = Ok kv'.2)
             (Node.inputs sample_node_plain) (Node.inputs n')).
Proof.
  split; [reflexivity|]. split; [reflexivity|]. split; [discriminate|].
  apply (@Node_deserialize_serialized_plain sample_imports sample_node_plain);
    [reflexivity|reflexivity|discriminate].
Defined.
